(** * ImprovisedBackupDatabaseDocker: backup / restore orchestration

    A shallow embedding of [main.py], [utils/client_backup.py] and
    [utils/client_restore.py], and the properties of the orchestration
    engine proved (or refuted) on it.

    Embedded: [_has_today_backup]; [run], [docker_exec],
    [list_postgres_databases], [list_mysql_databases], [backup_postgres_db];
    [_list_backup_files], [_choose_latest], [_restore_postgres],
    [_restore_mysql], [_mysql_restore_shell], [restore_database].
    Embedded further on, with the rest of the program around them:
    [ensure_backup_dir], [backup_mysql_db], [backup_database], [backup_all];
    [run_once], [daemon]; [_select_config]; [init_logging] of
    [utils/logging_config.py]; [file_sha256sum], [verify_file_integrity]
    and [copy_file] of [utils/check.py].

    Conventions of the embedding
    - a Python [str] is a [string]; a character stands for a code point
      below 256 (log formats are kept byte for byte);
    - a [Dict[str, str]] is a [gmap string string];
    - an [Optional[str]] is an [option string]; Python truthiness of such a
      value ([if db_name:]) is [truthy];
    - code that spawns processes, reads the clock or logs runs in the monad
      [M] of module [Run]: state passing over a [world] that records every
      process spawned and every log record, with Python exceptions as the
      error component;
    - the command lines that a backup and a restore are to run are written
      out on their own in module [Protocol], and the executors are compared
      with them. *)

From Stdlib Require Import ZArith Ascii String List Lia Bool Permutation Sorted.
From stdpp Require Import base option list gmap strings fin_maps.


(** ** Python string primitives *)

Module PyStr.

(** [s.startswith(p)] *)
Fixpoint startswith (s p : string) {struct p} : bool :=
  match p, s with
  | EmptyString, _ => true
  | String _ _, EmptyString => false
  | String b p', String a s' => if Ascii.eqb a b then startswith s' p' else false
  end.

(** [s.endswith(e)]: [s] is [e], or the tail of [s] ends with [e]. *)
Fixpoint endswith (s e : string) : bool :=
  String.eqb s e ||
  match s with
  | EmptyString => false
  | String _ s' => endswith s' e
  end.

(** [sub in s] *)
Fixpoint contains (s sub : string) : bool :=
  startswith s sub ||
  match s with
  | EmptyString => false
  | String _ s' => contains s' sub
  end.

(** [any(f.endswith(ext) for ext in exts)] *)
Definition endswith_any (f : string) (exts : list string) : bool :=
  existsb (endswith f) exts.

(** Truthiness of an [Optional[str]]: [None] and the empty string are false. *)
Definition truthy (o : option string) : bool :=
  match o with
  | Some (String _ _) => true
  | _ => false
  end.

(** Relational readings, against which the boolean tests are justified. *)
Definition starts_with (s p : string) : Prop := exists r, s = p +:+ r.
Definition ends_with (s e : string) : Prop := exists r, s = r +:+ e.
Definition has_substring (s sub : string) : Prop :=
  exists a b, s = a +:+ sub +:+ b.

(** *** [str.strip], [str.splitlines], [str.lower] *)

(** [str.isspace] on one character (code points below 256). *)
Definition is_space (c : ascii) : bool :=
  let n := nat_of_ascii c in
  ((9 <=? n) && (n <=? 13)) || ((28 <=? n) && (n <=? 32))
  || (n =? 133) || (n =? 160).

(** The line boundaries of [str.splitlines] (code points below 256). *)
Definition is_linebreak (c : ascii) : bool :=
  let n := nat_of_ascii c in
  ((10 <=? n) && (n <=? 13)) || ((28 <=? n) && (n <=? 30)) || (n =? 133).

Definition CR : ascii := ascii_of_nat 13.
Definition LF : ascii := ascii_of_nat 10.

Fixpoint lstrip (s : string) : string :=
  match s with
  | String c s' => if is_space c then lstrip s' else s
  | EmptyString => EmptyString
  end.

Fixpoint rstrip (s : string) : string :=
  match s with
  | EmptyString => EmptyString
  | String c s' =>
      match rstrip s' with
      | EmptyString => if is_space c then EmptyString else String c EmptyString
      | r => String c r
      end
  end.

(** [s.strip()] *)
Definition strip (s : string) : string := rstrip (lstrip s).

(** [s.splitlines()]: a boundary closes the current line, [\r\n] counts as
    one boundary, and no empty line follows the last boundary. *)
Fixpoint splitlines (s : string) : list string :=
  match s with
  | EmptyString => []
  | String c s' =>
      if is_linebreak c then
        EmptyString ::
        match s' with
        | String c2 s'' =>
            if Ascii.eqb c CR && Ascii.eqb c2 LF then splitlines s''
            else splitlines s'
        | EmptyString => []
        end
      else
        match splitlines s' with
        | [] => [String c EmptyString]
        | l :: ls => String c l :: ls
        end
  end.

(** [str.lower] on one character: the ASCII capitals and the Latin-1
    capitals (all but the multiplication sign) move up by 32. *)
Definition lower_char (c : ascii) : ascii :=
  let n := nat_of_ascii c in
  if ((65 <=? n) && (n <=? 90))
     || ((192 <=? n) && (n <=? 222) && negb (n =? 215))
  then ascii_of_nat (n + 32) else c.

Fixpoint lower (s : string) : string :=
  match s with
  | EmptyString => EmptyString
  | String c s' => String (lower_char c) (lower s')
  end.

(** [sep.join(parts)] *)
Fixpoint join (sep : string) (parts : list string) : string :=
  match parts with
  | [] => EmptyString
  | [x] => x
  | x :: rest => x +:+ sep +:+ join sep rest
  end.

(** [s.rfind(c)] for a one-character [c]: the index of the last
    occurrence, or -1. *)
Fixpoint rfind (s : string) (c : ascii) : Z :=
  match s with
  | EmptyString => (-1)%Z
  | String a s' =>
      let r := rfind s' c in
      if (0 <=? r)%Z then (r + 1)%Z
      else if Ascii.eqb a c then 0%Z else (-1)%Z
  end.

(** The slices [s[n:]] and [s[:n]] for [0 <= n]. *)
Fixpoint slice_from (n : nat) (s : string) : string :=
  match n, s with
  | S n', String _ s' => slice_from n' s'
  | _, _ => s
  end.

Fixpoint slice_to (n : nat) (s : string) : string :=
  match n, s with
  | S n', String a s' => String a (slice_to n' s')
  | _, _ => EmptyString
  end.

(** [s.replace(c, by)] for a one-character [c]. *)
Fixpoint replace_char (s : string) (c : ascii) (by_ : string) : string :=
  match s with
  | EmptyString => EmptyString
  | String a s' =>
      (if Ascii.eqb a c then by_ else String a EmptyString)
      +:+ replace_char s' c by_
  end.

(** [s.split(c, 1)[0]]: what precedes the first [c], or all of [s]. *)
Fixpoint before_first (s : string) (c : ascii) : string :=
  match s with
  | EmptyString => EmptyString
  | String a s' => if Ascii.eqb a c then EmptyString else String a (before_first s' c)
  end.

(** [s[-1]], when [s] is not empty. *)
Fixpoint last_char (s : string) : option ascii :=
  match s with
  | EmptyString => None
  | String c s' =>
      match last_char s' with
      | None => Some c
      | Some d => Some d
      end
  end.

(** Truthiness of a [str]. *)
Definition nonempty (s : string) : bool :=
  match s with EmptyString => false | String _ _ => true end.

(** [l.insert(i, x)] on a list. *)
Definition list_insert_at {A} (i : nat) (x : A) (l : list A) : list A :=
  take i l ++ x :: drop i l.

End PyStr.

(** ** [os.path] (POSIX) and [shlex] *)

Module PyPath.
Import PyStr.

(** [os.path.join(a, b)] *)
Definition join (a b : string) : string :=
  if startswith b "/" then b
  else if negb (nonempty a) || endswith a "/" then a +:+ b
  else a +:+ "/" +:+ b.

(** [os.path.basename(p)]: [p[p.rfind('/') + 1:]] *)
Definition basename (p : string) : string :=
  slice_from (Z.to_nat (rfind p "/" + 1)) p.

(** [os.path.splitext(p)]: the extension starts at the last dot, provided
    that dot comes after the last slash and after a character of the file
    name that is not a dot. *)
Definition splitext (p : string) : string * string :=
  let sepIndex := rfind p "/" in
  let dotIndex := rfind p "." in
  if (sepIndex <? dotIndex)%Z then
    let name_part :=
      slice_to (Z.to_nat (dotIndex - (sepIndex + 1)))
               (slice_from (Z.to_nat (sepIndex + 1)) p) in
    if forallb (Ascii.eqb ".") (list_ascii_of_string name_part)
    then (p, EmptyString)
    else (slice_to (Z.to_nat dotIndex) p, slice_from (Z.to_nat dotIndex) p)
  else (p, EmptyString).

End PyPath.

Module Shlex.
Import PyStr.

(** The characters outside [[^\w@%+=:,./-]] (with [re.ASCII]). *)
Definition is_safe_char (c : ascii) : bool :=
  let n := nat_of_ascii c in
  ((48 <=? n) && (n <=? 57)) || ((65 <=? n) && (n <=? 90))
  || ((97 <=? n) && (n <=? 122))
  || existsb (Ascii.eqb c) (list_ascii_of_string "_@%+=:,./-").

Definition squote : ascii := "'"%char.
Definition dquote : ascii := ascii_of_nat 34.

(** The five characters that [shlex.quote] puts for one single quote:
    close the quote, a double-quoted single quote, open again. *)
Definition escaped_squote : string :=
  String squote (String dquote (String squote (String dquote (String squote EmptyString)))).

(** [shlex.quote(s)] *)
Definition quote (s : string) : string :=
  if negb (nonempty s) then String squote (String squote EmptyString)
  else if forallb is_safe_char (list_ascii_of_string s) then s
  else String squote (replace_char s squote escaped_squote)
       +:+ String squote EmptyString.

End Shlex.

(** ** Clock readings and [strftime] *)

Module PyTime.

(** The fields of a [datetime] that the program formats. *)
Record datetime := mkDatetime {
  year : nat; month : nat; day : nat;
  hour : nat; minute : nat; second : nat
}.

Definition digit (n : nat) : ascii := ascii_of_nat (48 + n mod 10).

(** Two-digit, zero-padded field ([%m], [%d], [%H], [%M], [%S]). *)
Definition pad2 (n : nat) : string :=
  String (digit (n / 10)) (String (digit n) EmptyString).

(** [%Y]: four digits for the years 1000 to 9999, the only ones that
    [datetime.now()] yields. *)
Definition pad4 (n : nat) : string :=
  String (digit (n / 1000)) (String (digit (n / 100)) (pad2 n)).

(** [strftime("%Y%m%d")] *)
Definition strftime_Ymd (t : datetime) : string :=
  pad4 (year t) +:+ pad2 (month t) +:+ pad2 (day t).

(** [strftime("%Y%m%d_%H%M%S")] *)
Definition strftime_Ymd_HMS (t : datetime) : string :=
  strftime_Ymd t +:+ "_" +:+ pad2 (hour t) +:+ pad2 (minute t) +:+ pad2 (second t).

End PyTime.

(** ** The file system as the program observes it *)

Module PyOs.

(** [listdir d] is [None] when [d] is not a directory ([os.path.isdir] is
    false), else the names in it, in the order [os.listdir] yields them;
    [getmtime] is the modification time of a path. *)
Record filesystem := mkFs {
  listdir : string -> option (list string);
  getmtime : string -> Z
}.

Definition isdir (fs : filesystem) (d : string) : bool :=
  match listdir fs d with Some _ => true | None => false end.

End PyOs.

(** ** [main.py]: the dedup guard *)

Module Main.
Import PyStr PyTime PyOs.

(** The default of the keyword argument [extensions]. *)
Definition default_extensions : list string := [".sql"; ".backup"].

(** The body of the [for f in os.listdir(backup_dir)] loop of
    [_has_today_backup]: [continue] on a name that fails the name test,
    [return True] on the first one that also has a listed extension. *)
Fixpoint has_today_backup_loop (files : list string) (db_name : option string)
    (date_tag : string) (extensions : list string) : bool :=
  match files with
  | [] => false
  | f :: rest =>
      let skip :=
        match db_name with
        | Some (String c n) =>
            negb (startswith f (String c n +:+ "_" +:+ date_tag))
        | _ => negb (contains f ("_" +:+ date_tag +:+ "_"))
        end in
      if skip then has_today_backup_loop rest db_name date_tag extensions
      else if endswith_any f extensions then true
      else has_today_backup_loop rest db_name date_tag extensions
  end.

(** [_has_today_backup(backup_dir, db_name, *, extensions)], with [now] the
    value [datetime.now()] has at the call. *)
Definition _has_today_backup (fs : filesystem) (now : datetime)
    (backup_dir : string) (db_name : option string)
    (extensions : list string) : bool :=
  match listdir fs backup_dir with
  | None => false
  | Some files =>
      has_today_backup_loop files db_name (strftime_Ymd now) extensions
  end.

(** What the guard looks for in one file name. *)
Definition name_matches (db_name : option string) (tag f : string) : Prop :=
  match db_name with
  | Some (String c n) => starts_with f (String c n +:+ "_" +:+ tag)
  | _ => has_substring f ("_" +:+ tag +:+ "_")
  end.

End Main.

(** ** Processes, clock, log: the effects of the program *)

Module Run.
Import PyStr PyTime PyOs.

(** The exceptions the program can meet.  All of them derive from
    [Exception]. *)
Inductive exn :=
| CalledProcessError (returncode : Z) (cmd : list string) (stderr : option string)
| OSError (msg : string)
| KeyError (key : string)
| AttributeError (msg : string)
| ValueError (msg : string).

(** What becomes of a process the program starts: it cannot be started
    (the executable is missing, say), or it runs and exits. *)
Inductive proc_outcome :=
| NotStarted (msg : string)
| Exited (returncode : Z) (out err : string).

Record CompletedProcess := mkCompleted {
  args : list string;
  returncode : Z;
  stdout : option string;
  stderr : option string
}.

Inductive log_level := DEBUG | INFO | WARNING | ERROR.

(** Arguments of a log record, kept unformatted. *)
Inductive log_arg :=
| LStr (s : string)
| LInt (z : Z)
| LArgv (a : list string)
| LConf (c : gmap string string).

Inductive event :=
| EvNow (t : datetime)
| EvSpawn (argv : list string) (env : option (list (string * string)))
          (outcome : proc_outcome)
| EvLog (lvl : log_level) (fmt : string) (largs : list log_arg)
| EvLogException (fmt : string) (e : exn).

(** The history of a run, oldest event first. *)
Definition world := list event.

(** Everything outside the program.  The outcome of a process and the
    reading of the clock may depend on the whole history. *)
Record environment := mkEnv {
  os_spawn : world -> list string -> proc_outcome;
  clock : world -> datetime;
  fsys : filesystem
}.

Inductive result (A : Type) :=
| Return (a : A)
| Raise (e : exn).
Arguments Return {A} a.
Arguments Raise {A} e.

Definition M (A : Type) : Type := world -> result A * world.

Definition ret {A} (a : A) : M A := fun w => (Return a, w).

Definition raise {A} (e : exn) : M A := fun w => (Raise e, w).

Definition bind {A B} (m : M A) (k : A -> M B) : M B :=
  fun w =>
    match m w with
    | (Return a, w') => k a w'
    | (Raise e, w') => (Raise e, w')
    end.

(** [try: body finally: fin]: [fin] runs whatever [body] did; an exception
    of [fin] replaces the outcome of [body]. *)
Definition try_finally {A} (body : M A) (fin : M unit) : M A :=
  fun w =>
    let (r, w1) := body w in
    match fin w1 with
    | (Return _, w2) => (r, w2)
    | (Raise e, w2) => (Raise e, w2)
    end.

(** [try: body except Exception: pass] *)
Definition swallow {A} (body : M A) : M unit :=
  fun w => let (_, w1) := body w in (Return tt, w1).

(** [try: body except ...: handler]; a handler re-raises what its [except]
    clauses do not match. *)
Definition try_except {A} (body : M A) (handler : exn -> M A) : M A :=
  fun w =>
    match body w with
    | (Return a, w1) => (Return a, w1)
    | (Raise e, w1) => handler e w1
    end.

Definition log (lvl : log_level) (fmt : string) (largs : list log_arg) : M unit :=
  fun w => (Return tt, w ++ [EvLog lvl fmt largs]).

Definition log_exception (fmt : string) (e : exn) : M unit :=
  fun w => (Return tt, w ++ [EvLogException fmt e]).

Section WithEnvironment.
Variable E : environment.

(** [datetime.now()] *)
Definition datetime_now : M datetime :=
  fun w => let t := clock E w in (Return t, w ++ [EvNow t]).

(** [subprocess.run(cmd, check=True, text=capture, capture_output=capture,
    env=env)]: the streams are kept only when captured, also on the
    [CalledProcessError] that a non-zero exit raises. *)
Definition subprocess_run (cmd : list string)
    (env : option (list (string * string))) (capture : bool)
    : M CompletedProcess :=
  fun w =>
    let o := os_spawn E w cmd in
    let w' := w ++ [EvSpawn cmd env o] in
    match o with
    | NotStarted msg => (Raise (OSError msg), w')
    | Exited rc out err =>
        let keep (s : string) := if capture then Some s else None in
        if (rc =? 0)%Z
        then (Return (mkCompleted cmd rc (keep out) (keep err)), w')
        else (Raise (CalledProcessError rc cmd (keep err)), w')
    end.

End WithEnvironment.

(** Python truthiness of an [Optional[str]] with the value in hand. *)
Definition if_truthy {A} (o : option string) (yes : string -> A) (no : A) : A :=
  match o with
  | Some (String a s) => yes (String a s)
  | _ => no
  end.

(** The processes of a history, in order, with their outcome. *)
Fixpoint spawned (w : world) : list (list string * proc_outcome) :=
  match w with
  | [] => []
  | EvSpawn argv _ o :: w' => (argv, o) :: spawned w'
  | _ :: w' => spawned w'
  end.

(** The command lines of a history, in order. *)
Definition commands (w : world) : list (list string) := (spawned w).*1.

Definition succeeded (o : proc_outcome) : bool :=
  match o with
  | Exited rc _ _ => (rc =? 0)%Z
  | NotStarted _ => false
  end.

End Run.

Declare Scope run_scope.
Delimit Scope run_scope with run.
Notation "x <- c1 ;; c2" := (Run.bind c1 (fun x => c2))
  (at level 100, c1 at next level, right associativity) : run_scope.
Notation "c1 ;; c2" := (Run.bind c1 (fun _ => c2))
  (at level 100, right associativity) : run_scope.

(** ** [utils/client_backup.py] *)

Module ClientBackup.
Import PyStr PyTime PyOs Run.
Local Open Scope run_scope.

Definition POSTGRES_EXCLUDE : gset string := {[ "postgres" ]}.
Definition MYSQL_EXCLUDE : gset string :=
  {[ "information_schema"; "performance_schema"; "mysql"; "sys" ]}.

(** The comprehension on the [return] line of [list_postgres_databases]:
    [[d.strip() for d in stdout.splitlines()
      if d.strip() and d.strip() not in POSTGRES_EXCLUDE]] *)
Definition postgres_database_names (out : string) : list string :=
  map strip
    (List.filter
       (fun d => nonempty (strip d)
                 && negb (bool_decide (strip d ∈ POSTGRES_EXCLUDE)))
       (splitlines out)).

(** The comprehension on the [return] line of [list_mysql_databases]:
    [[d.strip() for d in stdout.splitlines()
      if d.strip() and d.strip() not in MYSQL_EXCLUDE
         and not d.startswith("Database")]] *)
Definition mysql_database_names (out : string) : list string :=
  map strip
    (List.filter
       (fun d => nonempty (strip d)
                 && negb (bool_decide (strip d ∈ MYSQL_EXCLUDE))
                 && negb (startswith d "Database"))
       (splitlines out)).

(** [base_parts] of [list_mysql_databases]. *)
Definition mysql_base_parts (user password port host : string)
    (container : option string) : list string :=
  let query := "SHOW DATABASES;" in
  if_truthy container
    (fun _ => ["mysql"; "-u" +:+ user; "-p" +:+ password; "-e"; query])
    (let base_parts := ["mysql"; "-u" +:+ user; "-p" +:+ password;
                        "-P" +:+ port; "-e"; query] in
     if nonempty host then list_insert_at 3 ("-h" +:+ host) base_parts
     else base_parts).

(** [[p for p in base_parts if not (p.startswith('-h') and p != '-h')]] *)
Definition without_host_flags (parts : list string) : list string :=
  List.filter (fun p => negb (startswith p "-h" && negb (String.eqb p "-h"))) parts.

(** [result.stdout] of a process whose output may not have been captured. *)
Definition stdout_of (r : CompletedProcess) : M string :=
  match stdout r with
  | Some out => ret out
  | None => raise (AttributeError "'NoneType' object has no attribute 'splitlines'")
  end.

(** The file that a [docker cp] out of a container writes on the local
    disk when it succeeds: its destination. *)
Definition artifact_of (argv : list string) : option string :=
  match argv with
  | ["docker"; "cp"; _; dst] => Some dst
  | _ => None
  end.

(** The files that the copies out of a container have written in a
    history, in order. *)
Definition artifacts (w : world) : list string :=
  omap (fun c => if succeeded c.2 then artifact_of c.1 else None) (spawned w).

Section WithEnvironment.
Variable E : environment.

(** [run(cmd, *, env=None, capture=False)].  The debug record it emits is
    left out of the history. *)
Definition run (cmd : list string) (env : option (list (string * string)))
    (capture : bool) : M CompletedProcess :=
  subprocess_run E cmd env capture.

(** [docker_exec(container, inner_cmd, env_vars=None, capture=False)] *)
Definition docker_exec (container : string) (inner_cmd : list string)
    (env_vars : list (string * string)) (capture : bool) : M CompletedProcess :=
  let cmd :=
    ["docker"; "exec"]
    ++ flat_map (fun kv => ["-e"; kv.1 +:+ "=" +:+ kv.2]) env_vars
    ++ [container] ++ inner_cmd in
  run cmd None capture.

Definition list_postgres_databases (user password port host : string)
    (container : option string) : M (list string) :=
  let query := "SELECT datname FROM pg_database WHERE datistemplate = false;" in
  result <-
    if_truthy container
      (fun c =>
         let base_cmd := ["psql"; "-U"; user; "-d"; "postgres"; "-t"; "-c"; query] in
         docker_exec c base_cmd [] true)
      (let base_cmd := ["psql"; "-U"; user; "-h"; host; "-p"; port;
                        "-d"; "postgres"; "-t"; "-c"; query] in
       run base_cmd (Some [("PGPASSWORD", password)]) true) ;;
  out <- stdout_of result ;;
  ret (postgres_database_names out).

Definition list_mysql_databases (user password port host : string)
    (container : option string) : M (list string) :=
  let base_parts := mysql_base_parts user password port host container in
  let attempt (parts : list string) : M CompletedProcess :=
    if_truthy container
      (fun c => docker_exec c parts [] true)
      (run parts None true) in
  result <-
    try_except (attempt base_parts)
      (fun e =>
         match e with
         | CalledProcessError rc _ _ =>
             log WARNING "MySQL SHOW DATABASES failed (%s). Retrying without host..."
                 [LInt rc] ;;
             let retry := without_host_flags base_parts in
             try_except (attempt retry) (fun e' => raise e')
         | _ => raise e
         end) ;;
  out <- stdout_of result ;;
  ret (mysql_database_names out).

Definition backup_postgres_db (db user password port host backup_dir : string)
    (container : option string) : M unit :=
  now <- datetime_now E ;;
  let ts := strftime_Ymd_HMS now in
  let r_plain := "/tmp/" +:+ db +:+ "_" +:+ ts +:+ ".sql" in
  let r_custom := "/tmp/" +:+ db +:+ "_" +:+ ts +:+ ".backup" in
  let l_plain := PyPath.join backup_dir (db +:+ "_" +:+ ts +:+ ".sql") in
  let l_custom := PyPath.join backup_dir (db +:+ "_" +:+ ts +:+ ".backup") in
  if_truthy container
    (fun c =>
       docker_exec c ["pg_dump"; "-U"; user; "-d"; db; "-F"; "p"; "-f"; r_plain] [] false ;;
       run ["docker"; "cp"; c +:+ ":" +:+ r_plain; l_plain] None false ;;
       docker_exec c ["rm"; r_plain] [] false ;;
       docker_exec c ["pg_dump"; "-U"; user; "-d"; db; "-F"; "c"; "-f"; r_custom] [] false ;;
       run ["docker"; "cp"; c +:+ ":" +:+ r_custom; l_custom] None false ;;
       docker_exec c ["rm"; r_custom] [] false ;;
       ret tt)
    (let env := Some [("PGPASSWORD", password)] in
     run ["pg_dump"; "-U"; user; "-h"; host; "-p"; port; "-d"; db;
          "-F"; "p"; "-f"; l_plain] env false ;;
     run ["pg_dump"; "-U"; user; "-h"; host; "-p"; port; "-d"; db;
          "-F"; "c"; "-f"; l_custom] env false ;;
     ret tt).

End WithEnvironment.
End ClientBackup.

(** ** [utils/client_restore.py] *)

Module ClientRestore.
Import PyStr PyTime PyOs Run ClientBackup.
Local Open Scope run_scope.

Definition POSTGRES_EXT_PRIORIDAD : list string := [".backup"; ".sql"].
Definition MYSQL_EXT : list string := [".sql"].

(** The loop of [_list_backup_files] over [os.listdir(backup_dir)]. *)
Fixpoint list_backup_files_loop (backup_dir prefix : string)
    (exts names : list string) : list string :=
  match names with
  | [] => []
  | f :: rest =>
      if negb (startswith f prefix)
      then list_backup_files_loop backup_dir prefix exts rest
      else if endswith_any f exts
      then PyPath.join backup_dir f :: list_backup_files_loop backup_dir prefix exts rest
      else list_backup_files_loop backup_dir prefix exts rest
  end.

(** [files.sort(key=..., reverse=True)]: a stable sort, greatest key first;
    files with equal keys keep their order. *)
Fixpoint insert_desc (key : string -> Z) (x : string) (l : list string) : list string :=
  match l with
  | [] => [x]
  | y :: l' =>
      if (key y <=? key x)%Z then x :: l else y :: insert_desc key x l'
  end.

Fixpoint sort_desc (key : string -> Z) (l : list string) : list string :=
  match l with
  | [] => []
  | x :: l' => insert_desc key x (sort_desc key l')
  end.

Definition _list_backup_files (fs : filesystem) (backup_dir db_name : string)
    (exts : list string) : list string :=
  match listdir fs backup_dir with
  | None => []
  | Some names =>
      let prefix := db_name +:+ "_" in
      let files := list_backup_files_loop backup_dir prefix exts names in
      sort_desc (getmtime fs) files
  end.

(** The two nested loops of [_choose_latest]: the first file, in list
    order, that ends with the first extension that any file ends with. *)
Fixpoint choose_by_extension (files preferred_order : list string) : option string :=
  match preferred_order with
  | [] => None
  | ext :: rest =>
      match find (fun f => endswith f ext) files with
      | Some f => Some f
      | None => choose_by_extension files rest
      end
  end.

Definition _choose_latest (files preferred_order : list string) : option string :=
  match files with
  | [] => None
  | f0 :: _ =>
      match choose_by_extension files preferred_order with
      | Some f => Some f
      | None => Some f0
      end
  end.

(** The statement that [_restore_postgres] passes to [psql -c]. *)
Definition postgres_drop_create (db_name : string) : string :=
  "DROP DATABASE IF EXISTS " +:+ Shlex.quote db_name
  +:+ "; CREATE DATABASE " +:+ Shlex.quote db_name +:+ ";".

(** [pre_sql] of [_restore_mysql]. *)
Definition mysql_pre_sql (db_name : string) : string :=
  "DROP DATABASE IF EXISTS `" +:+ db_name +:+ "`; CREATE DATABASE `" +:+ db_name
  +:+ "` CHARACTER SET utf8mb4 COLLATE utf8mb4_unicode_ci;".

(** [drop_create_cmd] of [_restore_mysql]. *)
Definition mysql_drop_create_cmd (db_name user password port host : string)
    : list string :=
  let drop_create_cmd :=
    ["mysql"; "-u" +:+ user; "-p" +:+ password; "-P" +:+ port; "-e";
     mysql_pre_sql db_name] in
  if nonempty host then list_insert_at 3 ("-h" +:+ host) drop_create_cmd
  else drop_create_cmd.

Definition _mysql_restore_shell (user password port host db path : string) : string :=
  let parts :=
    ["mysql -u" +:+ Shlex.quote user +:+ " -p'" +:+ password +:+ "' -P"
     +:+ Shlex.quote port] in
  let parts := if nonempty host then parts ++ ["-h" +:+ Shlex.quote host] else parts in
  let parts := parts ++ [Shlex.quote db] in
  PyStr.join " " parts +:+ " < " +:+ Shlex.quote path.

(** [restore_cmd] of the container branch of [_restore_mysql]. *)
Definition mysql_container_restore_cmd (user password port host db_name remote : string)
    : string :=
  let restore_cmd :=
    "mysql -u" +:+ Shlex.quote user +:+ " -p'" +:+ password +:+ "' -P"
    +:+ Shlex.quote port in
  let restore_cmd :=
    if nonempty host then restore_cmd +:+ " -h" +:+ Shlex.quote host
    else restore_cmd in
  restore_cmd +:+ " " +:+ Shlex.quote db_name +:+ " < " +:+ Shlex.quote remote.

(** [safe_conf]: the configuration with the password replaced. *)
Definition safe_conf (db_conf : gmap string string) : gmap string string :=
  map_imap (fun k v => Some (if String.eqb k "password" then "***" else v)) db_conf.

(** The [except] clauses of [restore_database].  In the first one,
    [stderr = getattr(e, 'stderr', b'')] is [None] when the process ran
    without capture, and [stderr.strip()] is evaluated before
    [LOGGER.error] is entered.  Both clauses fall through to the final
    [return None]. *)
Definition restore_failure_handler (db_conf : gmap string string) (e : exn)
    : M (option string) :=
  match e with
  | CalledProcessError rc cmd stderr =>
      let safe_conf := safe_conf db_conf in
      match stderr with
      | None =>
          raise (AttributeError "'NoneType' object has no attribute 'strip'")
      | Some text =>
          log ERROR "Fallo restauración (%s): rc=%s cmd=%s stderr=%s"
              [LConf safe_conf; LInt rc; LArgv cmd; LStr (strip text)] ;;
          ret None
      end
  | _ =>
      log_exception "Error inesperado durante la restauración" e ;;
      ret None
  end.

(** [db_conf[key]] *)
Definition getitem (db_conf : gmap string string) (key : string) : M string :=
  match db_conf !! key with
  | Some v => ret v
  | None => raise (KeyError key)
  end.

Section WithEnvironment.
Variable E : environment.

Definition _restore_postgres (db_name file_path user password port host : string)
    (container : option string) : M unit :=
  let env_vars := [("PGPASSWORD", password)] in
  let ext := (PyPath.splitext file_path).2 in
  if_truthy container
    (fun c =>
       let remote := "/tmp/restore_" +:+ PyPath.basename file_path in
       run E ["docker"; "cp"; file_path; c +:+ ":" +:+ remote] None false ;;
       try_finally
         (if String.eqb ext ".backup" then
            let cmd := ["pg_restore"; "-U"; user; "-h"; host; "-p"; port;
                        "-C"; "-d"; "postgres"; remote] in
            docker_exec E c cmd env_vars false ;;
            ret tt
          else
            let stmt := postgres_drop_create db_name in
            docker_exec E c ["psql"; "-U"; user; "-h"; host; "-p"; port;
                             "-d"; "postgres"; "-c"; stmt] env_vars false ;;
            docker_exec E c ["psql"; "-U"; user; "-h"; host; "-p"; port;
                             "-d"; db_name; "-f"; remote] env_vars false ;;
            ret tt)
         (swallow (docker_exec E c ["rm"; "-f"; remote] [] false)))
    (let env := Some env_vars in
     if String.eqb ext ".backup" then
       run E ["pg_restore"; "-U"; user; "-h"; host; "-p"; port;
              "-C"; "-d"; "postgres"; file_path] env false ;;
       ret tt
     else
       let stmt := postgres_drop_create db_name in
       run E ["psql"; "-U"; user; "-h"; host; "-p"; port;
              "-d"; "postgres"; "-c"; stmt] env false ;;
       run E ["psql"; "-U"; user; "-h"; host; "-p"; port;
              "-d"; db_name; "-f"; file_path] env false ;;
       ret tt).

Definition _restore_mysql (db_name file_path user password port host : string)
    (container : option string) : M unit :=
  let drop_create_cmd := mysql_drop_create_cmd db_name user password port host in
  if_truthy container
    (fun c =>
       docker_exec E c drop_create_cmd [] false ;;
       let remote := "/tmp/restore_" +:+ PyPath.basename file_path in
       run E ["docker"; "cp"; file_path; c +:+ ":" +:+ remote] None false ;;
       try_finally
         (let restore_cmd :=
            mysql_container_restore_cmd user password port host db_name remote in
          docker_exec E c ["sh"; "-c"; restore_cmd] [] false ;;
          ret tt)
         (swallow (docker_exec E c ["rm"; "-f"; remote] [] false)))
    (subprocess_run E drop_create_cmd None false ;;
     let restore_cmd :=
       ["bash"; "-c"; _mysql_restore_shell user password port host db_name file_path] in
     subprocess_run E restore_cmd None false ;;
     ret tt).

(** [restore_database(db_conf, *, db=None, file_path=None)].  The call of
    [init_logging()] that opens it configures the logging facility and is
    left out.  The [return None] inside the [try] is the [None] of
    [selected]. *)
Definition restore_database (db_conf : gmap string string)
    (db file_path : option string) : M (option string) :=
  let db_type := lower (default "postgres" (db_conf !! "type")) in
  user <- getitem db_conf "username" ;;
  password <- getitem db_conf "password" ;;
  let port :=
    default (if String.eqb db_type "postgres" then "5432" else "3306")
            (db_conf !! "port") in
  let host := default "127.0.0.1" (db_conf !! "host") in
  let container := db_conf !! "container" in
  let backup_dir := default "./" (db_conf !! "backup_dir") in
  let target_db := if truthy db then db else db_conf !! "db" in
  if negb (truthy target_db) && negb (truthy file_path) then
    log ERROR "Debe especificar 'db' o 'file_path' para restaurar." [] ;;
    ret None
  else
    (* [target_db] is a name by now: its own value, or the one derived
       from the base name of [file_path], which is then set *)
    let target_db : string :=
      if_truthy target_db (fun t => t)
        (if_truthy file_path
           (fun fp => before_first (PyPath.basename fp) "_") EmptyString) in
    try_except
      (selected <-
         (if negb (truthy file_path) then
            if String.eqb db_type "postgres" then
              let files :=
                _list_backup_files (fsys E) backup_dir target_db POSTGRES_EXT_PRIORIDAD in
              ret (Some (_choose_latest files POSTGRES_EXT_PRIORIDAD))
            else if String.eqb db_type "mysql" || String.eqb db_type "mariadb" then
              let files :=
                _list_backup_files (fsys E) backup_dir target_db MYSQL_EXT in
              ret (Some (_choose_latest files MYSQL_EXT))
            else
              log ERROR "Tipo de base de datos no soportado: %s" [LStr db_type] ;;
              ret None
          else ret (Some file_path)) ;;
       match selected with
       | None => ret None
       | Some file_path =>
           if_truthy file_path
             (fun fp =>
                log INFO "Restaurando %s desde %s" [LStr target_db; LStr fp] ;;
                (if String.eqb db_type "postgres"
                 then _restore_postgres target_db fp user password port host container
                 else _restore_mysql target_db fp user password port host container) ;;
                log INFO "Restauración completada: %s" [LStr target_db] ;;
                ret (Some fp))
             (log ERROR "No se encontraron backups para %s en %s"
                  [LStr target_db; LStr backup_dir] ;;
              ret None)
       end)
      (restore_failure_handler db_conf).

End WithEnvironment.
End ClientRestore.

(** ** Vocabulary of the statements *)

Module Spec.
Import PyStr Run ClientRestore.

(** [a] was modified no earlier than [b]. *)
Definition newer_or_equal (mtime : string -> Z) (a b : string) : Prop :=
  (mtime b <= mtime a)%Z.

(** A list of paths with the most recently modified first. *)
Definition newest_first (mtime : string -> Z) (files : list string) : Prop :=
  StronglySorted (newer_or_equal mtime) files.

(** [f] is the first element of [files] that ends with [ext]. *)
Definition first_ending_with (ext : string) (files : list string) (f : string) : Prop :=
  exists l1 l2, files = l1 ++ f :: l2 /\ ends_with f ext /\
                forall g, In g l1 -> ~ ends_with g ext.

(** A host flag of the MySQL client: [-h] followed by a host. *)
Definition is_host_flag (p : string) : Prop :=
  exists h, nonempty h = true /\ p = "-h" +:+ h.

(** The command line that runs [parts]: as they are on the host, behind
    [docker exec <container>] for a container. *)
Definition exec_argv (container : option string) (parts : list string) : list string :=
  if_truthy container (fun c => ["docker"; "exec"; c] ++ parts) parts.

(** The output of a client that prints one line per row. *)
Fixpoint unlines (rows : list string) : string :=
  match rows with
  | [] => EmptyString
  | r :: rest => r +:+ String LF (unlines rest)
  end.

(** In a run, every occurrence of the command [later] comes after an
    occurrence of the command [earlier] that succeeded. *)
Definition preceded_by_success (steps : list (list string * proc_outcome))
    (later earlier : list string) : Prop :=
  forall pre o post, steps = pre ++ (later, o) :: post ->
    exists o', In (earlier, o') pre /\ succeeded o' = true.

(** No element of [files] ends with [ext]. *)
Definition none_ending_with (ext : string) (files : list string) : Prop :=
  forall g, In g files -> ~ ends_with g ext.

End Spec.

(** ** Sample environments *)

Module Samples.
Import PyStr PyTime PyOs Run.

Definition evening : datetime := mkDatetime 2025 8 7 23 1 17.

(** No directory exists. *)
Definition no_files : filesystem := mkFs (fun _ => None) (fun _ => 0%Z).

(** Every process exits with status 1 and a message on its error stream. *)
Definition all_fail : environment :=
  mkEnv (fun _ _ => Exited 1 EmptyString "ERROR 2002") (fun _ => evening) no_files.

(** Every process exits with status 0. *)
Definition all_succeed : environment :=
  mkEnv (fun _ _ => Exited 0 EmptyString EmptyString) (fun _ => evening) no_files.

(** Every process exits with status 0, except the [rm] that a
    [docker exec <container> rm ...] runs, which exits with status 1. *)
Definition only_rm_fails : environment :=
  mkEnv (fun _ argv =>
           match argv with
           | "docker" :: "exec" :: _ :: "rm" :: _ =>
               Exited 1 EmptyString EmptyString
           | _ => Exited 0 EmptyString EmptyString
           end)
        (fun _ => evening) no_files.

(** A PostgreSQL target on the host, with its backups under [bk]. *)
Definition postgres_target : gmap string string :=
  list_to_map [("type", "postgres"); ("username", "admin");
               ("password", "s3cret"); ("backup_dir", "bk")].

End Samples.

(** ** Names of the backup artifacts *)

Module Naming.
Import PyStr PyTime.

(** The file name [f"{db}_{ts}.<ext>"] that the backup executors give an
    artifact made at [t], with [ts] the reading [%Y%m%d_%H%M%S] of [t]. *)
Definition artifact_name (db : string) (t : datetime) (ext : string) : string :=
  db +:+ "_" +:+ strftime_Ymd_HMS t +:+ ext.

(** The character [c] occurs in [s]. *)
Fixpoint has_char (c : ascii) (s : string) : bool :=
  match s with
  | EmptyString => false
  | String a s' => Ascii.eqb a c || has_char c s'
  end.

End Naming.

(** ** [str.replace] *)

Module PyStrMore.
Import PyStr.

(** The scan of [s.replace(old, new)] for a non-empty [old]: [skip] counts
    the characters of an occurrence of [old] still to pass over. *)
Fixpoint replace_go (old new : string) (skip : nat) (s : string) : string :=
  match s with
  | EmptyString => EmptyString
  | String c s' =>
      match skip with
      | S k => replace_go old new k s'
      | O =>
          if startswith s old
          then new +:+ replace_go old new (String.length old - 1) s'
          else String c (replace_go old new 0 s')
      end
  end.

(** [new] after every character of [s]. *)
Fixpoint interleave (new s : string) : string :=
  match s with
  | EmptyString => EmptyString
  | String c s' => String c (new +:+ interleave new s')
  end.

(** [s.replace(old, new)]: every occurrence of [old], found from the left
    and not overlapping, becomes [new]; an empty [old] matches before every
    character and at the end. *)
Definition replace (s old new : string) : string :=
  match old with
  | EmptyString => new +:+ interleave new s
  | String _ _ => replace_go old new 0 s
  end.

End PyStrMore.

(** ** [utils/client_backup.py]: the MySQL executor and the dispatcher *)

Module BackupFlow.
Import PyStr PyStrMore PyTime PyOs Run ClientBackup ClientRestore.
Local Open Scope run_scope.

(** [for x in xs: body(x)] *)
Fixpoint for_each {A} (xs : list A) (body : A -> M unit) : M unit :=
  match xs with
  | [] => ret tt
  | x :: rest => body x ;; for_each rest body
  end.

(** [mysqldump_cmd] of [backup_mysql_db]. *)
Definition mysqldump_cmd (db user password port host r_plain : string)
    (container : option string) : string :=
  if_truthy container
    (fun _ =>
       "mysqldump -u" +:+ Shlex.quote user +:+ " -p'" +:+ password +:+ "' "
       +:+ Shlex.quote db +:+ " > " +:+ Shlex.quote r_plain)
    (let mysqldump_cmd :=
       "mysqldump -u" +:+ Shlex.quote user +:+ " -p'" +:+ password
       +:+ "' -P" +:+ Shlex.quote port in
     let mysqldump_cmd :=
       if nonempty host then mysqldump_cmd +:+ " -h" +:+ Shlex.quote host
       else mysqldump_cmd in
     mysqldump_cmd +:+ " " +:+ Shlex.quote db +:+ " > " +:+ Shlex.quote r_plain).

(** The [except] clause of [backup_database]: it handles
    [CalledProcessError] alone, like the first clause of
    [restore_database]. *)
Definition backup_failure_handler (db_conf : gmap string string) (e : exn)
    : M unit :=
  match e with
  | CalledProcessError rc cmd stderr =>
      let safe_conf := safe_conf db_conf in
      match stderr with
      | None =>
          raise (AttributeError "'NoneType' object has no attribute 'strip'")
      | Some text =>
          log ERROR "Backup failed (%s): rc=%s cmd=%s stderr=%s"
              [LConf safe_conf; LInt rc; LArgv cmd; LStr (strip text)]
      end
  | _ => raise e
  end.

Section WithEnvironment.
Variable E : environment.

(** [os.makedirs(path, exist_ok=True)] and [open(path, 'w')], whatever they
    do: each returns or raises, and may leave its mark on the history. *)
Variable makedirs : string -> M unit.
Variable open_for_writing : string -> M unit.

Definition ensure_backup_dir (backup_dir : string) : M unit :=
  makedirs backup_dir.

(** [backup_mysql_db].  On the host the dump is written through the file
    that [open(l_plain, 'w')] yields, passed as the standard output of the
    process. *)
Definition backup_mysql_db (db user password port host backup_dir : string)
    (container : option string) : M unit :=
  now <- datetime_now E ;;
  let ts := strftime_Ymd_HMS now in
  let l_plain := PyPath.join backup_dir (db +:+ "_" +:+ ts +:+ ".sql") in
  let r_plain := "/tmp/" +:+ db +:+ "_" +:+ ts +:+ ".sql" in
  let mysqldump_cmd := mysqldump_cmd db user password port host r_plain container in
  if_truthy container
    (fun c =>
       docker_exec E c ["sh"; "-c"; mysqldump_cmd] [] false ;;
       run E ["docker"; "cp"; c +:+ ":" +:+ r_plain; l_plain] None false ;;
       docker_exec E c ["rm"; r_plain] [] false ;;
       ret tt)
    (open_for_writing l_plain ;;
     subprocess_run E
       ["bash"; "-c";
        replace mysqldump_cmd ("> " +:+ Shlex.quote r_plain) EmptyString]
       None false ;;
     ret tt).

Definition backup_database (db_conf : gmap string string) : M unit :=
  let db_type := lower (default "postgres" (db_conf !! "type")) in
  user <- getitem db_conf "username" ;;
  password <- getitem db_conf "password" ;;
  let port :=
    default (if String.eqb db_type "postgres" then "5432" else "3306")
            (db_conf !! "port") in
  let host := default "127.0.0.1" (db_conf !! "host") in
  let backup_dir := default "./" (db_conf !! "backup_dir") in
  let container := db_conf !! "container" in
  ensure_backup_dir backup_dir ;;
  try_except
    (if String.eqb db_type "postgres" then
       dbs <- if_truthy (db_conf !! "db") (fun db => ret [db])
                (list_postgres_databases E user password port host container) ;;
       for_each dbs
         (fun db =>
            log INFO "Backing up Postgres DB: %s" [LStr db] ;;
            backup_postgres_db E db user password port host backup_dir container)
     else if String.eqb db_type "mysql" || String.eqb db_type "mariadb" then
       dbs <- if_truthy (db_conf !! "db") (fun db => ret [db])
                (list_mysql_databases E user password port host container) ;;
       for_each dbs
         (fun db =>
            log INFO "Backing up %s DB: %s" [LStr db_type; LStr db] ;;
            backup_mysql_db db user password port host backup_dir container)
     else
       log ERROR "Unsupported DB type: %s" [LStr db_type])
    (backup_failure_handler db_conf).

(** [backup_all], over the configured targets [DATABASES]. *)
Definition backup_all (DATABASES : list (gmap string string)) : M unit :=
  for_each DATABASES backup_database.

End WithEnvironment.
End BackupFlow.

(** ** [main.py]: one cycle and the daemon *)

Module MainLoop.
Import PyStr PyTime PyOs Main Run ClientBackup ClientRestore BackupFlow.
Local Open Scope run_scope.

Section WithEnvironment.
Variable E : environment.
Variable makedirs : string -> M unit.
Variable open_for_writing : string -> M unit.

(** The file system as it is after a history: backups add files to it. *)
Variable fs_at : world -> filesystem.

(** The call [init_logging()], whatever it does to the logging facility:
    it returns a path, or raises. *)
Variable init_logging : M string.

(** The exception, if any, that the platform raises for a sleep of a
    length that is not negative but that it cannot represent or serve
    ([OverflowError], [OSError]). *)
Variable sleep_refused : Z -> option exn.

(** What [time.sleep(secs)] raises, if it does: [ValueError] for a negative
    length, else what the platform refuses the length with. *)
Definition sleep_error (secs : Z) : option exn :=
  if (secs <? 0)%Z then Some (ValueError "sleep length must be non-negative")
  else sleep_refused secs.

(** [time.sleep(secs)] *)
Definition time_sleep (secs : Z) : M unit :=
  match sleep_error secs with
  | Some e => raise e
  | None => ret tt
  end.

(** [_has_today_backup(backup_dir, db_name)] run in place: the directory
    test comes first, then the clock is read, then the directory is
    listed, which fails if the directory is gone by then. *)
Definition has_today_backup_now (backup_dir : string) (db_name : option string)
    : M bool :=
  fun w =>
    if isdir (fs_at w) backup_dir then
      (now <- datetime_now E ;;
       fun w' =>
         match listdir (fs_at w') backup_dir with
         | Some files =>
             (Return (has_today_backup_loop files db_name (strftime_Ymd now)
                                            default_extensions), w')
         | None => (Raise (OSError "No such file or directory"), w')
         end) w
    else (Return false, w).

(** The body of the loop of [run_once]. *)
Definition run_once_body (db_conf : gmap string string) : M unit :=
  let db_type := lower (default "postgres" (db_conf !! "type")) in
  let backup_dir := default "./" (db_conf !! "backup_dir") in
  let named_db := db_conf !! "db" in
  today <- has_today_backup_now backup_dir named_db ;;
  if today : bool then
    if_truthy named_db
      (fun name =>
         log INFO "Ya existe respaldo de hoy para %s (%s)"
             [LStr name; LStr db_type])
      (log INFO "Ya existe respaldo de hoy (config múltiple %s) en %s"
           [LStr db_type; LStr backup_dir])
  else
    log INFO "Respaldando base(s) (%s): %s"
        [LStr db_type; LConf (safe_conf db_conf)] ;;
    backup_database E makedirs open_for_writing db_conf.

Definition run_once (DATABASES : list (gmap string string)) : M unit :=
  for_each DATABASES run_once_body.

(** The [try] statement of an iteration of the [while True] loop of
    [daemon]. *)
Definition daemon_cycle (DATABASES : list (gmap string string))
    (interval_seconds : Z) : M unit :=
  try_except
    (run_once DATABASES ;;
     log INFO "Verificación completada. Próxima en %s segundos"
         [LInt interval_seconds])
    (fun e => log_exception "Error durante ciclo de respaldo" e).

(** The first [n] iterations of the [while True] loop of [daemon]: the
    [try] statement, then [time.sleep(interval_seconds)]. *)
Fixpoint daemon_cycles (DATABASES : list (gmap string string))
    (interval_seconds : Z) (n : nat) : M unit :=
  match n with
  | O => ret tt
  | S k =>
      daemon_cycle DATABASES interval_seconds ;;
      time_sleep interval_seconds ;;
      daemon_cycles DATABASES interval_seconds k
  end.

(** [daemon(interval_seconds)] cut after [n] iterations of its loop. *)
Definition daemon (DATABASES : list (gmap string string))
    (interval_seconds : Z) (n : nat) : M unit :=
  init_logging ;;
  log INFO "Iniciando daemon de respaldo (intervalo=%ss)" [LInt interval_seconds] ;;
  daemon_cycles DATABASES interval_seconds n.

End WithEnvironment.
End MainLoop.

(** ** [utils/client_restore.py]: choosing the configuration entry *)

Module RestoreCli.
Import PyStr Run ClientRestore.
Local Open Scope run_scope.

(** [_select_config(config, *, db_type, container)].  In the records, an
    absent container is given as [%s] prints it, and the list of matches by
    its elements. *)
Definition _select_config (config : list (gmap string string))
    (db_type : string) (container : option string)
    : M (option (gmap string string)) :=
  let matches :=
    List.filter
      (fun c => String.eqb (lower (default "postgres" (c !! "type"))) db_type)
      config in
  let matches :=
    if_truthy container
      (fun name =>
         List.filter (fun c => bool_decide (c !! "container" = Some name)) matches)
      matches in
  match matches with
  | [] =>
      log ERROR "No hay configuraciones que coincidan con type=%s container=%s"
          [LStr db_type; LStr (default "None" container)] ;;
      ret None
  | [c] => ret (Some c)
  | _ :: _ :: _ =>
      log ERROR "Multiples configuraciones coinciden. Especifique --container. Coincidencias: %s"
          (map LConf matches) ;;
      ret None
  end.

End RestoreCli.

(** ** More sample environments *)

Module MoreSamples.
Import PyStr PyTime PyOs Run.

(** Every process exits with status 0, except the removal of the file
    staged for the restore of [file] in [container]. *)
Definition only_cleanup_fails (container file : string) : environment :=
  mkEnv (fun _ argv =>
           if bool_decide
                (argv = ["docker"; "exec"; container; "rm"; "-f";
                         "/tmp/restore_" +:+ PyPath.basename file])
           then Exited 1 EmptyString EmptyString
           else Exited 0 EmptyString EmptyString)
        (fun _ => Samples.evening) Samples.no_files.

(** An effect that always returns and leaves the history as it is. *)
Definition quiet (path : string) : M unit := ret tt.

End MoreSamples.

(** ** More vocabulary and samples *)

Module MoreSpec.
Import PyStr PyOs Run.

(** The removal of the file staged in [container] for the restore of
    [file]. *)
Definition cleanup_argv (container file : string) : list string :=
  ["docker"; "exec"; container; "rm"; "-f";
   "/tmp/restore_" +:+ PyPath.basename file].

(** The entry [c] is of engine [db_type] and, when a container is asked
    for, of that container. *)
Definition selects (db_type : string) (container : option string)
    (c : gmap string string) : Prop :=
  lower (default "postgres" (c !! "type")) = db_type /\
  if_truthy container (fun name => c !! "container" = Some name) True.

Definition selects_b (db_type : string) (container : option string)
    (c : gmap string string) : bool :=
  String.eqb (lower (default "postgres" (c !! "type"))) db_type
  && if_truthy container
       (fun name => bool_decide (c !! "container" = Some name)) true.

(** A directory [bk] with backups of [app], [app_v2] and [shop]; the plain
    dump of [app] is its most recent file. *)
Definition bk_files : filesystem :=
  mkFs (fun d =>
          if String.eqb d "bk"
          then Some ["app_20250806_230117.backup"; "app_20250807_230117.sql";
                     "shop_20250807_230117.sql"; "app_v2_20250807_230500.sql"]
          else None)
       (fun p =>
          if String.eqb p "bk/app_20250806_230117.backup" then 1
          else if String.eqb p "bk/app_v2_20250807_230500.sql" then 3
          else 2)%Z.

(** A MySQL target on the host, without a database name. *)
Definition mysql_target : gmap string string :=
  list_to_map [("type", "mysql"); ("username", "root");
               ("password", "s3cret"); ("backup_dir", "bk")].

(** A target of an engine the program does not know. *)
Definition oracle_target : gmap string string :=
  list_to_map [("type", "oracle"); ("username", "admin");
               ("password", "s3cret"); ("backup_dir", "bk")].

(** A PostgreSQL target that names its database. *)
Definition app_target : gmap string string :=
  list_to_map [("type", "postgres"); ("username", "admin");
               ("password", "s3cret"); ("backup_dir", "bk"); ("db", "app")].

End MoreSpec.

(** ** A server that lists its databases *)

Module Listings.
Import PyStr PyTime PyOs Run Spec.

(** Every process exits with status 0 after printing four rows: [app], the
    administrative database, an empty row and [shop], with blanks around
    them. *)
Definition prints_rows : environment :=
  mkEnv (fun _ _ =>
           Exited 0 (unlines [" app"; " postgres"; EmptyString; " shop "])
                  EmptyString)
        (fun _ => Samples.evening) Samples.no_files.

End Listings.

(** ** [utils/logging_config.py] *)

Module LoggingConfig.
Import PyStr PyTime PyOs Run.

(** [strftime('%Y-%m-%d')] *)
Definition strftime_Y_m_d (t : datetime) : string :=
  pad4 (year t) +:+ "-" +:+ pad2 (month t) +:+ "-" +:+ pad2 (day t).

(** A handler of the root logger, as far as [init_logging] tells handlers
    apart: [baseFilename] is set exactly for a [logging.FileHandler], the
    formatter once [setFormatter] was called. *)
Record handler := mkHandler {
  baseFilename : option string;
  formatter : option string
}.

(** The root logger: [root.handlers] and the level set by
    [root.setLevel]. *)
Record root_logger := mkRoot {
  handlers : list handler;
  logger_level : Z
}.

(** The loop over [root.handlers] of an already configured logger:
    [getattr(h, 'baseFilename', '')] of the first file handler, [''] when
    there is none. *)
Fixpoint configured_path (hs : list handler) : string :=
  match hs with
  | [] => EmptyString
  | h :: rest =>
      match baseFilename h with
      | Some path => path
      | None => configured_path rest
      end
  end.

Section WithEnvironment.
Variable E : environment.

(** [os.makedirs(log_dir, exist_ok=True)], the opening of the log file by
    [logging.FileHandler(log_path, encoding='utf-8')], whatever they do, and
    [os.path.abspath], by which a file handler keeps its path. *)
Variable makedirs : string -> M unit.
Variable open_log : string -> M unit.
Variable abspath : string -> string.

(** [init_logging(level, log_dir=..., filename=..., fmt=...)] on the root
    logger [root]: the outcome, and the root logger as the call leaves it.
    The format is taken to be one that [logging.Formatter] accepts. *)
Definition init_logging (level : Z) (log_dir : string) (filename : option string)
    (fmt : string) (root : root_logger) (w : world)
    : (result string * root_logger) * world :=
  match handlers root with
  | _ :: _ => ((Return (configured_path (handlers root)), root), w)
  | [] =>
      match makedirs log_dir w with
      | (Raise e, w1) => ((Raise e, root), w1)
      | (Return _, w1) =>
          let (filename, w2) :=
            if_truthy filename (fun f => (f, w1))
              (let t := clock E w1 in
               (strftime_Y_m_d t +:+ ".log", w1 ++ [EvNow t])) in
          let log_path := PyPath.join log_dir filename in
          let root := mkRoot (handlers root) level in
          match open_log log_path w2 with
          | (Raise e, w3) => ((Raise e, root), w3)
          | (Return _, w3) =>
              let fh := mkHandler (Some (abspath log_path)) (Some fmt) in
              let root := mkRoot (handlers root ++ [fh]) (logger_level root) in
              let ch := mkHandler None (Some fmt) in
              let root := mkRoot (handlers root ++ [ch]) (logger_level root) in
              ((Return log_path, root), w3)
          end
      end
  end.

End WithEnvironment.
End LoggingConfig.

(** ** [utils/check.py] *)

Module Check.
Import PyStr Run.

Section WithPlatform.

(** The file that a path denotes, by a number of its own: two spellings of
    a path ([a.bin] and [./a.bin]) and two links of one file denote the same
    file; a path at which there is no file yet denotes the file that
    opening it for writing creates. *)
Variable file_of : string -> nat.

(** Whether [open(path, 'rb')] of a file that is there, and
    [open(path, 'wb')], succeed, and the message of the [OSError]
    ([FileNotFoundError], [IsADirectoryError], [PermissionError]) with
    which [open] refuses a path. *)
Variable readable : string -> bool.
Variable writable : string -> bool.
Variable strerror : string -> string.

(** The exception, if any, with which the platform refuses a read of a
    size that is not negative but that it cannot allocate or represent
    ([MemoryError], [OverflowError]). *)
Variable read_refused : Z -> option exn.

(** [hashlib.sha256]: the digest is a function of the bytes fed to the
    object, in order, however they were cut into [update] calls.  The state
    of the object is kept as these bytes. *)
Variable sha256_hex : list Byte.byte -> string.

(** The files are kept as the bytes of each, by its number.

    [f.read(size)] on a file opened with ['rb'], [pos] bytes of which have
    been read: all the bytes that follow for the size -1, at most [size] of
    them for a size that is not negative; any other size is refused.  The
    bytes are those the file holds when it is read. *)
Definition read (fs : gmap nat (list Byte.byte)) (file : nat) (pos : nat)
    (size : Z) : result (list Byte.byte) :=
  let rest := drop pos (default [] (fs !! file)) in
  if (size <? -1)%Z then
    Raise (ValueError "read length must be non-negative or -1")
  else if (size =? -1)%Z then Return rest
  else
    match read_refused size with
    | Some e => Raise e
    | None => Return (take (Z.to_nat size) rest)
    end.

(** [f.write(chunk)] on a file opened with ['wb'] and written in sequence:
    the chunk goes after what was written. *)
Definition write (fs : gmap nat (list Byte.byte)) (file : nat)
    (chunk : list Byte.byte) : gmap nat (list Byte.byte) :=
  <[ file := default [] (fs !! file) ++ chunk ]> fs.

(** [open(path, 'rb')]: the file, or the refusal. *)
Definition open_rb (fs : gmap nat (list Byte.byte)) (path : string)
    : result nat :=
  match fs !! file_of path with
  | Some _ =>
      if readable path then Return (file_of path)
      else Raise (OSError (strerror path))
  | None => Raise (OSError (strerror path))
  end.

(** The loop [for chunk in iter(lambda: f.read(chunk_size), b'')] of
    [file_sha256sum], cut after [fuel] reads; [fed] is what the hash object
    was fed so far. *)
Fixpoint sha256_loop (fuel : nat) (fs : gmap nat (list Byte.byte)) (file : nat)
    (pos : nat) (chunk_size : Z) (fed : list Byte.byte)
    : option (result (list Byte.byte)) :=
  match fuel with
  | O => None
  | S k =>
      match read fs file pos chunk_size with
      | Raise e => Some (Raise e)
      | Return [] => Some (Return fed)
      | Return chunk =>
          sha256_loop k fs file (pos + length chunk) chunk_size (fed ++ chunk)
      end
  end.

(** [file_sha256sum(filepath, chunk_size)]; [None] when [fuel] reads were
    not enough. *)
Definition file_sha256sum (fuel : nat) (fs : gmap nat (list Byte.byte))
    (filepath : string) (chunk_size : Z) : option (result string) :=
  match open_rb fs filepath with
  | Raise e => Some (Raise e)
  | Return f =>
      match sha256_loop fuel fs f 0 chunk_size [] with
      | Some (Return fed) => Some (Return (sha256_hex fed))
      | Some (Raise e) => Some (Raise e)
      | None => None
      end
  end.

(** [verify_file_integrity(filepath, expected_hash)] *)
Definition verify_file_integrity (fuel : nat) (fs : gmap nat (list Byte.byte))
    (filepath : string) (expected_hash : string) : option (result bool) :=
  match file_sha256sum fuel fs filepath 8192 with
  | Some (Return h) => Some (Return (String.eqb h expected_hash))
  | Some (Raise e) => Some (Raise e)
  | None => None
  end.

(** The [while True] loop of [copy_file], cut after [fuel] reads: its
    outcome, and the files as it leaves them. *)
Fixpoint copy_loop (fuel : nat) (fsrc fdst : nat) (pos : nat)
    (fs : gmap nat (list Byte.byte))
    : option (result unit * gmap nat (list Byte.byte)) :=
  match fuel with
  | O => None
  | S k =>
      match read fs fsrc pos 8192 with
      | Raise e => Some (Raise e, fs)
      | Return [] => Some (Return tt, fs)
      | Return chunk =>
          copy_loop k fsrc fdst (pos + length chunk) (write fs fdst chunk)
      end
  end.

(** [copy_file(src, dst)]: the source is opened first, then the
    destination, which is created or emptied; [None] when [fuel] reads were
    not enough. *)
Definition copy_file (fuel : nat) (src dst : string)
    (fs : gmap nat (list Byte.byte))
    : option (result unit * gmap nat (list Byte.byte)) :=
  match open_rb fs src with
  | Raise e => Some (Raise e, fs)
  | Return fsrc =>
      if writable dst then
        copy_loop fuel fsrc (file_of dst) 0 (<[ file_of dst := [] ]> fs)
      else Some (Raise (OSError (strerror dst)), fs)
  end.

End WithPlatform.
End Check.

(** ** The command lines of a backup and of a restore

    What a backup and a restore are to run, written out on its own: the
    command lines, their order, and what a run in that order leaves in the
    history.  Nothing here is taken from the executors, which are compared
    with it. *)

Module Protocol.
Import PyStr PyTime PyOs Run.

(** A command line, with the environment it is given ([None]: that of the
    program). *)
Definition step : Type := list string * option (list (string * string)).

(** The events of running the command lines [steps] in this order from the
    history [w]: each one is run to its end, and the next one is started
    only when the one before exited with status 0. *)
Fixpoint run_in_order (E : environment) (steps : list step) (w : world)
    : list event :=
  match steps with
  | [] => []
  | (argv, env) :: rest =>
      let o := os_spawn E w argv in
      EvSpawn argv env o
      :: (if succeeded o then run_in_order E rest (w ++ [EvSpawn argv env o])
          else [])
  end.

(** In the events [evs] of a run of [steps], every step ran and exited with
    status 0. *)
Definition completed (steps : list step) (evs : list event) : bool :=
  (length evs =? length steps)
  && forallb (fun c => succeeded c.2) (spawned evs).

(** A client of PostgreSQL: on the host the password travels in the
    environment of the process, in a container it is passed to
    [docker exec] with [-e]. *)
Definition pg_client (container : option string) (password : string)
    (inner : list string) : step :=
  if_truthy container
    (fun c => (["docker"; "exec"; "-e"; "PGPASSWORD=" +:+ password; c] ++ inner,
               None))
    (inner, Some [("PGPASSWORD", password)]).

(** A command of the container [c]. *)
Definition in_container (c : string) (inner : list string) : step :=
  (["docker"; "exec"; c] ++ inner, None).

(** The dump of [db] in the format [fmt] ([p]: plain text, [c]: custom
    archive) into [file]. *)
Definition pg_dump (user host port db fmt file : string) : list string :=
  ["pg_dump"; "-U"; user; "-h"; host; "-p"; port; "-d"; db; "-F"; fmt; "-f"; file].

(** The same in a container, where host and port are left out. *)
Definition pg_dump_local (user db fmt file : string) : list string :=
  ["pg_dump"; "-U"; user; "-d"; db; "-F"; fmt; "-f"; file].

(** The command lines of a PostgreSQL backup of [db] stamped [ts]: the
    plain dump, then the custom archive.  On the host each is written to
    its place under [backup_dir]; in a container each is written under
    [/tmp] there, copied out to its place and removed from the
    container. *)
Definition postgres_backup_steps (db user password port host backup_dir : string)
    (container : option string) (ts : string) : list step :=
  let plain := PyPath.join backup_dir (db +:+ "_" +:+ ts +:+ ".sql") in
  let custom := PyPath.join backup_dir (db +:+ "_" +:+ ts +:+ ".backup") in
  if_truthy container
    (fun c =>
       let tmp_plain := "/tmp/" +:+ db +:+ "_" +:+ ts +:+ ".sql" in
       let tmp_custom := "/tmp/" +:+ db +:+ "_" +:+ ts +:+ ".backup" in
       [in_container c (pg_dump_local user db "p" tmp_plain);
        (["docker"; "cp"; c +:+ ":" +:+ tmp_plain; plain], None);
        in_container c ["rm"; tmp_plain];
        in_container c (pg_dump_local user db "c" tmp_custom);
        (["docker"; "cp"; c +:+ ":" +:+ tmp_custom; custom], None);
        in_container c ["rm"; tmp_custom]])
    [pg_client None password (pg_dump user host port db "p" plain);
     pg_client None password (pg_dump user host port db "c" custom)].

(** The statement that drops and creates [db] in PostgreSQL. *)
Definition pg_drop_create_sql (db : string) : string :=
  "DROP DATABASE IF EXISTS " +:+ Shlex.quote db
  +:+ "; CREATE DATABASE " +:+ Shlex.quote db +:+ ";".

(** The statement that drops and creates [db] in MySQL. *)
Definition mysql_drop_create_sql (db : string) : string :=
  "DROP DATABASE IF EXISTS `" +:+ db +:+ "`; CREATE DATABASE `" +:+ db
  +:+ "` CHARACTER SET utf8mb4 COLLATE utf8mb4_unicode_ci;".

(** The MySQL client running the drop and create statement; the host flag
    is there for a non-empty host. *)
Definition mysql_drop_create (db user password port host : string) : list string :=
  ["mysql"; "-u" +:+ user; "-p" +:+ password]
  ++ (if nonempty host then ["-h" +:+ host] else [])
  ++ ["-P" +:+ port; "-e"; mysql_drop_create_sql db].

(** The shell script that loads the dump [path] into [db] with the MySQL
    client. *)
Definition mysql_load_script (user password port host db path : string) : string :=
  "mysql -u" +:+ Shlex.quote user +:+ " -p'" +:+ password +:+ "' -P"
  +:+ Shlex.quote port
  +:+ (if nonempty host then " -h" +:+ Shlex.quote host else EmptyString)
  +:+ " " +:+ Shlex.quote db +:+ " < " +:+ Shlex.quote path.

(** The place of the file [file_path] once staged in a container. *)
Definition staged_at (file_path : string) : string :=
  "/tmp/restore_" +:+ PyPath.basename file_path.

(** A restore in three parts: the commands that come first, outside any
    guard; the commands that follow; the commands that are run at the end
    whatever the ones that follow did, once the first ones succeeded. *)
Record plan := mkPlan {
  first : list step;
  main : list step;
  cleanup : list step
}.

(** The events of running [steps] in order, each to its end, whatever their
    outcomes. *)
Fixpoint run_regardless (E : environment) (steps : list step) (w : world)
    : list event :=
  match steps with
  | [] => []
  | (argv, env) :: rest =>
      let ev := EvSpawn argv env (os_spawn E w argv) in
      ev :: run_regardless E rest (w ++ [ev])
  end.

(** The run of a plan from the history [w]: whether it succeeded, and its
    events.  It succeeds when its first and main commands all ran and
    exited with status 0; the outcomes of the cleanup do not count. *)
Definition run_plan (E : environment) (p : plan) (w : world)
    : bool * list event :=
  let evs1 := run_in_order E (first p) w in
  if completed (first p) evs1 then
    let evs2 := run_in_order E (main p) (w ++ evs1) in
    let evs3 := run_regardless E (cleanup p) (w ++ evs1 ++ evs2) in
    (completed (main p) evs2, evs1 ++ evs2 ++ evs3)
  else (false, evs1).

(** The plan of a MySQL restore of [db] from [file]: drop and create the
    database, then load the dump.  In a container the file is staged after
    the drop and create, loaded from where it is staged, and removed from
    there at the end. *)
Definition mysql_restore_plan (db file user password port host : string)
    (container : option string) : plan :=
  if_truthy container
    (fun c =>
       mkPlan
         [in_container c (mysql_drop_create db user password port host);
          (["docker"; "cp"; file; c +:+ ":" +:+ staged_at file], None)]
         [in_container c
            ["sh"; "-c";
             mysql_load_script user password port host db (staged_at file)]]
         [in_container c ["rm"; "-f"; staged_at file]])
    (mkPlan []
       [(mysql_drop_create db user password port host, None);
        (["bash"; "-c"; mysql_load_script user password port host db file], None)]
       []).

(** The main commands of a PostgreSQL restore from [source]: of a plain
    dump, drop and create the database through the administrative
    database, then load the dump into it; of a custom archive
    ([.backup]), [pg_restore] with the create flag [-C] against the
    administrative database, and nothing else. *)
Definition postgres_restore_main (db source user password port host : string)
    (container : option string) (archive : bool) : list step :=
  if archive then
    [pg_client container password
       ["pg_restore"; "-U"; user; "-h"; host; "-p"; port; "-C"; "-d"; "postgres";
        source]]
  else
    [pg_client container password
       ["psql"; "-U"; user; "-h"; host; "-p"; port; "-d"; "postgres"; "-c";
        pg_drop_create_sql db];
     pg_client container password
       ["psql"; "-U"; user; "-h"; host; "-p"; port; "-d"; db; "-f"; source]].

(** The plan of a PostgreSQL restore of [db] from [file]; in a container
    the file is staged first and removed at the end. *)
Definition postgres_restore_plan (db file user password port host : string)
    (container : option string) : plan :=
  let archive := String.eqb (PyPath.splitext file).2 ".backup" in
  if_truthy container
    (fun c =>
       mkPlan
         [(["docker"; "cp"; file; c +:+ ":" +:+ staged_at file], None)]
         (postgres_restore_main db (staged_at file) user password port host
            container archive)
         [in_container c ["rm"; "-f"; staged_at file]])
    (mkPlan []
       (postgres_restore_main db file user password port host container archive)
       []).

End Protocol.

(** * Properties *)

(** ** The string tests against their relational readings *)

Module PyStrFacts.
Import PyStr.

Lemma app_nil_l (s : string) : EmptyString +:+ s = s.
Proof. reflexivity. Qed.

Lemma app_cons (a : ascii) (s t : string) :
  String a s +:+ t = String a (s +:+ t).
Proof. reflexivity. Qed.

Lemma app_nil_r (s : string) : s +:+ EmptyString = s.
Proof.
  induction s as [|a s IH]; [reflexivity | now rewrite app_cons, IH].
Qed.

Lemma app_assoc (a b c : string) : (a +:+ b) +:+ c = a +:+ (b +:+ c).
Proof.
  induction a as [|x a IH]; [reflexivity | now rewrite !app_cons, IH].
Qed.

Lemma startswith_spec s p : startswith s p = true <-> starts_with s p.
Proof.
  revert s. induction p as [|b p IH]; intros s; simpl.
  - split; [intros _; now exists s | reflexivity].
  - destruct s as [|a s].
    + split; [discriminate | intros [r Hr]; discriminate].
    + destruct (Ascii.eqb_spec a b) as [->|Hne].
      * rewrite IH. split; intros [r Hr]; exists r;
          rewrite ?app_cons in *; congruence.
      * split; [discriminate | intros [r Hr]; rewrite app_cons in Hr; congruence].
Qed.

Lemma endswith_unfold s e :
  endswith s e =
  String.eqb s e ||
  match s with EmptyString => false | String _ s' => endswith s' e end.
Proof. destruct s; reflexivity. Qed.

Lemma contains_unfold s sub :
  contains s sub =
  startswith s sub ||
  match s with EmptyString => false | String _ s' => contains s' sub end.
Proof. destruct s; reflexivity. Qed.

Lemma endswith_spec s e : endswith s e = true <-> ends_with s e.
Proof.
  induction s as [|a s IH]; rewrite endswith_unfold, orb_true_iff.
  - split.
    + intros [H|H]; [|discriminate].
      apply String.eqb_eq in H. subst e. now exists EmptyString.
    + intros [r Hr]. left. destruct r; [|discriminate].
      rewrite app_nil_l in Hr. subst e. reflexivity.
  - rewrite IH. split.
    + intros [H|[r Hr]].
      * apply String.eqb_eq in H. subst e. now exists EmptyString.
      * subst s. now exists (String a r).
    + intros [r Hr]. destruct r as [|x r].
      * left. rewrite app_nil_l in Hr. subst e. apply String.eqb_refl.
      * right. rewrite app_cons in Hr. injection Hr as _ Hs. now exists r.
Qed.

Lemma contains_spec s sub : contains s sub = true <-> has_substring s sub.
Proof.
  induction s as [|a s IH]; rewrite contains_unfold, orb_true_iff.
  - rewrite startswith_spec. split.
    + intros [[r Hr]|H]; [|discriminate]. now exists EmptyString, r.
    + intros (x & y & H). left. destruct x; [now exists y | discriminate].
  - rewrite IH, startswith_spec. split.
    + intros [[r Hr]|(x & y & H)].
      * now exists EmptyString, r.
      * subst s. now exists (String a x), y.
    + intros (x & y & H). destruct x as [|c x].
      * left. now exists y.
      * right. rewrite app_cons in H. injection H as _ Hs. now exists x, y.
Qed.

Lemma endswith_any_spec f exts :
  endswith_any f exts = true <-> exists e, In e exts /\ ends_with f e.
Proof.
  unfold endswith_any. rewrite existsb_exists.
  split; intros (e & He & H); exists e; split; auto; now apply endswith_spec.
Qed.

Example splitlines_ex :
  splitlines ("ab" +:+ String LF (String CR (String LF "cd")))
  = ["ab"; EmptyString; "cd"].
Proof. reflexivity. Qed.

Example splitlines_trailing : splitlines (String "a" (String LF EmptyString)) = ["a"].
Proof. reflexivity. Qed.

Example strip_ex : strip "  app " = "app".
Proof. reflexivity. Qed.


Lemma last_char_app (s t : string) :
  nonempty t = true -> last_char (s +:+ t) = last_char t.
Proof.
  intros Ht. induction s as [|c s IH]; [reflexivity|].
  rewrite app_cons. simpl. rewrite IH.
  destruct t as [|d t]; [discriminate|].
  simpl. destruct (last_char t); reflexivity.
Qed.

(** Two suffixes with different last characters exclude each other. *)
Lemma ends_with_last_char (s e : string) :
  nonempty e = true -> ends_with s e -> last_char s = last_char e.
Proof. intros He [r ->]. now apply last_char_app. Qed.

Lemma ends_with_app (a e : string) : ends_with (a +:+ e) e.
Proof. now exists a. Qed.

End PyStrFacts.

(** ** Dedup guard *)

Module DedupGuard.
Import PyStr PyStrFacts PyTime PyOs Main.

Example has_today_backup_named :
  _has_today_backup
    (mkFs (fun d => if String.eqb d "bk" then Some ["app_20250807_230117.sql"] else None)
          (fun _ => 0%Z))
    (mkDatetime 2025 8 7 23 30 0) "bk" (Some "app") default_extensions = true.
Proof. reflexivity. Qed.

Example has_today_backup_other_day :
  _has_today_backup
    (mkFs (fun d => if String.eqb d "bk" then Some ["app_20250806_230117.sql"] else None)
          (fun _ => 0%Z))
    (mkDatetime 2025 8 7 23 30 0) "bk" (Some "app") default_extensions = false.
Proof. reflexivity. Qed.

Lemma has_today_backup_loop_spec files db_name tag exts :
  has_today_backup_loop files db_name tag exts = true <->
  exists f, In f files /\ name_matches db_name tag f /\
            exists e, In e exts /\ ends_with f e.
Proof.
  induction files as [|f rest IH]; simpl.
  - split; [discriminate | intros (f & [] & _)].
  - set (skip := match db_name with
                 | Some (String c n) => _ | _ => _ end).
    assert (Hskip : skip = false <-> name_matches db_name tag f).
    { unfold skip, name_matches.
      destruct db_name as [[|c n]|]; rewrite negb_false_iff;
        first [ exact (contains_spec _ _)
              | exact (startswith_spec f (String c n +:+ "_" +:+ tag)) ]. }
    destruct skip.
    + rewrite IH. split.
      * intros (g & Hin & H). exists g. auto.
      * intros (g & [<-|Hin] & Hn & He); [|exists g; auto].
        apply Hskip in Hn. discriminate.
    + destruct (endswith_any f exts) eqn:Hext.
      * split; [intros _ | reflexivity].
        exists f. split; [now left|]. split; [now apply Hskip|].
        now apply endswith_any_spec.
      * rewrite IH. split.
        -- intros (g & Hin & H). exists g. auto.
        -- intros (g & [<-|Hin] & Hn & He); [|exists g; auto].
           apply endswith_any_spec in He. congruence.
Qed.

(** C1. [_has_today_backup] is true exactly when the directory exists and
    holds a file name that, for a given (non-empty) database name, starts
    with [<database>_<YYYYMMDD>], or, with no database name, contains
    [_<YYYYMMDD>_], and in both cases ends in [.sql] or [.backup]; it is
    false for a directory that does not exist. *)
Theorem has_today_backup_iff (fs : filesystem) (now : datetime)
    (dir : string) (db_name : option string) :
  let tag := strftime_Ymd now in
  (_has_today_backup fs now dir db_name default_extensions = true <->
   exists files f,
     listdir fs dir = Some files /\ In f files /\
     match db_name with
     | Some (String c n) => starts_with f (String c n +:+ "_" +:+ tag)
     | _ => has_substring f ("_" +:+ tag +:+ "_")
     end /\
     (ends_with f ".sql" \/ ends_with f ".backup")) /\
  (isdir fs dir = false ->
   _has_today_backup fs now dir db_name default_extensions = false).
Proof.
  intros tag. unfold _has_today_backup, isdir. split.
  - destruct (listdir fs dir) as [files|].
    + rewrite has_today_backup_loop_spec. fold tag. split.
      * intros (f & Hin & Hn & e & He & Hend). exists files, f.
        repeat split; auto.
        destruct He as [<-|[<-|[]]]; auto.
      * intros (files' & f & [= <-] & Hin & Hn & Hend). exists f.
        repeat split; auto.
        destruct Hend; [exists ".sql" | exists ".backup"]; simpl; auto.
    + split; [discriminate | intros (files & f & H & _); discriminate].
  - destruct (listdir fs dir); [discriminate | reflexivity].
Qed.

(** The guard at a directory that is missing. *)
Lemma has_today_backup_iff_witness :
  _has_today_backup
    (mkFs (fun _ => None) (fun _ => 0%Z)) (mkDatetime 2025 8 7 0 0 0)
    "backups" (Some "app") default_extensions = false.
Proof.
  apply (proj2 (has_today_backup_iff
                  (mkFs (fun _ => None) (fun _ => 0%Z))
                  (mkDatetime 2025 8 7 0 0 0) "backups" (Some "app"))).
  reflexivity.
Defined.


End DedupGuard.

(** ** Restore selector *)

Module Selector.
Import PyStr PyStrFacts PyOs ClientRestore Spec.

Lemma find_first (p : string -> bool) (l : list string) (x : string) :
  find p l = Some x ->
  exists l1 l2, l = l1 ++ x :: l2 /\ p x = true /\ forall y, In y l1 -> p y = false.
Proof.
  induction l as [|a l IH]; simpl; [discriminate|].
  destruct (p a) eqn:Hpa.
  - intros [= <-]. exists [], l. repeat split; auto. intros y [].
  - intros H. destruct (IH H) as (l1 & l2 & -> & Hx & Hl1).
    exists (a :: l1), l2. repeat split; auto.
    intros y [<-|Hy]; auto.
Qed.

Lemma find_none_all (p : string -> bool) (l : list string) :
  find p l = None -> forall y, In y l -> p y = false.
Proof. intros H y Hy. exact (find_none p l H y Hy). Qed.

Lemma not_endswith s e : endswith s e = false -> ~ ends_with s e.
Proof. intros H Hc. apply endswith_spec in Hc. congruence. Qed.

Lemma choose_by_extension_some files prefs f :
  choose_by_extension files prefs = Some f ->
  exists pre ext post,
    prefs = pre ++ ext :: post /\
    (forall e, In e pre -> none_ending_with e files) /\
    first_ending_with ext files f.
Proof.
  induction prefs as [|ext rest IH]; simpl; [discriminate|].
  destruct (find (fun f0 => endswith f0 ext) files) as [f0|] eqn:Hfind.
  - intros [= <-]. apply find_first in Hfind as (l1 & l2 & -> & Hf & Hl1).
    exists [], ext, rest. repeat split.
    + intros e [].
    + exists l1, l2. repeat split; [now apply endswith_spec|].
      intros g Hg. apply not_endswith. auto.
  - intros H. destruct (IH H) as (pre & ext' & post & -> & Hpre & Hfirst).
    exists (ext :: pre), ext', post. repeat split; auto.
    intros e [<-|He]; auto.
    intros g Hg. apply not_endswith. now apply (find_none_all _ _ Hfind).
Qed.

Lemma choose_by_extension_none files prefs :
  choose_by_extension files prefs = None ->
  forall e, In e prefs -> none_ending_with e files.
Proof.
  induction prefs as [|ext rest IH]; simpl; [intros _ e []|].
  destruct (find (fun f0 => endswith f0 ext) files) as [f0|] eqn:Hfind;
    [discriminate|].
  intros H e [<-|He]; [|now apply IH].
  intros g Hg. apply not_endswith. now apply (find_none_all _ _ Hfind).
Qed.

Lemma newest_first_head mtime f files :
  newest_first mtime (f :: files) ->
  forall g, In g (f :: files) -> (mtime g <= mtime f)%Z.
Proof.
  intros Hs g [<-|Hg]; [lia|].
  apply StronglySorted_inv in Hs as [_ Hall].
  rewrite Forall_forall in Hall. exact (Hall g ltac:(now apply list_elem_of_In)).
Qed.

Lemma insert_desc_perm key x l : Permutation (x :: l) (insert_desc key x l).
Proof.
  induction l as [|y l IH]; simpl; [reflexivity|].
  destruct (key y <=? key x)%Z; [reflexivity|].
  rewrite perm_swap. now constructor.
Qed.

Lemma sort_desc_perm key l : Permutation l (sort_desc key l).
Proof.
  induction l as [|x l IH]; simpl; [reflexivity|].
  rewrite <- insert_desc_perm. now constructor.
Qed.

Lemma insert_desc_sorted key x l :
  newest_first key l -> newest_first key (insert_desc key x l).
Proof.
  unfold newest_first. induction l as [|y l IH]; intros Hs; simpl.
  - repeat constructor.
  - apply StronglySorted_inv in Hs as [Hl Hy].
    destruct (key y <=? key x)%Z eqn:Hle.
    + apply Z.leb_le in Hle. constructor; [now constructor|].
      constructor; [exact Hle|].
      eapply Forall_impl; [exact Hy|].
      unfold newer_or_equal. intros z Hz. lia.
    + apply Z.leb_gt in Hle. constructor; [now apply IH|].
      eapply Permutation_Forall; [apply insert_desc_perm|].
      constructor; [unfold newer_or_equal; lia | exact Hy].
Qed.

Lemma sort_desc_sorted key l : newest_first key (sort_desc key l).
Proof.
  induction l as [|x l IH]; simpl; [constructor | now apply insert_desc_sorted].
Qed.

Lemma list_backup_files_loop_In dir prefix exts names p :
  In p (list_backup_files_loop dir prefix exts names) <->
  exists f, In f names /\ p = PyPath.join dir f /\
            starts_with f prefix /\ exists e, In e exts /\ ends_with f e.
Proof.
  induction names as [|f rest IH]; simpl.
  - split; [intros [] | intros (f & [] & _)].
  - assert (Hrest : (exists g, In g rest /\ p = PyPath.join dir g /\
                       starts_with g prefix /\ exists e, In e exts /\ ends_with g e) ->
                    exists g, (f = g \/ In g rest) /\ p = PyPath.join dir g /\
                       starts_with g prefix /\ exists e, In e exts /\ ends_with g e).
    { intros (g & Hg & H). exists g. split; [now right | exact H]. }
    destruct (startswith f prefix) eqn:Hpre; simpl;
      [destruct (endswith_any f exts) eqn:Hext; simpl|]; rewrite ?IH.
    + split.
      * intros [<-|H]; [|now apply Hrest].
        exists f. split; [now left|]. split; [reflexivity|].
        split; [now apply startswith_spec | now apply endswith_any_spec].
      * intros (g & [<-|Hg] & Hp & H); [left; now symmetry | right].
        exists g. tauto.
    + split; [exact Hrest|].
      intros (g & [<-|Hg] & Hp & Hs & He); [|exists g; tauto].
      apply endswith_any_spec in He. congruence.
    + split; [exact Hrest|].
      intros (g & [<-|Hg] & Hp & Hs & He); [|exists g; tauto].
      apply startswith_spec in Hs. congruence.
Qed.

(** [_list_backup_files]: nothing for a directory that does not exist;
    otherwise the joined paths of the names with the prefix [<db>_] and a
    listed extension, most recently modified first. *)
Lemma list_backup_files_spec fs dir db exts :
  (isdir fs dir = false -> _list_backup_files fs dir db exts = []) /\
  newest_first (getmtime fs) (_list_backup_files fs dir db exts) /\
  (forall p, In p (_list_backup_files fs dir db exts) <->
     exists names f, listdir fs dir = Some names /\ In f names /\
       p = PyPath.join dir f /\ starts_with f (db +:+ "_") /\
       exists e, In e exts /\ ends_with f e).
Proof.
  unfold _list_backup_files, isdir.
  destruct (listdir fs dir) as [names|]; repeat split; try discriminate.
  - apply sort_desc_sorted.
  - intros Hp. exists names.
    apply (Permutation_in _ (Permutation_sym (sort_desc_perm _ _))) in Hp.
    apply list_backup_files_loop_In in Hp as (f & H). exists f. tauto.
  - intros (names' & f & [= <-] & H).
    apply (Permutation_in _ (sort_desc_perm _ _)).
    apply list_backup_files_loop_In. exists f. tauto.
  - constructor.
  - intros [].
  - intros (names & f & H & _). discriminate.
Qed.

Lemma sql_is_not_backup (a : string) : endswith (a +:+ ".sql") ".backup" = false.
Proof.
  destruct (endswith (a +:+ ".sql") ".backup") eqn:H; [|reflexivity].
  apply endswith_spec, ends_with_last_char in H; [|reflexivity].
  rewrite last_char_app in H by reflexivity. discriminate.
Qed.

Lemma backup_is_backup (a : string) : endswith (a +:+ ".backup") ".backup" = true.
Proof. apply endswith_spec, ends_with_app. Qed.

(** C2. On a non-empty candidate list, most recently modified first,
    [_choose_latest] returns a candidate: the first one, in list order, that
    ends with the first extension of the preferred order that any candidate
    ends with, whatever the modification times; when no candidate ends with
    a preferred extension, the head of the list, which is the most recently
    modified candidate.  For PostgreSQL and the candidates [a.sql],
    [a.backup] it returns [a.backup] in either order. *)
Theorem choose_latest_spec :
  (forall (mtime : string -> Z) (files preferred_order : list string),
     files <> [] ->
     newest_first mtime files ->
     exists f,
       _choose_latest files preferred_order = Some f /\ In f files /\
       ((exists pre ext post,
           preferred_order = pre ++ ext :: post /\
           (forall e, In e pre -> none_ending_with e files) /\
           first_ending_with ext files f)
        \/
        ((forall e, In e preferred_order -> none_ending_with e files) /\
         hd_error files = Some f /\
         forall g, In g files -> (mtime g <= mtime f)%Z))) /\
  (forall a : string,
     _choose_latest [a +:+ ".sql"; a +:+ ".backup"] POSTGRES_EXT_PRIORIDAD
       = Some (a +:+ ".backup") /\
     _choose_latest [a +:+ ".backup"; a +:+ ".sql"] POSTGRES_EXT_PRIORIDAD
       = Some (a +:+ ".backup")).
Proof.
  split.
  - intros mtime files prefs Hne Hsorted.
    destruct files as [|f0 rest]; [congruence|].
    unfold _choose_latest.
    destruct (choose_by_extension (f0 :: rest) prefs) as [f|] eqn:Hc.
    + exists f. split; [reflexivity|].
      destruct (choose_by_extension_some _ _ _ Hc)
        as (pre & ext & post & Hp & Hpre & Hfirst).
      split.
      * destruct Hfirst as (l1 & l2 & -> & _). apply in_or_app. right. now left.
      * left. now exists pre, ext, post.
    + exists f0. split; [reflexivity|]. split; [now left|]. right.
      split; [now apply choose_by_extension_none|].
      split; [reflexivity|]. now apply newest_first_head.
  - intros a. unfold _choose_latest, POSTGRES_EXT_PRIORIDAD. simpl.
    rewrite sql_is_not_backup, !backup_is_backup. split; reflexivity.
Qed.

(** A newer plain dump does not win over an older archive. *)
Lemma choose_latest_spec_witness :
  exists f,
    _choose_latest ["bk/app_20250807_230117.sql"; "bk/app_20250806_230117.backup"]
                   POSTGRES_EXT_PRIORIDAD = Some f /\
    ends_with f ".backup".
Proof.
  pose (mtime := fun p : string =>
          if String.eqb p "bk/app_20250807_230117.sql" then 2%Z else 1%Z).
  destruct (proj1 choose_latest_spec mtime
              ["bk/app_20250807_230117.sql"; "bk/app_20250806_230117.backup"]
              POSTGRES_EXT_PRIORIDAD)
    as (f & Hf & _).
  - discriminate.
  - repeat constructor. unfold newer_or_equal. vm_compute. discriminate.
  - exists f. split; [exact Hf|].
    vm_compute in Hf. injection Hf as <-. now exists "bk/app_20250806_230117".
Defined.

End Selector.

(** ** Stepping through the effects *)

Module RunFacts.
Import PyStr Run ClientBackup.

Lemma subprocess_run_eq E cmd env capture w :
  subprocess_run E cmd env capture w =
  (match os_spawn E w cmd with
   | NotStarted msg => Raise (OSError msg)
   | Exited rc out err =>
       if (rc =? 0)%Z
       then Return (mkCompleted cmd rc (if capture then Some out else None)
                                (if capture then Some err else None))
       else Raise (CalledProcessError rc cmd (if capture then Some err else None))
   end,
   w ++ [EvSpawn cmd env (os_spawn E w cmd)]).
Proof.
  unfold subprocess_run. destruct (os_spawn E w cmd) as [msg|rc out err];
    [reflexivity|]. destruct (rc =? 0)%Z; reflexivity.
Qed.

Lemma docker_exec_eq E c inner capture w :
  docker_exec E c inner [] capture w =
  subprocess_run E (["docker"; "exec"; c] ++ inner) None capture w.
Proof. reflexivity. Qed.

(** One process: rewrite the call into its outcome and split on it (not
    started, exit status zero, exit status non-zero). *)
Ltac spawn_step E :=
  unfold docker_exec, run; rewrite subprocess_run_eq;
  match goal with
  | |- context [os_spawn E ?w ?argv] =>
      let Ho := fresh "Ho" in
      let rc := fresh "rc" in
      destruct (os_spawn E w argv) as [?msg|rc ?out ?err] eqn:Ho;
      [| destruct (rc =? 0)%Z eqn:?]
  end.

(** All the processes of a straight-line run. *)
Ltac spawn_steps E := repeat (spawn_step E; cbn [ret]).

Ltac use_exit_status :=
  repeat match goal with
         | H : (?rc =? 0)%Z = _ |- context [(?rc =? 0)%Z] => rewrite H
         end.

(** The history after a run is the history before it, then new events. *)
Ltac new_events :=
  eexists; (split; [rewrite <- ?List.app_assoc; reflexivity|]).

Lemma preceded_nil later earlier : Spec.preceded_by_success [] later earlier.
Proof. intros [|? ?] o post H; discriminate H. Qed.

Lemma preceded_skip c o steps later earlier :
  c <> later -> Spec.preceded_by_success steps later earlier ->
  Spec.preceded_by_success ((c, o) :: steps) later earlier.
Proof.
  intros Hne Hs [|p pre] o1 post H; simpl in H.
  - injection H as Hc _ _. congruence.
  - injection H as <- H. destruct (Hs _ _ _ H) as (o' & Hin & Hok).
    exists o'. split; [now right | exact Hok].
Qed.

Lemma preceded_after o steps later earlier :
  earlier <> later -> succeeded o = true ->
  Spec.preceded_by_success ((earlier, o) :: steps) later earlier.
Proof.
  intros Hne Hok [|p pre] o1 post H; simpl in H.
  - injection H as Hc _ _. congruence.
  - injection H as <- _. exists o. split; [now left | exact Hok].
Qed.

Ltac order_steps :=
  repeat first
    [ apply preceded_nil
    | apply preceded_after;
      [intros Hneq; discriminate Hneq | simpl; use_exit_status; reflexivity]
    | apply preceded_skip; [intros Hneq; discriminate Hneq |] ].

Lemma swallow_returns {A} (m : M A) w : (swallow m w).1 = Return tt.
Proof. unfold swallow. destruct (m w). reflexivity. Qed.

(** A cleanup whose failures are swallowed leaves the outcome of the body
    as it is. *)
Lemma try_finally_swallow {A B} (body : M A) (cleanup : M B) w :
  (try_finally body (swallow cleanup) w).1 = (body w).1.
Proof.
  unfold try_finally, swallow. destruct (body w) as [r w1].
  destruct (cleanup w1). reflexivity.
Qed.

End RunFacts.

(** ** Runs against their command lines *)

Module ProtocolFacts.
Import PyStr PyStrFacts PyTime PyOs Run RunFacts ClientBackup ClientRestore Protocol.

Lemma mysql_restore_shell_eq user password port host db path :
  _mysql_restore_shell user password port host db path
  = mysql_load_script user password port host db path.
Proof.
  unfold _mysql_restore_shell, mysql_load_script.
  destruct host as [|h0 host]; cbn [nonempty app PyStr.join];
    rewrite !app_assoc; reflexivity.
Qed.

Lemma mysql_container_restore_cmd_eq user password port host db remote :
  mysql_container_restore_cmd user password port host db remote
  = mysql_load_script user password port host db remote.
Proof.
  unfold mysql_container_restore_cmd, mysql_load_script.
  destruct host as [|h0 host]; cbn [nonempty];
    rewrite !app_assoc; reflexivity.
Qed.

Lemma mysql_drop_create_cmd_eq db user password port host :
  mysql_drop_create_cmd db user password port host
  = mysql_drop_create db user password port host.
Proof. destruct host; reflexivity. Qed.

(** One step on both sides of the comparison of a run with its plan: bring
    the histories to one form, then split on the outcome of the first
    process in sight. *)
Ltac flatten_history :=
  cbn [run_in_order run_regardless first main cleanup app fst snd
       flat_map if_truthy];
  rewrite ?List.app_nil_r; rewrite <- ?List.app_assoc; cbn [app].

Ltac next_outcome E :=
  flatten_history;
  match goal with
  | |- context [os_spawn E ?w ?argv] =>
      let rc := fresh "rc" in
      destruct (os_spawn E w argv) as [?msg|rc ?out ?err] eqn:?;
      cbn [succeeded];
      [| destruct (rc =? 0)%Z eqn:?]
  end;
  cbn [completed length Nat.eqb spawned forallb andb snd fst ret].

Ltac same_run :=
  flatten_history;
  cbn [completed length Nat.eqb spawned forallb andb snd fst ret succeeded];
  use_exit_status; cbn [andb];
  split; [reflexivity | split; intros Hr; first [reflexivity | discriminate Hr]].

Lemma commands_app (a b : list event) : commands (a ++ b) = commands a ++ commands b.
Proof.
  unfold commands. induction a as [|ev a IH]; [reflexivity|].
  destruct ev; cbn [app spawned fmap list_fmap]; try exact IH.
  cbn [app]. now rewrite <- IH.
Qed.

Lemma run_in_order_all_succeed E steps w :
  (forall h argv, succeeded (os_spawn E h argv) = true) ->
  completed steps (run_in_order E steps w) = true /\
  commands (run_in_order E steps w) = steps.*1.
Proof.
  intros Hall. revert w. induction steps as [|[a e] steps IH]; intros w.
  - split; reflexivity.
  - cbn [run_in_order]. rewrite Hall.
    destruct (IH (w ++ [EvSpawn a e (os_spawn E w a)])) as [Hc Hcmd].
    unfold completed in *. cbn [length spawned forallb snd fst]. rewrite Hall.
    apply andb_true_iff in Hc as [Hlen Hok]. split.
    + apply andb_true_iff. split; [exact Hlen | exact Hok].
    + unfold commands in *. cbn [spawned fmap list_fmap fst]. now rewrite <- Hcmd.
Qed.

Lemma run_regardless_commands E steps w :
  commands (run_regardless E steps w) = steps.*1.
Proof.
  revert w. induction steps as [|[a e] steps IH]; intros w; [reflexivity|].
  cbn [run_regardless]. unfold commands in *.
  cbn [spawned fmap list_fmap fst]. now rewrite IH.
Qed.

Lemma run_plan_all_succeed E p w :
  (forall h argv, succeeded (os_spawn E h argv) = true) ->
  (run_plan E p w).1 = true /\
  commands (run_plan E p w).2 = (first p ++ main p ++ cleanup p).*1.
Proof.
  intros Hall. unfold run_plan.
  destruct (run_in_order_all_succeed E (first p) w Hall) as [Hc1 Hcmd1].
  rewrite Hc1.
  destruct (run_in_order_all_succeed E (main p) (w ++ run_in_order E (first p) w) Hall)
    as [Hc2 Hcmd2].
  cbn [fst snd]. split; [exact Hc2|].
  rewrite !commands_app, Hcmd1, Hcmd2, run_regardless_commands.
  now rewrite !fmap_app.
Qed.

Lemma mysql_run_is_plan E db file user password port host container w :
  let plan := mysql_restore_plan db file user password port host container in
  let run := _restore_mysql E db file user password port host container w in
  run.2 = w ++ (run_plan E plan w).2 /\
  (run.1 = Return tt <-> (run_plan E plan w).1 = true).
Proof.
  intros plan run. unfold run, plan, _restore_mysql, mysql_restore_plan.
  rewrite mysql_restore_shell_eq, mysql_container_restore_cmd_eq,
    mysql_drop_create_cmd_eq.
  unfold run_plan, bind, try_finally, swallow, docker_exec, ClientBackup.run,
    in_container, staged_at.
  destruct container as [[|a c]|].
  all: cbn [if_truthy].
  all: repeat (rewrite ?subprocess_run_eq; next_outcome E).
  all: same_run.
Qed.

Lemma postgres_run_is_plan E db file user password port host container w :
  let plan := postgres_restore_plan db file user password port host container in
  let run := _restore_postgres E db file user password port host container w in
  run.2 = w ++ (run_plan E plan w).2 /\
  (run.1 = Return tt <-> (run_plan E plan w).1 = true).
Proof.
  intros plan run. unfold run, plan, _restore_postgres, postgres_restore_plan,
    postgres_restore_main, pg_client.
  change (postgres_drop_create db) with (pg_drop_create_sql db).
  unfold run_plan, bind, try_finally, swallow, docker_exec, ClientBackup.run,
    in_container, staged_at.
  destruct (String.eqb (PyPath.splitext file).2 ".backup");
    destruct container as [[|a c]|].
  all: cbn [if_truthy flat_map app fst snd].
  all: change ("PGPASSWORD" +:+ "=" +:+ password) with ("PGPASSWORD=" +:+ password).
  all: repeat (rewrite ?subprocess_run_eq; next_outcome E).
  all: same_run.
Qed.

(** The commands of a plan, run by [run_plan], one outcome after the other. *)
Ltac plan_outcomes E :=
  unfold run_plan, in_container, staged_at;
  cbn [first main cleanup];
  repeat (next_outcome E);
  flatten_history;
  cbn [completed length Nat.eqb spawned forallb andb snd fst succeeded];
  use_exit_status; cbn [andb fst snd app];
  flatten_history.

Lemma mysql_plan_order E db file user password port host container w :
  let plan := mysql_restore_plan db file user password port host container in
  let evs := (run_plan E plan w).2 in
  let dc := Spec.exec_argv container (mysql_drop_create db user password port host) in
  let load :=
    if_truthy container
      (fun c => ["docker"; "exec"; c; "sh"; "-c";
                 mysql_load_script user password port host db (staged_at file)])
      ["bash"; "-c"; mysql_load_script user password port host db file] in
  hd_error (commands evs) = Some dc /\
  Spec.preceded_by_success (spawned evs) load dc.
Proof.
  intros plan evs dc load.
  unfold evs, plan, dc, load, mysql_restore_plan, Spec.exec_argv, mysql_drop_create.
  destruct host as [|h0 host]; destruct container as [[|a c]|];
    cbn [if_truthy nonempty app].
  all: plan_outcomes E.
  all: split; [reflexivity|].
  all: cbn [spawned app].
  all: order_steps.
Qed.

Lemma postgres_plan_order E db file user password port host container w :
  (PyPath.splitext file).2 <> ".backup" ->
  let plan := postgres_restore_plan db file user password port host container in
  let evs := (run_plan E plan w).2 in
  let source := if_truthy container (fun _ => staged_at file) file in
  let dc := (pg_client container password
               ["psql"; "-U"; user; "-h"; host; "-p"; port; "-d"; "postgres";
                "-c"; pg_drop_create_sql db]).1 in
  let load := (pg_client container password
                 ["psql"; "-U"; user; "-h"; host; "-p"; port; "-d"; db;
                  "-f"; source]).1 in
  hd_error (commands evs)
  = Some (if_truthy container
            (fun c => ["docker"; "cp"; file; c +:+ ":" +:+ staged_at file]) dc) /\
  Spec.preceded_by_success (spawned evs) load dc.
Proof.
  intros Hext plan evs source dc load.
  apply String.eqb_neq in Hext.
  unfold evs, plan, source, dc, load, postgres_restore_plan, postgres_restore_main,
    pg_client.
  rewrite Hext.
  destruct container as [[|a c]|]; cbn [if_truthy app fst].
  all: plan_outcomes E.
  all: split; [reflexivity|].
  all: cbn [spawned app].
  all: order_steps.
Qed.

Lemma postgres_plan_archive E db file user password port host container w :
  (PyPath.splitext file).2 = ".backup" ->
  let plan := postgres_restore_plan db file user password port host container in
  let evs := (run_plan E plan w).2 in
  let source := if_truthy container (fun _ => staged_at file) file in
  let archive := (pg_client container password
                    ["pg_restore"; "-U"; user; "-h"; host; "-p"; port;
                     "-C"; "-d"; "postgres"; source]).1 in
  commands evs
  = if_truthy container
      (fun c =>
         let stage := ["docker"; "cp"; file; c +:+ ":" +:+ staged_at file] in
         if succeeded (os_spawn E w stage)
         then [stage; archive; ["docker"; "exec"; c; "rm"; "-f"; staged_at file]]
         else [stage])
      [archive].
Proof.
  intros Hext plan evs source archive.
  unfold evs, plan, source, archive, postgres_restore_plan, postgres_restore_main,
    pg_client.
  rewrite Hext. cbn [String.eqb Ascii.eqb Bool.eqb].
  destruct container as [[|a c]|]; cbn [if_truthy app fst].
  all: plan_outcomes E.
  all: reflexivity.
Qed.

Lemma run_in_order_spawns E steps w ev :
  In ev (run_in_order E steps w) -> exists argv env o, ev = EvSpawn argv env o.
Proof.
  revert w. induction steps as [|[a e] steps IH]; intros w Hin; [destruct Hin|].
  cbn [run_in_order] in Hin. destruct Hin as [<-|Hin]; [eauto|].
  destruct (succeeded (os_spawn E w a)); [eauto | destruct Hin].
Qed.

Lemma run_in_order_stops E steps w pre argv env o post :
  run_in_order E steps w = pre ++ EvSpawn argv env o :: post ->
  succeeded o = false -> post = [].
Proof.
  revert w pre. induction steps as [|[a e] steps IH]; intros w pre Hrun Hfail.
  - destruct pre; discriminate Hrun.
  - cbn [run_in_order] in Hrun. destruct pre as [|ev pre].
    + injection Hrun as <- <- <- Hpost. rewrite Hfail in Hpost. now symmetry.
    + injection Hrun as _ Hrest.
      destruct (succeeded (os_spawn E w a)); [|destruct pre; discriminate Hrest].
      now apply (IH _ _ Hrest).
Qed.

Lemma completed_all_succeeded steps evs argv env o :
  completed steps evs = true -> In (EvSpawn argv env o) evs -> succeeded o = true.
Proof.
  unfold completed. intros H Hin. apply andb_true_iff in H as [_ H].
  rewrite forallb_forall in H. apply (H (argv, o)).
  clear H. induction evs as [|ev evs IH]; [destruct Hin|].
  destruct Hin as [->|Hin]; [now left|].
  destruct ev; cbn [spawned]; auto. right. auto.
Qed.

Lemma run_in_order_cons E argv env rest w :
  run_in_order E ((argv, env) :: rest) w
  = EvSpawn argv env (os_spawn E w argv)
    :: (if succeeded (os_spawn E w argv)
        then run_in_order E rest (w ++ [EvSpawn argv env (os_spawn E w argv)])
        else []).
Proof. reflexivity. Qed.

(** The next command on both sides, and its outcome. *)
Ltac next_step E :=
  rewrite subprocess_run_eq, run_in_order_cons;
  match goal with
  | |- context [os_spawn E ?w ?argv] =>
      let rc := fresh "rc" in
      destruct (os_spawn E w argv) as [?msg|rc ?out ?err] eqn:?;
      cbn [succeeded];
      [| destruct (rc =? 0)%Z eqn:?]
  end;
  cbn [ret]; rewrite <- ?List.app_assoc; cbn [app].

Lemma run_in_order_prefix E steps w :
  exists n, commands (run_in_order E steps w) = take n steps.*1 /\
            length (run_in_order E steps w) = Nat.min n (length steps).
Proof.
  revert w. induction steps as [|[a e] steps IH]; intros w.
  - exists 0. split; reflexivity.
  - cbn [run_in_order]. destruct (succeeded (os_spawn E w a)).
    + destruct (IH (w ++ [EvSpawn a e (os_spawn E w a)])) as (n & Hc & Hl).
      exists (S n). unfold commands in *. cbn [spawned fmap list_fmap fst length take].
      cbn [fmap list_fmap] in Hc. rewrite Hc, Hl. split; reflexivity.
    + exists 1. split; reflexivity.
Qed.

Lemma completed_commands E steps w :
  completed steps (run_in_order E steps w) = true ->
  commands (run_in_order E steps w) = steps.*1.
Proof.
  unfold completed. intros H. apply andb_true_iff in H as [Hlen _].
  apply Nat.eqb_eq in Hlen.
  destruct (run_in_order_prefix E steps w) as (n & Hc & Hl).
  rewrite Hc. apply take_ge. rewrite length_fmap.
  rewrite Hlen in Hl. rewrite Hl at 1. apply Nat.le_min_l.
Qed.

Lemma postgres_backup_in_order E db user password port host backup_dir container w :
  let t := clock E w in
  let steps :=
    postgres_backup_steps db user password port host backup_dir container
      (strftime_Ymd_HMS t) in
  let evs := run_in_order E steps (w ++ [EvNow t]) in
  let run := backup_postgres_db E db user password port host backup_dir container w in
  run.2 = (w ++ [EvNow t]) ++ evs /\
  (run.1 = Return tt <-> completed steps evs = true).
Proof.
  intros t steps evs run.
  unfold run, evs, steps, backup_postgres_db, postgres_backup_steps, pg_client,
    pg_dump, pg_dump_local, in_container, bind, datetime_now, docker_exec,
    ClientBackup.run.
  fold t. destruct container as [[|a c]|]; cbn [if_truthy flat_map app fst snd].
  all: repeat next_step E.
  all: same_run.
Qed.

End ProtocolFacts.

(** ** Backup executor *)

Module BackupExecutor.
Import PyStr PyStrFacts PyTime PyOs Run RunFacts ClientBackup Spec
       Protocol ProtocolFacts.

(** C3 (amended). A PostgreSQL backup of one named database reads the clock
    once, on entry, and stamps every file name with that reading.  What it
    runs is, in this order and each only when the one before exited with
    status 0, the command lines of [postgres_backup_steps]: the plain dump
    ([pg_dump -F p]) to [<dir>/<db>_<ts>.sql], then the custom archive
    ([pg_dump -F c]) to [<dir>/<db>_<ts>.backup], in a container each
    through [/tmp] there and [docker cp].  An invocation returns exactly
    when all of them ran and exited with status 0, so one that returns has
    produced both files, and it does return when every process it starts
    exits with status 0.  A command that fails is the last one run: the
    invocation raises, with fewer than the two files produced. *)
Theorem postgres_backup_two_artifacts
    E db user password port host backup_dir container w :
  let t := clock E w in
  let steps :=
    postgres_backup_steps db user password port host backup_dir container
      (strftime_Ymd_HMS t) in
  let evs := run_in_order E steps (w ++ [EvNow t]) in
  let run := backup_postgres_db E db user password port host backup_dir container w in
  run.2 = (w ++ [EvNow t]) ++ evs /\
  (forall t', ~ In (EvNow t') evs) /\
  (run.1 = Return tt <-> completed steps evs = true) /\
  (run.1 = Return tt ->
   commands evs = steps.*1 /\
   forall argv env o, In (EvSpawn argv env o) evs -> succeeded o = true) /\
  ((forall h argv, succeeded (os_spawn E h argv) = true) -> run.1 = Return tt) /\
  (forall pre argv env o post,
     evs = pre ++ EvSpawn argv env o :: post -> succeeded o = false ->
     post = [] /\ run.1 <> Return tt).
Proof.
  intros t steps evs run.
  destruct (postgres_backup_in_order E db user password port host backup_dir
              container w) as [Hhist Hret].
  fold t in Hhist, Hret. fold steps in Hhist, Hret. fold evs in Hhist, Hret.
  fold run in Hhist, Hret.
  split; [exact Hhist|]. split; [|split; [exact Hret|split; [|split]]].
  - intros t' Hin. apply run_in_order_spawns in Hin as (argv & env & o & Heq).
    discriminate Heq.
  - intros Hr. apply Hret in Hr. split.
    + now apply completed_commands.
    + intros argv env o. now apply completed_all_succeeded with (steps := steps).
  - intros Hall. apply Hret. now apply run_in_order_all_succeed.
  - intros pre argv env o post Hevs Hfail. split.
    + exact (run_in_order_stops _ _ _ _ _ _ _ _ Hevs Hfail).
    + intros Hr. apply Hret in Hr.
      assert (Hok : succeeded o = true).
      { apply (completed_all_succeeded steps evs argv env o Hr).
        rewrite Hevs. apply in_or_app. right. now left. }
      congruence.
Qed.

(** A backup on the host in which both dumps succeed. *)
Lemma postgres_backup_two_artifacts_witness :
  commands
    (backup_postgres_db Samples.all_succeed "app" "admin" "s3cret" "5432"
                        "127.0.0.1" "bk" None []).2
  = [["pg_dump"; "-U"; "admin"; "-h"; "127.0.0.1"; "-p"; "5432"; "-d"; "app";
      "-F"; "p"; "-f"; "bk/app_20250807_230117.sql"];
     ["pg_dump"; "-U"; "admin"; "-h"; "127.0.0.1"; "-p"; "5432"; "-d"; "app";
      "-F"; "c"; "-f"; "bk/app_20250807_230117.backup"]].
Proof.
  destruct (postgres_backup_two_artifacts Samples.all_succeed
              "app" "admin" "s3cret" "5432" "127.0.0.1" "bk" None [])
    as (Hhist & _ & _ & Hdone & Hall & _).
  destruct (Hdone (Hall ltac:(intros h argv; reflexivity))) as [Hcmd _].
  rewrite Hhist, commands_app, Hcmd. reflexivity.
Defined.

(** C3 (counterexample). With a server that refuses every command, the
    plain dump fails: the invocation raises after that one command, the
    archive dump is not run, and neither file is produced. *)
Lemma postgres_backup_failed_dump :
  let run := backup_postgres_db Samples.all_fail "app" "admin" "s3cret" "5432"
               "127.0.0.1" "bk" None [] in
  run.1 = Raise (CalledProcessError 1
                   ["pg_dump"; "-U"; "admin"; "-h"; "127.0.0.1"; "-p"; "5432";
                    "-d"; "app"; "-F"; "p"; "-f"; "bk/app_20250807_230117.sql"]
                   None) /\
  spawned run.2
  = [(["pg_dump"; "-U"; "admin"; "-h"; "127.0.0.1"; "-p"; "5432";
       "-d"; "app"; "-F"; "p"; "-f"; "bk/app_20250807_230117.sql"],
      Exited 1 EmptyString "ERROR 2002")].
Proof. vm_compute. split; reflexivity. Qed.

(** C7 (evaluation at the failing input). In a container, the [rm] of the
    staged plain dump is not guarded: when it alone fails, after the plain
    dump was copied out, [backup_postgres_db] raises its
    [CalledProcessError], and the archive is never produced. *)
Theorem backup_cleanup_failure_propagates :
  let run := backup_postgres_db Samples.only_rm_fails "app" "admin" "s3cret"
               "5432" "127.0.0.1" "bk" (Some "pg") [] in
  run.1 = Raise (CalledProcessError 1
                   ["docker"; "exec"; "pg"; "rm"; "/tmp/app_20250807_230117.sql"]
                   None) /\
  artifacts run.2 = ["bk/app_20250807_230117.sql"].
Proof. vm_compute. split; reflexivity. Qed.

End BackupExecutor.

(** ** Database enumerator *)

Module Enumerator.
Import PyStr PyStrFacts PyTime PyOs Run RunFacts ClientBackup Spec.

Lemma host_flag_test p :
  negb (startswith p "-h" && negb (String.eqb p "-h")) = true <-> ~ is_host_flag p.
Proof.
  rewrite negb_true_iff, andb_false_iff, negb_false_iff. split.
  - intros [H|H] (h & Hh & ->).
    + apply not_true_iff_false in H. apply H. apply startswith_spec. now exists h.
    + apply String.eqb_eq in H. destruct h; discriminate.
  - intros H. destruct (startswith p "-h") eqn:Hs; [|now left]. right.
    apply String.eqb_eq. apply startswith_spec in Hs as [r ->].
    destruct r as [|a r]; [reflexivity|].
    exfalso. apply H. now exists (String a r).
Qed.

Lemma without_host_flags_In parts p :
  In p (without_host_flags parts) <-> In p parts /\ ~ is_host_flag p.
Proof. unfold without_host_flags. rewrite filter_In, host_flag_test. reflexivity. Qed.

(** The retry is the command line of a target without a host. *)
Lemma retry_is_hostless user password port host container :
  without_host_flags (mysql_base_parts user password port host container)
  = mysql_base_parts user password port EmptyString container.
Proof. destruct container as [[|a c]|]; destruct host as [|b h]; reflexivity. Qed.

Lemma attempt_eq E container parts w0 :
  if_truthy container (fun c => docker_exec E c parts [] true) (run E parts None true) w0
  = subprocess_run E (exec_argv container parts) None true w0.
Proof. destruct container as [[|a c]|]; reflexivity. Qed.

(** C5. When the first [SHOW DATABASES] attempt exits with a non-zero
    status, [list_mysql_databases] logs a warning and runs exactly one more
    process: the same command line without its host flags (every part of
    the form [-h<host>], nothing else, is dropped); if that one exits with a
    non-zero status too, its [CalledProcessError] reaches the caller.
    [list_postgres_databases] runs exactly one process, whose failure
    always reaches the caller, a non-zero exit as its
    [CalledProcessError]. *)
Theorem enumeration_retry_policy :
  (forall E user password port host container w rc out err,
     let base := mysql_base_parts user password port host container in
     let retry := without_host_flags base in
     os_spawn E w (exec_argv container base) = Exited rc out err ->
     rc <> 0%Z ->
     let w1 :=
       w ++ [EvSpawn (exec_argv container base) None (Exited rc out err);
             EvLog WARNING "MySQL SHOW DATABASES failed (%s). Retrying without host..."
                   [LInt rc]] in
     let second := os_spawn E w1 (exec_argv container retry) in
     let (r, w') := list_mysql_databases E user password port host container w in
     w' = w1 ++ [EvSpawn (exec_argv container retry) None second] /\
     (forall p, In p retry <-> In p base /\ ~ is_host_flag p) /\
     retry = mysql_base_parts user password port EmptyString container /\
     (forall rc' out' err',
        second = Exited rc' out' err' -> rc' <> 0%Z ->
        r = Raise (CalledProcessError rc' (exec_argv container retry) (Some err')))) /\
  (forall E user password port host container w,
     let (r, w') := list_postgres_databases E user password port host container w in
     exists argv env,
       w' = w ++ [EvSpawn argv env (os_spawn E w argv)] /\
       (succeeded (os_spawn E w argv) = false -> exists e, r = Raise e) /\
       forall rc out err,
         os_spawn E w argv = Exited rc out err -> rc <> 0%Z ->
         r = Raise (CalledProcessError rc argv (Some err))).
Proof.
  split.
  - intros E user password port host container w rc out err base retry
           Hfirst Hrc w1 second.
    unfold list_mysql_databases, bind, try_except. fold base.
    assert (Hw1 : (w ++ [EvSpawn (exec_argv container base) None (Exited rc out err)])
                  ++ [EvLog WARNING "MySQL SHOW DATABASES failed (%s). Retrying without host..."
                            [LInt rc]] = w1).
    { unfold w1. now rewrite <- List.app_assoc. }
    rewrite !attempt_eq, subprocess_run_eq, Hfirst.
    destruct (Z.eqb_spec rc 0) as [|_]; [contradiction|].
    unfold log, raise. fold retry.
    rewrite attempt_eq, subprocess_run_eq, Hw1. fold second.
    assert (Hparts : (forall p, In p retry <-> In p base /\ ~ is_host_flag p) /\
                     retry = mysql_base_parts user password port EmptyString container).
    { split; [intros p; apply without_host_flags_In | apply retry_is_hostless]. }
    destruct Hparts as [Hin Hretry].
    destruct second as [msg|rc' out' err'].
    { split; [reflexivity|]. split; [exact Hin|]. split; [exact Hretry|].
      discriminate. }
    destruct (Z.eqb_spec rc' 0) as [->|Hrc'].
    + unfold stdout_of, ret. simpl.
      split; [reflexivity|]. split; [exact Hin|]. split; [exact Hretry|].
      intros ? ? ? [= <- <- <-] Hc. contradiction.
    + split; [reflexivity|]. split; [exact Hin|]. split; [exact Hretry|].
      now intros ? ? ? [= <- <- <-] _.
  - intros E user password port host container w.
    unfold list_postgres_databases, bind.
    destruct container as [[|a c]|]; cbn [if_truthy];
      rewrite ?docker_exec_eq; unfold run; rewrite subprocess_run_eq;
      match goal with
      | |- context [EvSpawn ?argv ?env (os_spawn E w ?argv)] =>
          destruct (os_spawn E w argv) as [msg|rc out err] eqn:Ho;
          [| destruct (Z.eqb_spec rc 0) as [->|Hrc]]; simpl;
          exists argv, env; rewrite Ho; (split; [reflexivity|]);
          (split; [intros Hs; first [discriminate Hs | eexists; reflexivity]|]);
          intros ? ? ? Heq ?; inversion Heq; subst;
          first [reflexivity | congruence]
      end.
Qed.

(** A host that refuses both attempts. *)
Lemma enumeration_retry_policy_witness :
  (list_mysql_databases Samples.all_fail "root" "pw" "3306" "db.local" None []).1
  = Raise (CalledProcessError 1
             ["mysql"; "-uroot"; "-ppw"; "-P3306"; "-e"; "SHOW DATABASES;"]
             (Some "ERROR 2002")).
Proof.
  pose proof (proj1 enumeration_retry_policy Samples.all_fail
                "root" "pw" "3306" "db.local" None [] 1%Z EmptyString "ERROR 2002"
                eq_refl ltac:(discriminate)) as H.
  cbv zeta in H.
  destruct (list_mysql_databases Samples.all_fail "root" "pw" "3306" "db.local" None [])
    as [r w'].
  destruct H as (_ & _ & _ & Hr).
  exact (Hr 1%Z EmptyString "ERROR 2002" eq_refl ltac:(discriminate)).
Defined.

(** *** What the post-filters keep *)

Lemma postgres_names_spec out x :
  In x (postgres_database_names out) <->
  exists d, In d (splitlines out) /\ x = strip d /\ x <> EmptyString /\
            (x ∉ POSTGRES_EXCLUDE).
Proof.
  unfold postgres_database_names. rewrite in_map_iff. split.
  - intros (d & <- & Hin). apply filter_In in Hin as [Hd H].
    apply andb_true_iff in H as [Hne Hex].
    rewrite negb_true_iff, bool_decide_eq_false in Hex.
    exists d. repeat split; auto. intros Heq. now rewrite Heq in Hne.
  - intros (d & Hd & -> & Hne & Hex). exists d. split; [reflexivity|].
    apply filter_In. split; [exact Hd|]. apply andb_true_iff. split.
    + destruct (strip d); [congruence | reflexivity].
    + now rewrite negb_true_iff, bool_decide_eq_false.
Qed.

Lemma mysql_names_spec out x :
  In x (mysql_database_names out) <->
  exists d, In d (splitlines out) /\ x = strip d /\ x <> EmptyString /\
            (x ∉ MYSQL_EXCLUDE) /\ ~ starts_with d "Database".
Proof.
  unfold mysql_database_names. rewrite in_map_iff. split.
  - intros (d & <- & Hin). apply filter_In in Hin as [Hd H].
    apply andb_true_iff in H as [H Hhead]. apply andb_true_iff in H as [Hne Hex].
    rewrite negb_true_iff, bool_decide_eq_false in Hex.
    rewrite negb_true_iff in Hhead.
    exists d. repeat split; auto.
    + intros Heq. now rewrite Heq in Hne.
    + intros Hs. apply startswith_spec in Hs. congruence.
  - intros (d & Hd & -> & Hne & Hex & Hhead). exists d. split; [reflexivity|].
    apply filter_In. split; [exact Hd|]. rewrite !andb_true_iff. repeat split.
    + destruct (strip d); [congruence | reflexivity].
    + now rewrite negb_true_iff, bool_decide_eq_false.
    + rewrite negb_true_iff. apply not_true_iff_false.
      intros Hs. apply Hhead. now apply startswith_spec.
Qed.

(** The administrative database is never listed. *)
Lemma postgres_never_listed out : ~ In "postgres" (postgres_database_names out).
Proof.
  intros H. apply postgres_names_spec in H as (d & _ & _ & _ & Hex).
  apply Hex. unfold POSTGRES_EXCLUDE. now apply elem_of_singleton.
Qed.

(** The system schemas are never listed. *)
Lemma mysql_system_never_listed out x :
  In x ["information_schema"; "performance_schema"; "mysql"; "sys"] ->
  ~ In x (mysql_database_names out).
Proof.
  intros Hx H. apply mysql_names_spec in H as (d & _ & _ & _ & Hex & _).
  apply Hex. unfold MYSQL_EXCLUDE.
  rewrite !elem_of_union, !elem_of_singleton.
  simpl in Hx. intuition congruence.
Qed.

(** C9 (evaluation at the failing input). The header test of
    [list_mysql_databases] drops every line that starts with [Database]:
    with the databases [Database_app] and [shop] on the server, only [shop]
    is listed. *)
Theorem mysql_header_test_drops_databases :
  mysql_database_names
    (unlines ["Database"; "information_schema"; "Database_app"; "shop"])
  = ["shop"].
Proof. vm_compute. reflexivity. Qed.

End Enumerator.

(** ** Restore executor *)

Module RestoreExecutor.
Import PyStr PyStrFacts PyTime PyOs Run RunFacts ClientBackup ClientRestore Spec
       Protocol ProtocolFacts.

(** C4. What a restore runs is its plan, whatever the environment: for
    MySQL ([mysql_restore_plan]) and for a PostgreSQL dump that is not a
    [.backup] archive ([postgres_restore_plan]), the statement
    [DROP DATABASE IF EXISTS ...; CREATE DATABASE ...] (with
    [CHARACTER SET utf8mb4] for MySQL), then the load of the dump, which is
    started only when the drop and create exited with status 0; in a
    container, around them, the staging of the file and its removal.  The
    drop and create is the first command of every MySQL restore and of
    every such PostgreSQL restore on the host, and in a container follows
    the staging.  For a [.backup] archive the plan has no drop and create:
    the commands are [pg_restore ... -C -d postgres <file>] and, in a
    container, the staging and the removal.  A restore returns exactly when
    its plan succeeds, which it does when every process exits with status 0,
    all the commands of the plan having then run in their order. *)
Theorem restore_order :
  (forall E db file user password port host container w,
     let plan := mysql_restore_plan db file user password port host container in
     let run := _restore_mysql E db file user password port host container w in
     let evs := (run_plan E plan w).2 in
     let dc := exec_argv container (mysql_drop_create db user password port host) in
     let load :=
       if_truthy container
         (fun c => ["docker"; "exec"; c; "sh"; "-c";
                    mysql_load_script user password port host db (staged_at file)])
         ["bash"; "-c"; mysql_load_script user password port host db file] in
     run.2 = w ++ evs /\
     (run.1 = Return tt <-> (run_plan E plan w).1 = true) /\
     hd_error (commands evs) = Some dc /\
     preceded_by_success (spawned evs) load dc /\
     ((forall h argv, succeeded (os_spawn E h argv) = true) ->
      run.1 = Return tt /\
      commands evs = (first plan ++ main plan ++ cleanup plan).*1)) /\
  (forall E db file user password port host container w,
     let plan := postgres_restore_plan db file user password port host container in
     let run := _restore_postgres E db file user password port host container w in
     let evs := (run_plan E plan w).2 in
     let source := if_truthy container (fun _ => staged_at file) file in
     let stage (c : string) :=
       ["docker"; "cp"; file; c +:+ ":" +:+ staged_at file] in
     let dc := (pg_client container password
                  ["psql"; "-U"; user; "-h"; host; "-p"; port; "-d"; "postgres";
                   "-c"; pg_drop_create_sql db]).1 in
     let load := (pg_client container password
                    ["psql"; "-U"; user; "-h"; host; "-p"; port; "-d"; db;
                     "-f"; source]).1 in
     let archive := (pg_client container password
                       ["pg_restore"; "-U"; user; "-h"; host; "-p"; port;
                        "-C"; "-d"; "postgres"; source]).1 in
     run.2 = w ++ evs /\
     (run.1 = Return tt <-> (run_plan E plan w).1 = true) /\
     ((PyPath.splitext file).2 <> ".backup" ->
      hd_error (commands evs) = Some (if_truthy container stage dc) /\
      preceded_by_success (spawned evs) load dc) /\
     ((PyPath.splitext file).2 = ".backup" ->
      commands evs
      = if_truthy container
          (fun c =>
             if succeeded (os_spawn E w (stage c))
             then [stage c; archive;
                   ["docker"; "exec"; c; "rm"; "-f"; staged_at file]]
             else [stage c])
          [archive]) /\
     ((forall h argv, succeeded (os_spawn E h argv) = true) ->
      run.1 = Return tt /\
      commands evs = (first plan ++ main plan ++ cleanup plan).*1)).
Proof.
  split.
  - intros E db file user password port host container w plan run evs dc load.
    destruct (mysql_run_is_plan E db file user password port host container w)
      as [Hhist Hret].
    destruct (mysql_plan_order E db file user password port host container w)
      as [Hhead Horder].
    split; [exact Hhist|]. split; [exact Hret|].
    split; [exact Hhead|]. split; [exact Horder|].
    intros Hall. destruct (run_plan_all_succeed E plan w Hall) as [Hok Hcmd].
    split; [now apply Hret | exact Hcmd].
  - intros E db file user password port host container w plan run evs source
      stage dc load archive.
    destruct (postgres_run_is_plan E db file user password port host container w)
      as [Hhist Hret].
    split; [exact Hhist|]. split; [exact Hret|]. split; [|split].
    + intros Hext.
      destruct (postgres_plan_order E db file user password port host container w
                  Hext) as [Hhead Horder].
      split; [exact Hhead | exact Horder].
    + intros Hext. unfold evs, plan, archive, source, stage.
      exact (postgres_plan_archive E db file user password port host container w
               Hext).
    + intros Hall. destruct (run_plan_all_succeed E plan w Hall) as [Hok Hcmd].
      split; [now apply Hret | exact Hcmd].
Qed.

(** A plain dump restored on the host, every command succeeding: the drop
    and create, then the load. *)
Lemma restore_order_witness :
  commands
    (_restore_postgres Samples.all_succeed "app" "bk/app_20250807_230117.sql"
                       "admin" "s3cret" "5432" "127.0.0.1" None []).2
  = [["psql"; "-U"; "admin"; "-h"; "127.0.0.1"; "-p"; "5432"; "-d"; "postgres";
      "-c"; "DROP DATABASE IF EXISTS app; CREATE DATABASE app;"];
     ["psql"; "-U"; "admin"; "-h"; "127.0.0.1"; "-p"; "5432"; "-d"; "app";
      "-f"; "bk/app_20250807_230117.sql"]].
Proof.
  destruct (proj2 restore_order Samples.all_succeed "app"
              "bk/app_20250807_230117.sql" "admin" "s3cret" "5432" "127.0.0.1"
              None [])
    as (Hhist & _ & _ & _ & Hall).
  rewrite Hhist. cbn [app].
  destruct (Hall ltac:(intros h argv; reflexivity)) as [_ Hcmd].
  rewrite Hcmd. reflexivity.
Defined.

(** C6 (evaluation at the failing input). The name goes into the MySQL
    statement between backticks as it is, so a backtick in the name closes
    the identifier and the rest of the name is read as SQL; the PostgreSQL
    statement quotes the name for a shell, so a name made of shell-safe
    characters goes in bare, where [--] starts a comment. *)
Theorem drop_create_statement_not_escaped :
  mysql_pre_sql "x`; DROP DATABASE y; -- "
  = "DROP DATABASE IF EXISTS `x`; DROP DATABASE y; -- `; CREATE DATABASE `x`; DROP DATABASE y; -- ` CHARACTER SET utf8mb4 COLLATE utf8mb4_unicode_ci;"
  /\ starts_with (mysql_pre_sql "x`; DROP DATABASE y; -- ")
                 "DROP DATABASE IF EXISTS `x`; DROP DATABASE y;"
  /\ postgres_drop_create "a--b"
     = "DROP DATABASE IF EXISTS a--b; CREATE DATABASE a--b;".
Proof.
  split; [reflexivity|]. split; [|reflexivity].
  apply startswith_spec. reflexivity.
Qed.

(** *** Cleanup in the restore executors *)

(** Whatever the [rm] of the staged file does, the restore executors do not
    raise its failure. *)
Lemma postgres_restore_cleanup_swallowed
    E db file user password port host a c w rc s :
  (_restore_postgres E db file user password port host (Some (String a c)) w).1
  <> Raise (CalledProcessError rc
              ["docker"; "exec"; String a c; "rm"; "-f";
               "/tmp/restore_" +:+ PyPath.basename file] s).
Proof.
  unfold _restore_postgres, bind, try_finally, swallow.
  destruct (String.eqb _ ".backup"); cbn [if_truthy].
  all: spawn_steps E.
  all: simpl; discriminate.
Qed.

Lemma mysql_restore_cleanup_swallowed
    E db file user password port host a c w rc s :
  (_restore_mysql E db file user password port host (Some (String a c)) w).1
  <> Raise (CalledProcessError rc
              ["docker"; "exec"; String a c; "rm"; "-f";
               "/tmp/restore_" +:+ PyPath.basename file] s).
Proof.
  unfold _restore_mysql, bind, try_finally, swallow, mysql_drop_create_cmd.
  destruct host as [|h0 host]; cbn [if_truthy nonempty].
  all: spawn_steps E.
  all: simpl; discriminate.
Qed.

(** With only the cleanup failing, a restore in a container returns. *)
Example restore_survives_cleanup_failure :
  (_restore_postgres Samples.only_rm_fails "app" "bk/app_20250807_230117.backup"
                     "admin" "s3cret" "5432" "127.0.0.1" (Some "pg") []).1
  = Return tt.
Proof. vm_compute. reflexivity. Qed.

End RestoreExecutor.

(** ** The restore flow *)

Module RestoreFlow.
Import PyStr PyStrFacts PyTime PyOs Run RunFacts ClientBackup ClientRestore Spec.

(** C10. [_list_backup_files] is a total function that yields the empty
    list for a directory that does not exist.  With the credentials in the
    configuration, no explicit file path, and a backup directory that does
    not exist or is empty, [restore_database] returns [None] and adds to the
    history one ERROR record and nothing else, so no process is started;
    for a named database of a supported engine that record is the
    selection failure [No se encontraron backups para <db> en <dir>]. *)
Theorem restore_without_candidates :
  (forall fs dir db exts,
     isdir fs dir = false -> _list_backup_files fs dir db exts = []) /\
  (forall E db_conf db file_path user password w,
     db_conf !! "username" = Some user ->
     db_conf !! "password" = Some password ->
     truthy file_path = false ->
     let db_type := lower (default "postgres" (db_conf !! "type")) in
     let backup_dir := default "./" (db_conf !! "backup_dir") in
     let target_db := if truthy db then db else db_conf !! "db" in
     (listdir (fsys E) backup_dir = None \/ listdir (fsys E) backup_dir = Some []) ->
     exists fmt largs,
       restore_database E db_conf db file_path w
       = (Return None, w ++ [EvLog ERROR fmt largs]) /\
       (forall target,
          target_db = Some target -> nonempty target = true ->
          In db_type ["postgres"; "mysql"; "mariadb"] ->
          fmt = "No se encontraron backups para %s en %s" /\
          largs = [LStr target; LStr backup_dir])).
Proof.
  split.
  { intros fs dir db exts. unfold isdir, _list_backup_files.
    destruct (listdir fs dir); [discriminate | reflexivity]. }
  intros E db_conf db file_path user password w Huser Hpass Hfile
         db_type backup_dir target_db Hdir.
  assert (Hnone : forall t exts,
            _list_backup_files (fsys E) backup_dir t exts = []).
  { intros t exts. unfold _list_backup_files.
    destruct Hdir as [-> | ->]; reflexivity. }
  unfold restore_database, getitem.
  rewrite Huser, Hpass. unfold bind at 1 2. cbn [ret].
  fold db_type. fold backup_dir. fold target_db. rewrite Hfile.
  destruct target_db as [[|t0 target]|] eqn:Htarget;
    cbn [truthy negb andb if_truthy].
  1, 3: (eexists _, _; split; [reflexivity|]; intros t [= <-] Ht; discriminate).
  unfold try_except, bind.
  destruct (String.eqb db_type "postgres") eqn:Hpg; cbn [orb ret].
  { rewrite Hnone. eexists _, _. split; [reflexivity|].
    intros t [= <-] _ _. split; reflexivity. }
  destruct (String.eqb db_type "mysql" || String.eqb db_type "mariadb") eqn:Hmy;
    cbn [ret].
  { rewrite Hnone. eexists _, _. split; [reflexivity|].
    intros t [= <-] _ _. split; reflexivity. }
  eexists _, _. split; [reflexivity|].
  intros t _ _ Htype. exfalso.
  apply orb_false_iff in Hmy as [Hm1 Hm2].
  apply String.eqb_neq in Hpg, Hm1, Hm2.
  simpl in Htype. intuition congruence.
Qed.

(** Restoring [app] when the directory [bk] does not exist. *)
Lemma restore_without_candidates_witness :
  restore_database Samples.all_succeed Samples.postgres_target (Some "app") None []
  = (Return None,
     [EvLog ERROR "No se encontraron backups para %s en %s" [LStr "app"; LStr "bk"]]).
Proof.
  destruct (proj2 restore_without_candidates Samples.all_succeed
              Samples.postgres_target (Some "app") None "admin" "s3cret" []
              ltac:(vm_compute; reflexivity) ltac:(vm_compute; reflexivity)
              eq_refl (or_introl eq_refl))
    as (fmt & largs & Hrun & Hrecord).
  destruct (Hrecord "app" eq_refl eq_refl (or_introl eq_refl)) as [Hfmt Hargs].
  rewrite Hrun, Hfmt, Hargs. reflexivity.
Defined.

(** *** Command failures during a restore *)

(** No process of the restore executors is run with capture, so the
    [CalledProcessError] of a failing one carries no error stream. *)
Lemma postgres_executor_uncaptured
    E db file user password port host container w rc cmd text :
  (_restore_postgres E db file user password port host container w).1
  <> Raise (CalledProcessError rc cmd (Some text)).
Proof.
  unfold _restore_postgres, bind, try_finally, swallow.
  destruct (String.eqb _ ".backup"); destruct container as [[|a c]|];
    cbn [if_truthy].
  all: spawn_steps E.
  all: simpl; discriminate.
Qed.

Lemma mysql_executor_uncaptured
    E db file user password port host container w rc cmd text :
  (_restore_mysql E db file user password port host container w).1
  <> Raise (CalledProcessError rc cmd (Some text)).
Proof.
  unfold _restore_mysql, bind, try_finally, swallow.
  destruct container as [[|a c]|]; cbn [if_truthy].
  all: spawn_steps E.
  all: simpl; discriminate.
Qed.

(** On such an error the first [except] clause raises before it logs. *)
Lemma handler_uncaptured db_conf rc cmd w :
  restore_failure_handler db_conf (CalledProcessError rc cmd None) w
  = (Raise (AttributeError "'NoneType' object has no attribute 'strip'"), w).
Proof. reflexivity. Qed.

(** Had the error stream been captured, the clause would log the
    configuration with the password replaced and fall through. *)
Lemma handler_captured db_conf rc cmd text w :
  restore_failure_handler db_conf (CalledProcessError rc cmd (Some text)) w
  = (Return None,
     w ++ [EvLog ERROR "Fallo restauración (%s): rc=%s cmd=%s stderr=%s"
                 [LConf (safe_conf db_conf); LInt rc; LArgv cmd; LStr (strip text)]]).
Proof. reflexivity. Qed.

Lemma safe_conf_password db_conf v :
  db_conf !! "password" = Some v -> safe_conf db_conf !! "password" = Some "***".
Proof.
  intros H. unfold safe_conf. rewrite map_lookup_imap, H. reflexivity.
Qed.

Lemma safe_conf_other db_conf k :
  k <> "password" -> safe_conf db_conf !! k = db_conf !! k.
Proof.
  intros Hk. unfold safe_conf. rewrite map_lookup_imap.
  destruct (db_conf !! k) as [v|]; [|reflexivity]. simpl.
  apply String.eqb_neq in Hk. now rewrite Hk.
Qed.

(** Any other exception is logged and becomes [None]. *)
Lemma handler_unexpected db_conf msg w :
  restore_failure_handler db_conf (OSError msg) w
  = (Return None,
     w ++ [EvLogException "Error inesperado durante la restauración" (OSError msg)]).
Proof. reflexivity. Qed.

(** So a command failure in either executor leaves [restore_database] as
    an [AttributeError]. *)
Lemma command_failure_escapes E db_conf db fp user password w rc cmd s :
  db_conf !! "username" = Some user ->
  db_conf !! "password" = Some password ->
  nonempty fp = true ->
  let db_type := lower (default "postgres" (db_conf !! "type")) in
  let port :=
    default (if String.eqb db_type "postgres" then "5432" else "3306")
            (db_conf !! "port") in
  let host := default "127.0.0.1" (db_conf !! "host") in
  let container := db_conf !! "container" in
  let target :=
    if_truthy (if truthy db then db else db_conf !! "db") (fun t => t)
              (before_first (PyPath.basename fp) "_") in
  let w1 := w ++ [EvLog INFO "Restaurando %s desde %s" [LStr target; LStr fp]] in
  let executor :=
    if String.eqb db_type "postgres"
    then _restore_postgres E target fp user password port host container
    else _restore_mysql E target fp user password port host container in
  (executor w1).1 = Raise (CalledProcessError rc cmd s) ->
  (restore_database E db_conf db (Some fp) w).1
  = Raise (AttributeError "'NoneType' object has no attribute 'strip'").
Proof.
  intros Huser Hpass Hfp db_type port host container target w1 executor Hfail.
  unfold restore_database, getitem.
  rewrite Huser, Hpass. unfold bind at 1 2. cbn [ret].
  fold db_type. fold port. fold host. fold container.
  destruct fp as [|f0 fp]; [discriminate|].
  cbn [truthy negb andb if_truthy]. rewrite andb_false_r.
  fold target.
  unfold try_except, bind at 1. cbn [ret if_truthy].
  unfold bind at 1. cbn [log]. fold w1.
  unfold bind at 1. fold executor.
  destruct (executor w1) as [r w2] eqn:Hrun. simpl in Hfail. subst r.
  destruct s as [text|]; [|reflexivity].
  exfalso. unfold executor in Hrun.
  destruct (String.eqb db_type "postgres").
  - eapply postgres_executor_uncaptured. rewrite Hrun. reflexivity.
  - eapply mysql_executor_uncaptured. rewrite Hrun. reflexivity.
Qed.

(** C8 (evaluation at the failing input). A restore on the host whose first
    command exits with status 1: the [CalledProcessError] carries no error
    stream, the [except] clause fails on [stderr.strip()], and
    [restore_database] raises [AttributeError] to its caller; nothing is
    logged after the start of the restore. *)
Theorem restore_database_raises_on_command_failure :
  restore_database Samples.all_fail Samples.postgres_target (Some "app")
    (Some "bk/app_20250807_230117.sql") []
  = (Raise (AttributeError "'NoneType' object has no attribute 'strip'"),
     [EvLog INFO "Restaurando %s desde %s"
            [LStr "app"; LStr "bk/app_20250807_230117.sql"];
      EvSpawn ["psql"; "-U"; "admin"; "-h"; "127.0.0.1"; "-p"; "5432";
               "-d"; "postgres"; "-c";
               "DROP DATABASE IF EXISTS app; CREATE DATABASE app;"]
              (Some [("PGPASSWORD", "s3cret")])
              (Exited 1 EmptyString "ERROR 2002")]).
Proof. vm_compute. reflexivity. Qed.

(** The same restore with every command succeeding returns the file used. *)
Example restore_database_success :
  (restore_database Samples.all_succeed Samples.postgres_target (Some "app")
     (Some "bk/app_20250807_230117.sql") []).1
  = Return (Some "bk/app_20250807_230117.sql").
Proof. vm_compute. reflexivity. Qed.

(** An executable that cannot be started is an unexpected failure: it is
    logged and the result is [None]. *)
Example restore_database_unexpected_failure :
  (restore_database
     (mkEnv (fun _ _ => NotStarted "No such file or directory: 'psql'")
            (fun _ => Samples.evening) Samples.no_files)
     Samples.postgres_target (Some "app")
     (Some "bk/app_20250807_230117.sql") []).1
  = Return None.
Proof. vm_compute. reflexivity. Qed.

End RestoreFlow.

(** ** Selection on the candidates of a directory *)

Module Selection.
Import PyStr PyStrFacts PyTime PyOs Main ClientRestore Spec Naming Selector.

Lemma starts_with_app (p r : string) : starts_with (p +:+ r) p.
Proof. now exists r. Qed.

Lemma ends_with_join (dir f e : string) :
  ends_with f e -> ends_with (PyPath.join dir f) e.
Proof.
  intros [r ->]. unfold PyPath.join.
  destruct (startswith (r +:+ e) "/"); [now exists r|].
  destruct (negb (nonempty dir) || endswith dir "/").
  - exists (dir +:+ r). now rewrite app_assoc.
  - exists (dir +:+ "/" +:+ r). now rewrite !app_assoc.
Qed.

Lemma choose_latest_basic (files preferred_order : list string) :
  (_choose_latest files preferred_order = None <-> files = []) /\
  (forall f, _choose_latest files preferred_order = Some f -> In f files) /\
  _choose_latest files [] = hd_error files.
Proof.
  unfold _choose_latest. destruct files as [|f0 rest].
  - repeat split; intros; try discriminate; reflexivity.
  - destruct (choose_by_extension (f0 :: rest) preferred_order) as [f|] eqn:Hc.
    + repeat split; try discriminate.
      intros g [= <-].
      destruct (choose_by_extension_some _ _ _ Hc)
        as (_ & _ & _ & _ & _ & l1 & l2 & -> & _).
      apply in_or_app. right. now left.
    + repeat split; try discriminate. intros g [= <-]. now left.
Qed.

(** X1. [_choose_latest] selects nothing exactly on an empty list, never
    selects a file that is not in the list, and with an empty preference
    list selects the head. *)
Theorem choose_latest_edges (files preferred_order : list string) :
  (_choose_latest files preferred_order = None <-> files = []) /\
  (forall f, _choose_latest files preferred_order = Some f -> In f files) /\
  _choose_latest files [] = hd_error files.
Proof. exact (choose_latest_basic files preferred_order). Qed.

Lemma choose_latest_edges_witness :
  _choose_latest [] ClientRestore.POSTGRES_EXT_PRIORIDAD = None.
Proof.
  exact (proj2 (proj1 (choose_latest_edges [] ClientRestore.POSTGRES_EXT_PRIORIDAD))
               eq_refl).
Defined.

(** X2. The candidates of a database in a directory are most recently modified
    first, and are exactly the joined paths of the names of the directory
    that start with [<db>_] and end with a listed extension. *)
Theorem candidates_of_directory (fs : filesystem) (dir db : string)
    (exts : list string) :
  newest_first (getmtime fs) (_list_backup_files fs dir db exts) /\
  (forall p, In p (_list_backup_files fs dir db exts) <->
     exists names f, listdir fs dir = Some names /\ In f names /\
       p = PyPath.join dir f /\ starts_with f (db +:+ "_") /\
       exists e, In e exts /\ ends_with f e).
Proof. exact (proj2 (list_backup_files_spec fs dir db exts)). Qed.

Lemma candidates_end_with fs dir db exts p :
  In p (_list_backup_files fs dir db exts) ->
  exists e, In e exts /\ ends_with p e.
Proof.
  intros Hp. apply list_backup_files_spec in Hp
    as (names & f & _ & _ & -> & _ & e & He & Hend).
  exists e. split; [exact He | now apply ends_with_join].
Qed.

(** X3. With MySQL's single extension, the file selected among the candidates
    of a directory is the head of the list: a [.sql] file that no candidate
    is more recent than; nothing is selected exactly when there is no
    candidate. *)
Theorem mysql_selects_most_recent (fs : filesystem) (dir db : string) :
  let files := _list_backup_files fs dir db MYSQL_EXT in
  match _choose_latest files MYSQL_EXT with
  | None => files = []
  | Some f =>
      hd_error files = Some f /\ ends_with f ".sql" /\
      forall g, In g files -> (getmtime fs g <= getmtime fs f)%Z
  end.
Proof.
  intros files.
  assert (Hsorted : newest_first (getmtime fs) files)
    by apply list_backup_files_spec.
  assert (Hext : forall g, In g files -> ends_with g ".sql").
  { intros g Hg. apply candidates_end_with in Hg as (e & [<-|[]] & He). exact He. }
  destruct files as [|f0 rest]; [reflexivity|].
  unfold _choose_latest, MYSQL_EXT. cbn [choose_by_extension find].
  assert (H0 : endswith f0 ".sql" = true)
    by (apply endswith_spec, Hext; now left).
  rewrite H0. split; [reflexivity|]. split; [apply Hext; now left|].
  now apply newest_first_head.
Qed.

Lemma newest_first_app mtime l1 f l2 :
  newest_first mtime (l1 ++ f :: l2) ->
  forall g, In g l2 -> (mtime g <= mtime f)%Z.
Proof.
  unfold newest_first. induction l1 as [|a l1 IH]; simpl; intros Hs g Hg.
  - apply (newest_first_head mtime f l2 Hs). now right.
  - apply StronglySorted_inv in Hs as [Hs _]. now apply IH.
Qed.

(** X4. For PostgreSQL, when some candidate of the directory is an archive, the
    file selected is an archive that no other archive among the candidates
    is more recent than, even if a plain dump is more recent; when none is,
    the file selected is the most recent candidate. *)
Theorem postgres_selects_most_recent_archive (fs : filesystem) (dir db : string) :
  let files := _list_backup_files fs dir db POSTGRES_EXT_PRIORIDAD in
  match _choose_latest files POSTGRES_EXT_PRIORIDAD with
  | None => files = []
  | Some f =>
      In f files /\
      ((ends_with f ".backup" /\
        forall g, In g files -> ends_with g ".backup" ->
                  (getmtime fs g <= getmtime fs f)%Z)
       \/
       ((forall g, In g files -> ~ ends_with g ".backup") /\
        forall g, In g files -> (getmtime fs g <= getmtime fs f)%Z))
  end.
Proof.
  intros files.
  assert (Hsorted : newest_first (getmtime fs) files)
    by apply list_backup_files_spec.
  assert (Hext : forall g, In g files ->
                   ends_with g ".backup" \/ ends_with g ".sql").
  { intros g Hg. apply candidates_end_with in Hg as (e & [<-|[<-|[]]] & He); auto. }
  destruct (_choose_latest files POSTGRES_EXT_PRIORIDAD) as [f|] eqn:Hc.
  2: { now apply (choose_latest_basic files POSTGRES_EXT_PRIORIDAD). }
  split; [now apply (choose_latest_basic files POSTGRES_EXT_PRIORIDAD)|].
  destruct files as [|f0 rest]; [discriminate|].
  unfold _choose_latest, POSTGRES_EXT_PRIORIDAD in Hc.
  cbn [choose_by_extension] in Hc.
  destruct (find (fun f1 => endswith f1 ".backup") (f0 :: rest)) as [fb|] eqn:Hfb.
  - injection Hc as <-. left.
    apply find_first in Hfb as (l1 & l2 & Heq & Hb & Hl1).
    split; [now apply endswith_spec|].
    intros g Hg Hgb. rewrite Heq in Hg, Hsorted.
    apply in_app_or in Hg as [Hg|[<-|Hg]].
    + apply endswith_spec in Hgb. rewrite (Hl1 g Hg) in Hgb. discriminate.
    + lia.
    + now apply (newest_first_app _ _ _ _ Hsorted).
  - right.
    assert (Hnone : forall g, In g (f0 :: rest) -> ~ ends_with g ".backup").
    { intros g Hg. apply not_endswith. now apply (find_none_all _ _ Hfb). }
    split; [exact Hnone|].
    assert (H0 : endswith f0 ".sql" = true).
    { apply endswith_spec. destruct (Hext f0 ltac:(now left)) as [H|H]; [|exact H].
      exfalso. apply (Hnone f0); [now left | exact H]. }
    cbn [find] in Hc. rewrite H0 in Hc. injection Hc as <-.
    now apply newest_first_head.
Qed.

(** *** The artifact names against the guard and the selector *)

Lemma artifact_name_day db t ext :
  artifact_name db t ext
  = (db +:+ "_" +:+ strftime_Ymd t)
    +:+ ("_" +:+ pad2 (hour t) +:+ pad2 (minute t) +:+ pad2 (second t) +:+ ext).
Proof.
  unfold artifact_name, strftime_Ymd_HMS. now rewrite !app_assoc.
Qed.

(** X5. A file named as the backup executors name an artifact, present in the
    directory, counts as today's backup for the whole day it was made on:
    for the guard of its own database and for the guard of a target without
    a database name. *)
Theorem artifact_seen_by_guard
    (fs : filesystem) (made now : datetime) (dir db ext : string)
    (files : list string) :
  listdir fs dir = Some files ->
  In (artifact_name db made ext) files ->
  In ext default_extensions ->
  strftime_Ymd now = strftime_Ymd made ->
  _has_today_backup fs now dir (Some db) default_extensions = true /\
  _has_today_backup fs now dir None default_extensions = true.
Proof.
  intros Hdir Hin Hext Hday. unfold _has_today_backup. rewrite Hdir, Hday.
  assert (Hend : exists e, In e default_extensions /\
                           ends_with (artifact_name db made ext) e).
  { exists ext. split; [exact Hext|]. unfold artifact_name.
    exists (db +:+ "_" +:+ strftime_Ymd_HMS made). now rewrite !app_assoc. }
  assert (Hsub : has_substring (artifact_name db made ext)
                   ("_" +:+ strftime_Ymd made +:+ "_")).
  { rewrite artifact_name_day. exists db.
    exists (pad2 (hour made) +:+ pad2 (minute made) +:+ pad2 (second made) +:+ ext).
    now rewrite !app_assoc. }
  split; apply DedupGuard.has_today_backup_loop_spec;
    exists (artifact_name db made ext); (split; [exact Hin|]); (split; [|exact Hend]).
  - destruct db as [|c n]; [exact Hsub|].
    rewrite artifact_name_day. apply starts_with_app.
  - exact Hsub.
Qed.

(** The restore of [shop] from the sample directory picks its plain dump. *)
Lemma mysql_selects_most_recent_sample :
  exists f,
    _choose_latest (_list_backup_files MoreSpec.bk_files "bk" "shop" MYSQL_EXT)
                   MYSQL_EXT = Some f /\
    ends_with f ".sql".
Proof.
  pose proof (mysql_selects_most_recent MoreSpec.bk_files "bk" "shop") as H.
  cbv zeta in H.
  destruct (_choose_latest (_list_backup_files MoreSpec.bk_files "bk" "shop" MYSQL_EXT)
                           MYSQL_EXT) as [f|] eqn:Hc.
  - exists f. split; [reflexivity | apply H].
  - vm_compute in Hc. discriminate Hc.
Defined.

(** A day's artifact of [app] in the sample directory, seen that evening. *)
Lemma artifact_seen_by_guard_witness :
  _has_today_backup MoreSpec.bk_files (mkDatetime 2025 8 7 23 50 0) "bk"
                    (Some "app") default_extensions = true /\
  _has_today_backup MoreSpec.bk_files (mkDatetime 2025 8 7 23 50 0) "bk"
                    None default_extensions = true.
Proof.
  apply (artifact_seen_by_guard MoreSpec.bk_files Samples.evening
           (mkDatetime 2025 8 7 23 50 0) "bk" "app" ".sql"
           ["app_20250806_230117.backup"; "app_20250807_230117.sql";
            "shop_20250807_230117.sql"; "app_v2_20250807_230500.sql"]).
  - reflexivity.
  - right. left. reflexivity.
  - left. reflexivity.
  - reflexivity.
Defined.

End Selection.

(** ** Artifact names, candidates and the database derived from a file *)

Module NamingFacts.
Import PyStr PyStrFacts PyTime PyOs Main Run ClientRestore Spec Naming Selector Selection.

(** X6. The candidates of a database hold its own artifacts and, since the name
    test is the prefix [<db>_], the artifacts of every database whose name
    is [<db>_] followed by more ([app] and [app_v2]). *)
Theorem artifact_seen_by_selector
    (fs : filesystem) (made : datetime) (dir db owner ext : string)
    (exts files : list string) :
  listdir fs dir = Some files ->
  In (artifact_name owner made ext) files ->
  In ext exts ->
  owner = db \/ starts_with owner (db +:+ "_") ->
  In (PyPath.join dir (artifact_name owner made ext))
     (_list_backup_files fs dir db exts).
Proof.
  intros Hdir Hin Hext Howner.
  apply list_backup_files_spec. exists files, (artifact_name owner made ext).
  repeat split; auto.
  - unfold artifact_name. destruct Howner as [->|[r ->]].
    + exists (strftime_Ymd_HMS made +:+ ext). now rewrite !app_assoc.
    + exists (r +:+ "_" +:+ strftime_Ymd_HMS made +:+ ext). now rewrite !app_assoc.
  - exists ext. split; [exact Hext|]. unfold artifact_name.
    exists (owner +:+ "_" +:+ strftime_Ymd_HMS made). now rewrite !app_assoc.
Qed.

Lemma has_char_app c a b : has_char c (a +:+ b) = has_char c a || has_char c b.
Proof.
  induction a as [|x a IH]; [reflexivity|].
  rewrite app_cons. simpl. rewrite IH. now rewrite orb_assoc.
Qed.

Lemma rfind_absent c s : has_char c s = false -> rfind s c = (-1)%Z.
Proof.
  induction s as [|a s IH]; [reflexivity|]. simpl.
  intros H. apply orb_false_iff in H as [Ha Hs]. rewrite (IH Hs), Ha. reflexivity.
Qed.

Lemma rfind_lower s c : (-1 <= rfind s c)%Z.
Proof.
  induction s as [|a s IH]; simpl; [lia|].
  destruct (0 <=? rfind s c)%Z eqn:H; [apply Z.leb_le in H; lia|].
  destruct (Ascii.eqb a c); lia.
Qed.

Lemma rfind_app x f c :
  rfind (x +:+ f) c
  = if (0 <=? rfind f c)%Z then (Z.of_nat (String.length x) + rfind f c)%Z
    else rfind x c.
Proof.
  induction x as [|a x IH]; rewrite ?app_cons.
  - rewrite app_nil_l. simpl. destruct (0 <=? rfind f c)%Z eqn:H; [reflexivity|].
    apply Z.leb_gt in H. pose proof (rfind_lower f c). lia.
  - cbn [rfind String.length]. rewrite IH.
    destruct (0 <=? rfind f c)%Z eqn:H.
    + apply Z.leb_le in H.
      replace (0 <=? Z.of_nat (String.length x) + rfind f c)%Z with true
        by (symmetry; apply Z.leb_le; lia).
      lia.
    + reflexivity.
Qed.

Lemma slice_from_app x f : slice_from (String.length x) (x +:+ f) = f.
Proof. induction x as [|a x IH]; [now destruct f | exact IH]. Qed.

Lemma basename_after_dir x f :
  (x = EmptyString \/ ends_with x "/") -> has_char "/" f = false ->
  PyPath.basename (x +:+ f) = f.
Proof.
  intros Hx Hf. unfold PyPath.basename.
  rewrite rfind_app, (rfind_absent _ _ Hf). cbn [Z.leb Z.compare].
  destruct Hx as [->|[y ->]].
  - simpl. now destruct f.
  - rewrite rfind_app. cbn [rfind Ascii.eqb Bool.eqb Z.leb Z.compare].
    simpl (0 <=? -1)%Z. cbn iota.
    replace (Z.to_nat (Z.of_nat (String.length y) + 0 + 1))
      with (String.length (y +:+ "/")).
    + apply slice_from_app.
    + clear. induction y as [|a y IH]; [reflexivity|].
      rewrite app_cons. cbn [String.length]. rewrite IH. lia.
Qed.

Lemma basename_join dir f :
  has_char "/" f = false -> PyPath.basename (PyPath.join dir f) = f.
Proof.
  intros Hf. unfold PyPath.join.
  assert (Hs : startswith f "/" = false).
  { destruct f as [|a f]; [reflexivity|]. simpl in Hf |- *.
    apply orb_false_iff in Hf as [Ha _]. now rewrite Ha. }
  rewrite Hs.
  destruct (nonempty dir) eqn:Hd; cbn [negb orb].
  - destruct (endswith dir "/") eqn:He.
    + apply basename_after_dir; [right; now apply endswith_spec | exact Hf].
    + replace (dir +:+ "/" +:+ f) with ((dir +:+ "/") +:+ f) by apply app_assoc.
      apply basename_after_dir; [right; now exists dir | exact Hf].
  - destruct dir; [|discriminate]. apply basename_after_dir; [now left | exact Hf].
Qed.

Lemma before_first_app db rest :
  before_first (db +:+ String "_" rest) "_" = before_first db "_".
Proof.
  induction db as [|a db IH]; [reflexivity|].
  rewrite app_cons. simpl. rewrite IH. reflexivity.
Qed.

Lemma before_first_id db : before_first db "_" = db <-> has_char "_" db = false.
Proof.
  induction db as [|a db IH]; [easy|]. simpl.
  destruct (Ascii.eqb a "_") eqn:Ha; simpl.
  - split; discriminate.
  - rewrite <- IH. split; [now intros [= ->] | now intros ->].
Qed.

Lemma digit_not_slash n : Ascii.eqb (digit n) "/" = false.
Proof.
  unfold digit. pose proof (Nat.mod_upper_bound n 10 ltac:(lia)) as H.
  destruct (n mod 10) as [|[|[|[|[|[|[|[|[|[|k]]]]]]]]]]; try reflexivity. lia.
Qed.

Lemma pad2_no_slash n : has_char "/" (pad2 n) = false.
Proof. unfold pad2. cbn [has_char]. now rewrite !digit_not_slash. Qed.

Lemma timestamp_no_slash t : has_char "/" (strftime_Ymd_HMS t) = false.
Proof.
  unfold strftime_Ymd_HMS, strftime_Ymd, pad4.
  rewrite !has_char_app. cbn [has_char].
  rewrite !pad2_no_slash, !digit_not_slash. reflexivity.
Qed.

Lemma artifact_no_slash db t ext :
  has_char "/" db = false -> has_char "/" ext = false ->
  has_char "/" (artifact_name db t ext) = false.
Proof.
  intros Hdb Hext. unfold artifact_name.
  rewrite !has_char_app, Hdb, Hext, timestamp_no_slash. reflexivity.
Qed.

Lemma derived_name dir db t ext :
  has_char "/" db = false -> has_char "/" ext = false ->
  before_first (PyPath.basename (PyPath.join dir (artifact_name db t ext))) "_"
  = before_first db "_".
Proof.
  intros Hdb Hext. rewrite basename_join by now apply artifact_no_slash.
  unfold artifact_name. apply before_first_app.
Qed.

Lemma join_nonempty dir f : nonempty f = true -> nonempty (PyPath.join dir f) = true.
Proof.
  intros Hf. unfold PyPath.join. destruct f as [|a f]; [discriminate|].
  destruct (startswith (String a f) "/"); [reflexivity|].
  destruct (negb (nonempty dir) || endswith dir "/"); destruct dir; reflexivity.
Qed.

(** X7. [restore_database] given only the path of an artifact of [db] restores
    into the database named by what precedes the first underscore of [db]:
    it runs as if that name had been passed.  That name is [db] exactly when
    [db] has no underscore. *)
Theorem restore_from_file_alone E db_conf dir db made ext w :
  truthy (db_conf !! "db") = false ->
  has_char "/" db = false -> has_char "/" ext = false ->
  let fp := PyPath.join dir (artifact_name db made ext) in
  restore_database E db_conf None (Some fp) w
  = restore_database E db_conf (Some (before_first db "_")) (Some fp) w
  /\ (before_first db "_" = db <-> has_char "_" db = false).
Proof.
  intros Hconf Hdb Hext fp. split; [|apply before_first_id].
  pose proof (derived_name dir db made ext Hdb Hext) as Hd. fold fp in Hd.
  assert (Hfp : nonempty fp = true).
  { apply join_nonempty. unfold artifact_name. now destruct db. }
  destruct fp as [|f0 fp]; [discriminate|].
  unfold restore_database.
  destruct (before_first db "_") as [|d0 d] eqn:Hname;
    destruct (db_conf !! "db") as [[|c0 c]|]; try discriminate;
    cbn [truthy if_truthy negb andb]; rewrite ?Hd; reflexivity.
Qed.

(** The artifact of [app_v2] in the sample directory is a candidate for the
    restore of [app]. *)
Lemma artifact_seen_by_selector_witness :
  In "bk/app_v2_20250807_230500.sql"
     (_list_backup_files MoreSpec.bk_files "bk" "app" MYSQL_EXT).
Proof.
  apply (artifact_seen_by_selector MoreSpec.bk_files (mkDatetime 2025 8 7 23 5 0)
           "bk" "app" "app_v2" ".sql" MYSQL_EXT
           ["app_20250806_230117.backup"; "app_20250807_230117.sql";
            "shop_20250807_230117.sql"; "app_v2_20250807_230500.sql"]).
  - reflexivity.
  - right. right. right. left. reflexivity.
  - left. reflexivity.
  - right. now exists "v2".
Defined.

(** Restoring from the path of an artifact of [app_v2] alone targets the
    database [app]. *)
Lemma restore_from_file_alone_witness :
  restore_database Samples.all_succeed Samples.postgres_target None
    (Some "bk/app_v2_20250807_230500.sql") []
  = restore_database Samples.all_succeed Samples.postgres_target (Some "app")
      (Some "bk/app_v2_20250807_230500.sql") [].
Proof.
  exact (proj1 (restore_from_file_alone Samples.all_succeed Samples.postgres_target
                  "bk" "app_v2" (mkDatetime 2025 8 7 23 5 0) ".sql" []
                  ltac:(vm_compute; reflexivity) eq_refl eq_refl)).
Defined.

End NamingFacts.


(** ** The executors: cleanup of a restore, the MySQL backup *)

Module ExecutorFacts.
Import PyStr PyStrMore PyStrFacts PyTime PyOs Main Run RunFacts ClientBackup ClientRestore
       Spec BackupFlow MoreSpec.

(** Every process but those singled out succeeds, so this one did not
    fail. *)
Ltac contradict_failure Hall :=
  match goal with
  | Ho : os_spawn _ ?h ?argv = _ |- _ =>
      let Hs := fresh in
      assert (Hs : succeeded (os_spawn _ h argv) = true)
        by (apply Hall; try (intros Hneq; discriminate Hneq));
      rewrite Ho in Hs; simpl in Hs; congruence
  end.

(** X8. In a container, the outcome of the removal of the staged file has no
    part in the outcome of a restore: when every other process succeeds,
    both restore executors return, whatever that removal does. *)
Theorem restore_ignores_cleanup_outcome
    E db file user password port host a c w :
  let container := Some (String a c) in
  (forall h argv, argv <> cleanup_argv (String a c) file ->
                  succeeded (os_spawn E h argv) = true) ->
  (_restore_postgres E db file user password port host container w).1 = Return tt /\
  (_restore_mysql E db file user password port host container w).1 = Return tt.
Proof.
  intros container Hall. unfold cleanup_argv in Hall. split.
  - unfold _restore_postgres, bind, try_finally, swallow, container.
    destruct (String.eqb _ ".backup"); cbn [if_truthy].
    all: spawn_steps E.
    all: try reflexivity.
    all: contradict_failure Hall.
  - unfold _restore_mysql, bind, try_finally, swallow, mysql_drop_create_cmd, container.
    destruct host as [|h0 host]; cbn [if_truthy nonempty].
    all: spawn_steps E.
    all: try reflexivity.
    all: contradict_failure Hall.
Qed.

(** Restores of [app] in the container [pg] whose removal of the staged
    file fails. *)
Lemma restore_ignores_cleanup_outcome_witness :
  (_restore_postgres
     (MoreSamples.only_cleanup_fails "pg" "bk/app_20250807_230117.backup")
     "app" "bk/app_20250807_230117.backup" "admin" "s3cret"
     "5432" "127.0.0.1" (Some "pg") []).1 = Return tt /\
  (_restore_mysql
     (MoreSamples.only_cleanup_fails "pg" "bk/app_20250807_230117.backup")
     "app" "bk/app_20250807_230117.backup" "admin" "s3cret"
     "5432" "127.0.0.1" (Some "pg") []).1 = Return tt.
Proof.
  apply (restore_ignores_cleanup_outcome
           (MoreSamples.only_cleanup_fails "pg" "bk/app_20250807_230117.backup")
           "app" "bk/app_20250807_230117.backup"
           "admin" "s3cret" "5432" "127.0.0.1" "p" "g" []).
  intros h argv Hne. unfold MoreSamples.only_cleanup_fails. cbn [os_spawn].
  case_bool_decide as Heq; [|reflexivity].
  exfalso. apply Hne. exact Heq.
Defined.

(** X9. A MySQL backup in a container reads the clock once, on entry.  It never
    produces any artifact but the plain dump [<dir>/<db>_<ts>.sql]; an
    invocation that returns has produced it, and it does return when every
    process it starts exits with status 0. *)
Theorem mysql_backup_in_container
    E open_w db user password port host backup_dir a c w :
  let ts := strftime_Ymd_HMS (clock E w) in
  let plain := PyPath.join backup_dir (db +:+ "_" +:+ ts +:+ ".sql") in
  let (r, w') :=
    backup_mysql_db E open_w db user password port host backup_dir
                    (Some (String a c)) w in
  exists evs,
    w' = w ++ EvNow (clock E w) :: evs /\
    (forall t, ~ In (EvNow t) evs) /\
    (artifacts evs = [] \/ artifacts evs = [plain]) /\
    (r = Return tt -> artifacts evs = [plain]) /\
    ((forall h argv, succeeded (os_spawn E h argv) = true) -> r = Return tt).
Proof.
  intros ts plain.
  unfold backup_mysql_db, bind, datetime_now. fold ts. fold plain.
  cbn [if_truthy].
  spawn_steps E.
  all: new_events.
  all: (split; [intros t Hin; cbn [In app] in Hin; intuition discriminate|]).
  all: unfold artifacts; simpl; use_exit_status; simpl.
  all: split; [auto|].
  all: split; [intros Hr; first [discriminate Hr | reflexivity]|].
  all: intros Hall; try reflexivity.
  all: contradict_failure Hall.
Qed.

(** X10. On the host, a MySQL backup opens its artifact for writing before it
    starts the dump.  If the file cannot be opened, no process is started;
    otherwise exactly one is, a [bash -c] of the dump command line without
    its redirection, and the backup returns exactly when that process exits
    with status 0: after a failed dump the opened file is left behind. *)
Theorem mysql_backup_on_host
    E open_w db user password port host backup_dir container w :
  truthy container = false ->
  let ts := strftime_Ymd_HMS (clock E w) in
  let plain := PyPath.join backup_dir (db +:+ "_" +:+ ts +:+ ".sql") in
  let r_plain := "/tmp/" +:+ db +:+ "_" +:+ ts +:+ ".sql" in
  let script :=
    replace (mysqldump_cmd db user password port host r_plain container)
            ("> " +:+ Shlex.quote r_plain) EmptyString in
  let argv := ["bash"; "-c"; script] in
  let w1 := w ++ [EvNow (clock E w)] in
  let (r, w') :=
    backup_mysql_db E open_w db user password port host backup_dir container w in
  match open_w plain w1 with
  | (Raise e, w2) => r = Raise e /\ w' = w2
  | (Return _, w2) =>
      w' = w2 ++ [EvSpawn argv None (os_spawn E w2 argv)] /\
      (r = Return tt <-> succeeded (os_spawn E w2 argv) = true)
  end.
Proof.
  intros Hc ts plain r_plain script argv w1.
  unfold backup_mysql_db, bind, datetime_now.
  fold ts. fold plain. fold r_plain. fold w1.
  assert (Hhost : forall A (yes : string -> A) (no : A), if_truthy container yes no = no).
  { intros. destruct container as [[|? ?]|]; [reflexivity | discriminate | reflexivity]. }
  rewrite Hhost. fold script. fold argv.
  destruct (open_w plain w1) as [[[]|e] w2]; [|split; reflexivity].
  rewrite subprocess_run_eq.
  destruct (os_spawn E w2 argv) as [msg|rc out err] eqn:Ho.
  - split; [reflexivity|]. split; discriminate.
  - cbn [succeeded]. destruct (rc =? 0)%Z eqn:Hrc; cbn [ret];
      (split; [reflexivity|]); split; try discriminate; reflexivity.
Qed.

(** A backup of [shop] on the host: the dump fails, after the file was
    opened. *)
Lemma mysql_backup_on_host_witness :
  (backup_mysql_db Samples.all_fail MoreSamples.quiet "shop" "root" "s3cret"
                   "3306" "127.0.0.1" "bk" None []).1 <> Return tt.
Proof.
  pose proof (mysql_backup_on_host Samples.all_fail MoreSamples.quiet
                "shop" "root" "s3cret" "3306" "127.0.0.1" "bk" None [] eq_refl) as H.
  cbv zeta in H.
  destruct (backup_mysql_db Samples.all_fail MoreSamples.quiet "shop" "root" "s3cret"
                            "3306" "127.0.0.1" "bk" None []) as [r w'].
  cbn [MoreSamples.quiet ret] in H. destruct H as [_ H].
  intros Hr. apply H in Hr. vm_compute in Hr. discriminate Hr.
Defined.

End ExecutorFacts.

(** ** [backup_database] *)

Module BackupFacts.
Import PyStr PyStrMore PyStrFacts PyTime PyOs Main Run RunFacts ClientBackup ClientRestore
       Spec BackupFlow MoreSpec.

(** X11. A configuration entry without [username], or with it but without
    [password], makes both [backup_database] and [restore_database] raise
    the [KeyError] of the first key that is missing: the backup directory
    is not made, no record is logged, no process runs. *)
Theorem missing_credentials E makedirs open_w db_conf db file_path w key :
  (key = "username" /\ db_conf !! "username" = None) \/
  (key = "password" /\ db_conf !! "username" <> None /\
   db_conf !! "password" = None) ->
  backup_database E makedirs open_w db_conf w = (Raise (KeyError key), w) /\
  restore_database E db_conf db file_path w = (Raise (KeyError key), w).
Proof.
  unfold backup_database, restore_database, getitem, bind.
  intros [[-> Hu] | (-> & Hu & Hp)].
  - rewrite Hu. split; reflexivity.
  - destruct (db_conf !! "username") as [u|]; [|congruence].
    rewrite Hp. split; reflexivity.
Qed.

(** An entry with a user name and no password. *)
Lemma missing_credentials_witness :
  backup_database Samples.all_succeed MoreSamples.quiet MoreSamples.quiet
    {[ "username" := "admin" ]} []
  = (Raise (KeyError "password"), []) /\
  restore_database Samples.all_succeed {[ "username" := "admin" ]}
    (Some "app") None []
  = (Raise (KeyError "password"), []).
Proof.
  apply (missing_credentials Samples.all_succeed MoreSamples.quiet MoreSamples.quiet
           {[ "username" := "admin" ]} (Some "app") None [] "password").
  right. split; [reflexivity|]. split; [|reflexivity].
  vm_compute. discriminate.
Defined.

(** X12. For an engine that is neither [postgres], [mysql] nor [mariadb] (in any
    letter case), [backup_database] makes the backup directory, logs that
    the type is unsupported, and returns: no process runs and the caller is
    not told. *)
Theorem unsupported_engine_backs_up_nothing
    E makedirs open_w db_conf user password w w0 :
  db_conf !! "username" = Some user ->
  db_conf !! "password" = Some password ->
  let db_type := lower (default "postgres" (db_conf !! "type")) in
  ~ In db_type ["postgres"; "mysql"; "mariadb"] ->
  makedirs (default "./" (db_conf !! "backup_dir")) w = (Return tt, w0) ->
  backup_database E makedirs open_w db_conf w
  = (Return tt, w0 ++ [EvLog ERROR "Unsupported DB type: %s" [LStr db_type]]).
Proof.
  intros Hu Hp db_type Htype Hmk.
  unfold backup_database, getitem. rewrite Hu, Hp.
  unfold bind at 1 2. cbn [ret]. fold db_type.
  unfold bind at 1, ensure_backup_dir. rewrite Hmk.
  unfold try_except.
  assert (H1 : String.eqb db_type "postgres" = false).
  { apply String.eqb_neq. intros Heq. apply Htype. rewrite Heq. now left. }
  assert (H2 : String.eqb db_type "mysql" = false).
  { apply String.eqb_neq. intros Heq. apply Htype. rewrite Heq. right. now left. }
  assert (H3 : String.eqb db_type "mariadb" = false).
  { apply String.eqb_neq. intros Heq. apply Htype. rewrite Heq. right. right. now left. }
  rewrite H1, H2, H3. reflexivity.
Qed.

(** The backup of a target of type [oracle]. *)
Lemma unsupported_engine_backs_up_nothing_witness :
  backup_database Samples.all_succeed MoreSamples.quiet MoreSamples.quiet
    oracle_target []
  = (Return tt, [EvLog ERROR "Unsupported DB type: %s" [LStr "oracle"]]).
Proof.
  apply (unsupported_engine_backs_up_nothing Samples.all_succeed MoreSamples.quiet
           MoreSamples.quiet oracle_target "admin" "s3cret" [] []).
  - vm_compute. reflexivity.
  - vm_compute. reflexivity.
  - vm_compute. intros [H|[H|[H|[]]]]; discriminate H.
  - reflexivity.
Defined.

Lemma for_each_stops {A} (x : A) rest body w e w1 :
  body x w = (Raise e, w1) -> for_each (x :: rest) body w = (Raise e, w1).
Proof. intros H. cbn [for_each]. unfold bind. now rewrite H. Qed.

(** No process of the PostgreSQL backup is run with capture. *)
Lemma postgres_dump_uncaptured
    E db user password port host dir container w rc cmd text :
  (backup_postgres_db E db user password port host dir container w).1
  <> Raise (CalledProcessError rc cmd (Some text)).
Proof.
  unfold backup_postgres_db, bind, datetime_now.
  destruct container as [[|a c]|]; cbn [if_truthy].
  all: spawn_steps E.
  all: simpl; discriminate.
Qed.

(** X13. When a process of the dump of the first database of a PostgreSQL
    target exits with a non-zero status, [backup_database] does not log the
    failure: its handler fails on the error stream that was not captured,
    and the [AttributeError] reaches the caller.  The history ends with that
    dump: the databases that follow are not dumped. *)
Theorem dump_failure_escapes
    E makedirs open_w db_conf user password w w0 w1 d rest rc cmd s :
  db_conf !! "username" = Some user ->
  db_conf !! "password" = Some password ->
  lower (default "postgres" (db_conf !! "type")) = "postgres" ->
  let port := default "5432" (db_conf !! "port") in
  let host := default "127.0.0.1" (db_conf !! "host") in
  let backup_dir := default "./" (db_conf !! "backup_dir") in
  let container := db_conf !! "container" in
  makedirs backup_dir w = (Return tt, w0) ->
  if_truthy (db_conf !! "db") (fun db => ret [db])
    (list_postgres_databases E user password port host container) w0
  = (Return (d :: rest), w1) ->
  let dump :=
    backup_postgres_db E d user password port host backup_dir container
      (w1 ++ [EvLog INFO "Backing up Postgres DB: %s" [LStr d]]) in
  dump.1 = Raise (CalledProcessError rc cmd s) ->
  backup_database E makedirs open_w db_conf w
  = (Raise (AttributeError "'NoneType' object has no attribute 'strip'"), dump.2).
Proof.
  intros Hu Hp Htype port host backup_dir container Hmk Hdbs dump Hfail.
  unfold backup_database, getitem. rewrite Hu, Hp.
  unfold bind at 1 2. cbn [ret]. rewrite Htype.
  cbn [String.eqb Ascii.eqb Bool.eqb].
  fold port. fold host. fold backup_dir. fold container.
  unfold bind at 1, ensure_backup_dir. rewrite Hmk.
  unfold try_except. unfold bind at 1. rewrite Hdbs.
  cbn [for_each]. unfold bind at 1. unfold bind at 1. cbn [log]. fold dump.
  destruct dump as [r w2] eqn:Hd. simpl in Hfail. subst r. cbn [snd].
  destruct s as [text|]; [|reflexivity].
  exfalso. eapply postgres_dump_uncaptured. unfold dump in Hd. rewrite Hd. reflexivity.
Qed.

(** The backup of [app] on the host, with every process failing. *)
Lemma dump_failure_escapes_witness :
  (backup_database Samples.all_fail MoreSamples.quiet MoreSamples.quiet
     app_target []).1
  = Raise (AttributeError "'NoneType' object has no attribute 'strip'").
Proof.
  rewrite (dump_failure_escapes Samples.all_fail MoreSamples.quiet MoreSamples.quiet
             app_target "admin" "s3cret" [] [] [] "app" [] 1
             ["pg_dump"; "-U"; "admin"; "-h"; "127.0.0.1"; "-p"; "5432"; "-d"; "app";
              "-F"; "p"; "-f"; "bk/app_20250807_230117.sql"] None).
  - reflexivity.
  - vm_compute. reflexivity.
  - vm_compute. reflexivity.
  - vm_compute. reflexivity.
  - reflexivity.
  - vm_compute. reflexivity.
  - vm_compute. reflexivity.
Defined.

Lemma mysql_enumeration_both_fail
    E user password port host container w rc out err rc2 out2 err2 :
  let base := mysql_base_parts user password port host container in
  let retry := without_host_flags base in
  os_spawn E w (exec_argv container base) = Exited rc out err -> rc <> 0%Z ->
  let w1 :=
    w ++ [EvSpawn (exec_argv container base) None (Exited rc out err);
          EvLog WARNING "MySQL SHOW DATABASES failed (%s). Retrying without host..."
                [LInt rc]] in
  os_spawn E w1 (exec_argv container retry) = Exited rc2 out2 err2 -> rc2 <> 0%Z ->
  list_mysql_databases E user password port host container w
  = (Raise (CalledProcessError rc2 (exec_argv container retry) (Some err2)),
     w1 ++ [EvSpawn (exec_argv container retry) None (Exited rc2 out2 err2)]).
Proof.
  intros base retry H1 Hrc w1 H2 Hrc2.
  unfold list_mysql_databases, bind, try_except. fold base.
  rewrite !Enumerator.attempt_eq, subprocess_run_eq, H1.
  destruct (Z.eqb_spec rc 0) as [|_]; [contradiction|].
  unfold log, raise. fold retry.
  rewrite Enumerator.attempt_eq, subprocess_run_eq.
  replace ((w ++ [EvSpawn (exec_argv container base) None (Exited rc out err)]) ++
           [EvLog WARNING "MySQL SHOW DATABASES failed (%s). Retrying without host..."
                  [LInt rc]]) with w1 by (unfold w1; now rewrite <- List.app_assoc).
  rewrite H2. destruct (Z.eqb_spec rc2 0) as [|_]; [contradiction|]. reflexivity.
Qed.

Lemma password_in_base user password port host container :
  In ("-p" +:+ password)
     (exec_argv container
        (without_host_flags (mysql_base_parts user password port host container))).
Proof.
  rewrite Enumerator.retry_is_hostless.
  destruct container as [[|a c]|]; simpl; tauto.
Qed.

(** X14. When both attempts to list the databases of a MySQL target exit with a
    non-zero status, [backup_database] returns after one error record.  The
    record holds the configuration with its password replaced by [***], and
    the command line of the second attempt, which has the password in its
    [-p<password>] part. *)
Theorem mysql_enumeration_failure_logs_password
    E makedirs open_w db_conf user password w w0 rc out err rc2 out2 err2 :
  db_conf !! "username" = Some user ->
  db_conf !! "password" = Some password ->
  let db_type := lower (default "postgres" (db_conf !! "type")) in
  db_type = "mysql" \/ db_type = "mariadb" ->
  truthy (db_conf !! "db") = false ->
  let port := default "3306" (db_conf !! "port") in
  let host := default "127.0.0.1" (db_conf !! "host") in
  let container := db_conf !! "container" in
  makedirs (default "./" (db_conf !! "backup_dir")) w = (Return tt, w0) ->
  let base := mysql_base_parts user password port host container in
  let retry := exec_argv container (without_host_flags base) in
  os_spawn E w0 (exec_argv container base) = Exited rc out err -> rc <> 0%Z ->
  let w1 :=
    w0 ++ [EvSpawn (exec_argv container base) None (Exited rc out err);
           EvLog WARNING "MySQL SHOW DATABASES failed (%s). Retrying without host..."
                 [LInt rc]] in
  os_spawn E w1 retry = Exited rc2 out2 err2 -> rc2 <> 0%Z ->
  backup_database E makedirs open_w db_conf w
  = (Return tt,
     w1 ++ [EvSpawn retry None (Exited rc2 out2 err2);
            EvLog ERROR "Backup failed (%s): rc=%s cmd=%s stderr=%s"
                  [LConf (safe_conf db_conf); LInt rc2; LArgv retry;
                   LStr (strip err2)]]) /\
  safe_conf db_conf !! "password" = Some "***" /\
  In ("-p" +:+ password) retry.
Proof.
  intros Hu Hp db_type Htype Hdb port host container Hmk base retry H1 Hrc w1 H2 Hrc2.
  split; [|split; [now apply (RestoreFlow.safe_conf_password db_conf password)
                  | apply password_in_base]].
  unfold backup_database, getitem. rewrite Hu, Hp.
  unfold bind at 1 2. cbn [ret]. fold db_type.
  assert (Hnpg : String.eqb db_type "postgres" = false)
    by (destruct Htype as [-> | ->]; reflexivity).
  assert (Hmy : String.eqb db_type "mysql" || String.eqb db_type "mariadb" = true)
    by (destruct Htype as [-> | ->]; reflexivity).
  rewrite Hnpg, Hmy. fold port. fold host. fold container.
  unfold bind at 1, ensure_backup_dir. rewrite Hmk.
  unfold try_except. unfold bind at 1.
  assert (Hen : if_truthy (db_conf !! "db") (fun db => ret [db])
                  (list_mysql_databases E user password port host container) w0
                = list_mysql_databases E user password port host container w0).
  { destruct (db_conf !! "db") as [[|? ?]|]; [reflexivity | discriminate | reflexivity]. }
  rewrite Hen.
  rewrite (mysql_enumeration_both_fail E user password port host container
             w0 rc out err rc2 out2 err2 H1 Hrc H2 Hrc2).
  cbn [backup_failure_handler]. unfold log. fold base. fold retry. fold w1.
  now rewrite <- List.app_assoc.
Qed.

(** The backup of a MySQL target on the host, with every process failing:
    the password is in the command line of the error record. *)
Lemma mysql_enumeration_failure_logs_password_witness :
  In "-ps3cret"
     (exec_argv None
        (without_host_flags
           (mysql_base_parts "root" "s3cret" "3306" "127.0.0.1" None))).
Proof.
  refine (proj2 (proj2
    (mysql_enumeration_failure_logs_password Samples.all_fail MoreSamples.quiet
       MoreSamples.quiet mysql_target "root" "s3cret" [] [] 1 EmptyString "ERROR 2002"
       1 EmptyString "ERROR 2002" _ _ _ _ _ _ _ _ _))).
  - vm_compute. reflexivity.
  - vm_compute. reflexivity.
  - left. vm_compute. reflexivity.
  - vm_compute. reflexivity.
  - reflexivity.
  - reflexivity.
  - discriminate.
  - reflexivity.
  - discriminate.
Defined.

(** *** What an enumeration returns *)

(** X15. When an enumeration returns, the last thing it did was to run a process
    that exited with status 0, and the names it returns are the lines of
    the output of that process, stripped, that are not empty and not
    excluded (for MySQL: and that did not start with [Database]).  For
    MySQL that process is the first attempt, or the second after a first
    that failed and a warning. *)
Theorem enumeration_result E user password port host container w dbs w' :
  (list_postgres_databases E user password port host container w = (Return dbs, w') ->
   exists argv env out err,
     w' = w ++ [EvSpawn argv env (Exited 0 out err)] /\
     forall x, In x dbs <->
       exists d, In d (splitlines out) /\ x = strip d /\ x <> EmptyString /\
                 (x ∉ POSTGRES_EXCLUDE)) /\
  (list_mysql_databases E user password port host container w = (Return dbs, w') ->
   exists evs argv out err,
     w' = w ++ evs ++ [EvSpawn argv None (Exited 0 out err)] /\
     (evs = [] \/
      exists first rc o e fmt,
        evs = [EvSpawn first None (Exited rc o e); EvLog WARNING fmt [LInt rc]] /\
        rc <> 0%Z) /\
     forall x, In x dbs <->
       exists d, In d (splitlines out) /\ x = strip d /\ x <> EmptyString /\
                 (x ∉ MYSQL_EXCLUDE) /\ ~ starts_with d "Database").
Proof.
  split.
  - unfold list_postgres_databases, bind.
    destruct container as [[|a c]|]; cbn [if_truthy].
    all: spawn_step E; cbn [ret stdout_of stdout]; intros Hrun; try discriminate Hrun.
    all: injection Hrun as <- <-.
    all: match goal with H : (_ =? 0)%Z = true |- _ => apply Z.eqb_eq in H; subst end.
    all: eexists _, _, out, err; (split; [reflexivity|]).
    all: intros x; apply Enumerator.postgres_names_spec.
  - unfold list_mysql_databases, bind, try_except.
    rewrite !Enumerator.attempt_eq, subprocess_run_eq.
    destruct (os_spawn E w _) as [msg|rc out err] eqn:Ho; [discriminate|].
    destruct (Z.eqb_spec rc 0) as [->|Hrc].
    + cbn [ret stdout_of stdout]. intros Hrun. injection Hrun as <- <-.
      eexists [], _, out, err. split; [reflexivity|]. split; [now left|].
      intros x. apply Enumerator.mysql_names_spec.
    + unfold log, raise. rewrite Enumerator.attempt_eq, subprocess_run_eq.
      match goal with
      | |- context [os_spawn E ?h ?argv] =>
          destruct (os_spawn E h argv) as [msg2|rc2 out2 err2] eqn:Ho2
      end; [discriminate|].
      destruct (Z.eqb_spec rc2 0) as [->|Hrc2]; [|discriminate].
      cbn [ret stdout_of stdout]. intros Hrun. injection Hrun as <- <-.
      eexists [_; _], _, out2, err2. split.
      { rewrite <- !List.app_assoc. reflexivity. }
      split.
      { right. eexists _, rc, out, err, _. split; [reflexivity | exact Hrc]. }
      intros x. apply Enumerator.mysql_names_spec.
Qed.

(** The databases of the sample server: [shop] is returned, as the line
    that holds it, stripped. *)
Lemma enumeration_result_witness :
  exists d,
    In d (splitlines (unlines [" app"; " postgres"; EmptyString; " shop "])) /\
    "shop" = strip d /\ "shop" <> EmptyString /\ ("shop" ∉ POSTGRES_EXCLUDE).
Proof.
  destruct (proj1 (enumeration_result Listings.prints_rows "admin" "s3cret" "5432"
                     "127.0.0.1" None [] ["app"; "shop"]
                     [EvSpawn ["psql"; "-U"; "admin"; "-h"; "127.0.0.1"; "-p"; "5432";
                               "-d"; "postgres"; "-t"; "-c";
                               "SELECT datname FROM pg_database WHERE datistemplate = false;"]
                              (Some [("PGPASSWORD", "s3cret")])
                              (Exited 0
                                 (unlines [" app"; " postgres"; EmptyString; " shop "])
                                 EmptyString)])
                  ltac:(vm_compute; reflexivity))
    as (argv & env & out & err & Hw & Hiff).
  injection Hw as _ _ <- _. apply Hiff. right. left. reflexivity.
Defined.

End BackupFacts.

(** ** The cycle of the daemon *)

Module LoopFacts.
Import PyStr PyStrFacts PyTime PyOs Main Run RunFacts ClientBackup ClientRestore
       Spec BackupFlow MainLoop MoreSpec.

Lemma spawned_now w t : spawned (w ++ [EvNow t]) = spawned w.
Proof. induction w as [|[] w IH]; simpl; auto. now rewrite IH. Qed.

Lemma spawned_log w lvl fmt largs : spawned (w ++ [EvLog lvl fmt largs]) = spawned w.
Proof. induction w as [|[] w IH]; simpl; auto. now rewrite IH. Qed.

Lemma spawned_log_exception w fmt e :
  spawned (w ++ [EvLogException fmt e]) = spawned w.
Proof. induction w as [|[] w IH]; simpl; auto. now rewrite IH. Qed.

(** The guard starts no process. *)
Lemma guard_spawns_nothing E fs_at dir named w :
  spawned (has_today_backup_now E fs_at dir named w).2 = spawned w.
Proof.
  unfold has_today_backup_now. destruct (isdir (fs_at w) dir); [|reflexivity].
  unfold bind, datetime_now.
  destruct (listdir _ dir); apply spawned_now.
Qed.

Lemma for_each_app {A} (l1 l2 : list A) (body : A -> M unit) w :
  for_each (l1 ++ l2) body w
  = match for_each l1 body w with
    | (Return _, w0) => for_each l2 body w0
    | (Raise e, w0) => (Raise e, w0)
    end.
Proof.
  revert w. induction l1 as [|x l1 IH]; intros w; [reflexivity|].
  cbn [for_each app]. unfold bind.
  destruct (body x w) as [[[]|e] w0]; [apply IH | reflexivity].
Qed.

(** X16. When the guard finds a backup of today for every target, [run_once]
    returns without having started a process. *)
Theorem run_once_all_backed_up E makedirs open_w fs_at DATABASES :
  (forall db_conf w, In db_conf DATABASES ->
     (has_today_backup_now E fs_at (default "./" (db_conf !! "backup_dir"))
                           (db_conf !! "db") w).1 = Return true) ->
  forall w,
    let (r, w') := run_once E makedirs open_w fs_at DATABASES w in
    r = Return tt /\ spawned w' = spawned w.
Proof.
  unfold run_once. induction DATABASES as [|c rest IH]; intros Hg w.
  - split; reflexivity.
  - cbn [for_each]. unfold bind at 1, run_once_body at 1. unfold bind at 1.
    pose proof (Hg c w ltac:(now left)) as Hc.
    pose proof (guard_spawns_nothing E fs_at (default "./" (c !! "backup_dir"))
                  (c !! "db") w) as Hsp.
    destruct (has_today_backup_now E fs_at _ _ w) as [r w1]. simpl in Hc, Hsp. subst r.
    assert (Hrest := IH (fun d w' Hd => Hg d w' (or_intror Hd))).
    destruct (c !! "db") as [[|a n]|]; cbn [if_truthy log].
    all: match goal with
         | |- context [for_each ?rs ?b (?wa ++ [?ev])] =>
             specialize (Hrest (wa ++ [ev]));
             destruct (for_each rs b (wa ++ [ev])) as [r2 w2]
         end.
    all: destruct Hrest as [-> Hw2]; split; [reflexivity|].
    all: now rewrite Hw2, spawned_log.
Qed.

(** The target [app], whose directory holds a dump of the day. *)
Lemma run_once_all_backed_up_witness :
  (run_once Samples.all_succeed MoreSamples.quiet MoreSamples.quiet
            (fun _ => bk_files) [app_target] []).1 = Return tt /\
  spawned (run_once Samples.all_succeed MoreSamples.quiet MoreSamples.quiet
                    (fun _ => bk_files) [app_target] []).2 = [].
Proof.
  assert (Hguard : forall db_conf w, In db_conf [app_target] ->
            (has_today_backup_now Samples.all_succeed (fun _ => bk_files)
               (default "./" (db_conf !! "backup_dir")) (db_conf !! "db") w).1
            = Return true).
  { intros db_conf w [<-|[]]. vm_compute. reflexivity. }
  pose proof (run_once_all_backed_up Samples.all_succeed MoreSamples.quiet
                MoreSamples.quiet (fun _ => bk_files) [app_target] Hguard []) as H.
  destruct (run_once Samples.all_succeed MoreSamples.quiet MoreSamples.quiet
                     (fun _ => bk_files) [app_target] []) as [r w'].
  exact H.
Defined.

(** X17. When the visit of a target raises, [run_once] raises at once: the
    targets listed after it are not visited.  The cycle of the daemon
    records the exception and returns. *)
Theorem failing_target_ends_cycle
    E makedirs open_w fs_at before c rest interval w w0 e w1 :
  run_once E makedirs open_w fs_at before w = (Return tt, w0) ->
  run_once_body E makedirs open_w fs_at c w0 = (Raise e, w1) ->
  run_once E makedirs open_w fs_at (before ++ c :: rest) w = (Raise e, w1) /\
  daemon_cycle E makedirs open_w fs_at (before ++ c :: rest) interval w
  = (Return tt, w1 ++ [EvLogException "Error durante ciclo de respaldo" e]).
Proof.
  intros Hbefore Hc.
  assert (Hrun : run_once E makedirs open_w fs_at (before ++ c :: rest) w
                 = (Raise e, w1)).
  { unfold run_once in *. rewrite for_each_app, Hbefore.
    cbn [for_each]. unfold bind. now rewrite Hc. }
  split; [exact Hrun|].
  unfold daemon_cycle, try_except, bind. now rewrite Hrun.
Qed.

(** A target without password listed before [app]: [app] is not backed
    up. *)
Lemma failing_target_ends_cycle_witness :
  (run_once Samples.all_succeed MoreSamples.quiet MoreSamples.quiet
            (fun _ => Samples.no_files)
            [ {[ "username" := "admin" ]}; app_target ] []).1
  = Raise (KeyError "password") /\
  spawned (run_once Samples.all_succeed MoreSamples.quiet MoreSamples.quiet
                    (fun _ => Samples.no_files)
                    [ {[ "username" := "admin" ]}; app_target ] []).2 = [].
Proof.
  destruct (failing_target_ends_cycle Samples.all_succeed MoreSamples.quiet
              MoreSamples.quiet (fun _ => Samples.no_files) []
              {[ "username" := "admin" ]} [app_target] 60 [] []
              (KeyError "password")
              (run_once_body Samples.all_succeed MoreSamples.quiet MoreSamples.quiet
                 (fun _ => Samples.no_files) {[ "username" := "admin" ]} []).2
              eq_refl
              ltac:(apply injective_projections;
                    [vm_compute; reflexivity | reflexivity])) as [Hrun _].
  cbn [app] in Hrun. rewrite Hrun. split; [reflexivity|].
  vm_compute. reflexivity.
Defined.

(** X18. The [try] statement of a cycle of the daemon returns whatever
    [run_once] did, after one more record: of completion if [run_once]
    returned, of the exception if it raised.  The daemon raises what
    [init_logging()] raises, before any cycle.  Otherwise, when
    [time.sleep] raises for the interval (a negative one: [ValueError]), the
    daemon raises that after the [try] statement of its first cycle; when it
    does not, the daemon, cut after any number of cycles, has not raised. *)
Theorem daemon_raises_only_outside_try
    E makedirs open_w fs_at init_logging sleep_refused DATABASES interval :
  (forall w,
     let (r, w1) := run_once E makedirs open_w fs_at DATABASES w in
     daemon_cycle E makedirs open_w fs_at DATABASES interval w
     = (Return tt,
        w1 ++ [match r with
               | Return _ =>
                   EvLog INFO "Verificación completada. Próxima en %s segundos"
                         [LInt interval]
               | Raise e => EvLogException "Error durante ciclo de respaldo" e
               end])) /\
  (forall n w,
     let run := daemon E makedirs open_w fs_at init_logging sleep_refused
                  DATABASES interval n w in
     match init_logging w with
     | (Raise e, w0) => run = (Raise e, w0)
     | (Return _, w0) =>
         let w1 := w0 ++ [EvLog INFO "Iniciando daemon de respaldo (intervalo=%ss)"
                                [LInt interval]] in
         match n, sleep_error sleep_refused interval with
         | O, _ => run = (Return tt, w1)
         | S _, Some e =>
             run = (Raise e,
                    (daemon_cycle E makedirs open_w fs_at DATABASES interval w1).2)
         | S _, None => run.1 = Return tt
         end
     end) /\
  ((interval < 0)%Z ->
   sleep_error sleep_refused interval
   = Some (ValueError "sleep length must be non-negative")).
Proof.
  assert (Hcycle : forall w,
            let (r, w1) := run_once E makedirs open_w fs_at DATABASES w in
            daemon_cycle E makedirs open_w fs_at DATABASES interval w
            = (Return tt,
               w1 ++ [match r with
                      | Return _ =>
                          EvLog INFO "Verificación completada. Próxima en %s segundos"
                                [LInt interval]
                      | Raise e => EvLogException "Error durante ciclo de respaldo" e
                      end])).
  { intros w. unfold daemon_cycle, try_except, bind.
    destruct (run_once E makedirs open_w fs_at DATABASES w) as [[[]|e] w1];
      reflexivity. }
  split; [exact Hcycle|]. split.
  - intros n w. cbv zeta.
    assert (Hd : daemon E makedirs open_w fs_at init_logging sleep_refused
                   DATABASES interval n w
                 = match init_logging w with
                   | (Return _, w0) =>
                       daemon_cycles E makedirs open_w fs_at sleep_refused
                         DATABASES interval n
                         (w0 ++ [EvLog INFO
                                   "Iniciando daemon de respaldo (intervalo=%ss)"
                                   [LInt interval]])
                   | (Raise e, w0) => (Raise e, w0)
                   end).
    { unfold daemon, bind, log. destruct (init_logging w) as [[path|e] w0];
        reflexivity. }
    rewrite Hd. clear Hd.
    destruct (init_logging w) as [[path|e] w0]; [|reflexivity].
    generalize (w0 ++ [EvLog INFO "Iniciando daemon de respaldo (intervalo=%ss)"
                             [LInt interval]]).
    clear w w0. intros w.
    destruct n as [|n]; [reflexivity|].
    destruct (sleep_error sleep_refused interval) as [e|] eqn:Hsleep.
    + cbn [daemon_cycles]. unfold bind at 1.
      specialize (Hcycle w).
      destruct (run_once E makedirs open_w fs_at DATABASES w) as [r w1].
      rewrite Hcycle. unfold bind at 1, time_sleep. rewrite Hsleep. reflexivity.
    + revert w. induction n as [|n IH]; intros w.
      * cbn [daemon_cycles]. unfold bind at 1.
        specialize (Hcycle w).
        destruct (run_once E makedirs open_w fs_at DATABASES w) as [r w1].
        rewrite Hcycle. unfold bind at 1, time_sleep. rewrite Hsleep. reflexivity.
      * cbn [daemon_cycles]. unfold bind at 1.
        specialize (Hcycle w).
        destruct (run_once E makedirs open_w fs_at DATABASES w) as [r w1].
        rewrite Hcycle. unfold bind at 1, time_sleep at 1. rewrite Hsleep.
        cbn [ret]. apply IH.
  - intros Hneg. unfold sleep_error.
    destruct (Z.ltb_spec interval 0) as [_|Hge]; [reflexivity | lia].
Qed.

(** The daemon started with the interval -1: it raises after the [try]
    statement of its first cycle. *)
Lemma daemon_raises_only_outside_try_witness :
  (daemon Samples.all_succeed MoreSamples.quiet MoreSamples.quiet
          (fun _ => Samples.no_files) (ret "logs/2025-08-07.log") (fun _ => None)
          [] (-1) 3 []).1
  = Raise (ValueError "sleep length must be non-negative").
Proof.
  pose proof (proj1 (proj2
    (daemon_raises_only_outside_try Samples.all_succeed MoreSamples.quiet
       MoreSamples.quiet (fun _ => Samples.no_files) (ret "logs/2025-08-07.log")
       (fun _ => None) [] (-1))) 3 []) as H.
  cbv zeta in H. cbn [ret] in H.
  change (sleep_error (fun _ => None) (-1))
    with (Some (ValueError "sleep length must be non-negative")) in H.
  cbv iota in H. rewrite H. reflexivity.
Defined.

End LoopFacts.

(** ** The restore flow, further *)

Module RestoreFacts.
Import PyStr PyStrFacts PyTime PyOs Main Run RunFacts ClientBackup ClientRestore
       Spec MoreSpec.

Lemma handlers_agree (c1 c2 : gmap string string) e w :
  (restore_failure_handler c1 e w).1 = (restore_failure_handler c2 e w).1 /\
  spawned (restore_failure_handler c1 e w).2
  = spawned (restore_failure_handler c2 e w).2.
Proof.
  destruct e as [rc cmd [text|]| | | |]; cbn; split; try reflexivity.
  now rewrite !LoopFacts.spawned_log.
Qed.

Lemma bind_ret_l {A B} (a : A) (k : A -> M B) w : bind (ret a) k w = k a w.
Proof. reflexivity. Qed.

(** X19. The engine type is checked only while a file is looked for.  Given a
    file, [restore_database] hands every target whose type is not
    [postgres], whatever it is, to the MySQL executor: it returns what it
    returns, and runs the processes it runs, for the same target with type
    [mysql]. *)
Theorem restore_with_file_skips_engine_check E db_conf db a fp w :
  lower (default "postgres" (db_conf !! "type")) <> "postgres" ->
  let as_mysql := <[ "type" := "mysql" ]> db_conf in
  let run := restore_database E db_conf db (Some (String a fp)) w in
  let run_mysql := restore_database E as_mysql db (Some (String a fp)) w in
  run.1 = run_mysql.1 /\ spawned run.2 = spawned run_mysql.2.
Proof.
  intros Htype as_mysql run run_mysql. unfold run, run_mysql, as_mysql.
  apply String.eqb_neq in Htype.
  assert (Hl : forall k, "type" <> k ->
            <[ "type" := "mysql" ]> db_conf !! k = db_conf !! k)
    by (intros k Hk; now apply lookup_insert_ne).
  assert (Ht : <[ "type" := "mysql" ]> db_conf !! "type" = Some "mysql")
    by apply lookup_insert_eq.
  assert (Hm : String.eqb (lower (default "postgres" (Some "mysql"))) "postgres"
               = false) by reflexivity.
  unfold restore_database, getitem.
  rewrite Ht, (Hl "username"), (Hl "password"), (Hl "port"), (Hl "host"),
    (Hl "container"), (Hl "backup_dir"), (Hl "db") by discriminate.
  rewrite Htype, Hm.
  destruct (db_conf !! "username") as [user|]; [|split; reflexivity].
  destruct (db_conf !! "password") as [password|]; [|split; reflexivity].
  rewrite !bind_ret_l.
  cbn [truthy negb andb]. rewrite !andb_false_r. cbn iota.
  unfold try_except.
  match goal with
  | |- context [match ?body w with _ => _ end] => destruct (body w) as [[r|e] w1]
  end.
  - split; reflexivity.
  - apply handlers_agree.
Qed.

(** A target of type [oracle] restored from a file. *)
Lemma restore_with_file_skips_engine_check_witness :
  (restore_database Samples.all_succeed oracle_target (Some "app")
     (Some "bk/app_20250807_230117.sql") []).1
  = (restore_database Samples.all_succeed (<[ "type" := "mysql" ]> oracle_target)
       (Some "app") (Some "bk/app_20250807_230117.sql") []).1.
Proof.
  exact (proj1 (restore_with_file_skips_engine_check Samples.all_succeed oracle_target
                  (Some "app") "b" "k/app_20250807_230117.sql" []
                  ltac:(vm_compute; discriminate))).
Defined.

End RestoreFacts.

(** ** Choosing the configuration entry; the redacted configuration *)

Module CliFacts.
Import PyStr PyStrFacts PyTime PyOs Main Run RunFacts ClientBackup ClientRestore
       Spec RestoreCli MoreSpec.

Lemma filter_single {A} (p : A -> bool) (l : list A) (c : A) :
  List.filter p l = [c] <->
  exists l1 l2, l = l1 ++ c :: l2 /\ p c = true /\
                forall x, In x (l1 ++ l2) -> p x = false.
Proof.
  assert (Hnil : forall l0 : list A,
            List.filter p l0 = [] <-> forall x, In x l0 -> p x = false).
  { intros l0. induction l0 as [|a l0 IH]; simpl.
    - split; [intros _ x [] | reflexivity].
    - destruct (p a) eqn:Hpa.
      + split; [discriminate|]. intros H. rewrite (H a) in Hpa by now left. discriminate.
      + rewrite IH. split; [intros H x [<-|Hx]; auto | intros H x Hx; apply H; now right]. }
  induction l as [|a l IH]; simpl.
  - split; [discriminate | intros ([|? ?] & ? & H & _); discriminate].
  - destruct (p a) eqn:Hpa.
    + split.
      * intros H. injection H as Ha Hl. subst a. exists [], l.
        repeat split; auto. simpl. now apply Hnil.
      * intros (l1 & l2 & Heq & Hpc & Hrest). destruct l1 as [|b l1].
        -- simpl in Heq. injection Heq as Ha Hl. subst a l. f_equal.
           apply Hnil. exact Hrest.
        -- simpl in Heq. injection Heq as Ha Hl. subst b.
           rewrite (Hrest a) in Hpa by now left. discriminate.
    + rewrite IH. split.
      * intros (l1 & l2 & -> & Hpc & Hrest). exists (a :: l1), l2.
        repeat split; auto. intros x [<-|Hx]; auto.
      * intros (l1 & l2 & Heq & Hpc & Hrest). destruct l1 as [|b l1].
        -- simpl in Heq. injection Heq as Ha Hl. subst a. congruence.
        -- simpl in Heq. injection Heq as Ha Hl. subst b l. exists l1, l2.
           repeat split; auto. intros x Hx. apply Hrest. now right.
Qed.

Lemma filter_filter_and {A} (p q : A -> bool) (l : list A) :
  List.filter q (List.filter p l) = List.filter (fun x => p x && q x) l.
Proof.
  induction l as [|a l IH]; [reflexivity|]. simpl.
  destruct (p a); simpl; [destruct (q a); now rewrite IH | exact IH].
Qed.

Lemma selects_b_spec db_type container c :
  selects_b db_type container c = true <-> selects db_type container c.
Proof.
  unfold selects_b, selects. rewrite andb_true_iff, String.eqb_eq.
  destruct container as [[|a n]|]; cbn [if_truthy]; rewrite ?bool_decide_eq_true; tauto.
Qed.

Lemma matches_eq config db_type container :
  if_truthy container
    (fun name =>
       List.filter (fun c => bool_decide (c !! "container" = Some name))
         (List.filter
            (fun c => String.eqb (lower (default "postgres" (c !! "type"))) db_type)
            config))
    (List.filter
       (fun c => String.eqb (lower (default "postgres" (c !! "type"))) db_type)
       config)
  = List.filter (selects_b db_type container) config.
Proof.
  unfold selects_b. destruct container as [[|a n]|]; cbn [if_truthy];
    rewrite ?filter_filter_and; apply filter_ext; intros c; now rewrite ?andb_true_r.
Qed.

(** X20. [_select_config] returns an entry exactly when one entry of the
    configuration, and no other, is of the engine asked for (and of the
    container, when one is asked for): that entry.  Otherwise, with no such
    entry or with several, it returns [None] after one error record.  An
    entry without [type] counts as [postgres]; a container given as the
    empty string is no filter. *)
Theorem select_config_unique config db_type container w :
  let (r, w') := _select_config config db_type container w in
  (forall c,
     r = Return (Some c) <->
     exists l1 l2, config = l1 ++ c :: l2 /\ selects db_type container c /\
                   forall x, In x (l1 ++ l2) -> ~ selects db_type container x) /\
  (r = Return None \/ exists c, r = Return (Some c)) /\
  (r <> Return None -> w' = w) /\
  (r = Return None -> exists fmt largs, w' = w ++ [EvLog ERROR fmt largs]).
Proof.
  unfold _select_config. rewrite matches_eq.
  pose proof (filter_single (selects_b db_type container) config) as Hsingle.
  assert (Hiff : forall c,
            List.filter (selects_b db_type container) config = [c] <->
            exists l1 l2, config = l1 ++ c :: l2 /\ selects db_type container c /\
                          forall x, In x (l1 ++ l2) -> ~ selects db_type container x).
  { intros c. rewrite Hsingle. split; intros (l1 & l2 & Heq & Hc & Hrest);
      exists l1, l2; (split; [exact Heq|]); (split; [now apply selects_b_spec|]);
      intros x Hx.
    - intros Hs. apply selects_b_spec in Hs. rewrite (Hrest x Hx) in Hs. discriminate.
    - apply not_true_iff_false. intros Hs. apply (Hrest x Hx). now apply selects_b_spec. }
  destruct (List.filter (selects_b db_type container) config) as [|c0 [|c1 more]].
  - unfold bind, log, ret. repeat split.
    + discriminate.
    + intros H. apply Hiff in H. discriminate.
    + now left.
    + intros H. now contradiction H.
    + intros _. eauto.
  - unfold ret. repeat split.
    + intros [= <-]. now apply Hiff.
    + intros H. apply Hiff in H. now injection H as ->.
    + right. eauto.
    + discriminate.
  - unfold bind, log, ret. repeat split.
    + discriminate.
    + intros H. apply Hiff in H. discriminate.
    + now left.
    + intros H. now contradiction H.
    + intros _. eauto.
Qed.

(** X21. The configuration as the error records show it has the keys of the
    configuration, the value [***] under [password] if that key is there,
    and every other value as it is: a password under another key, or in
    another value, is not hidden. *)
Theorem redaction_keeps_all_but_password (db_conf : gmap string string) :
  dom (safe_conf db_conf) = dom db_conf /\
  (forall v, safe_conf db_conf !! "password" = Some v -> v = "***") /\
  (forall k, k <> "password" -> safe_conf db_conf !! k = db_conf !! k).
Proof.
  split; [|split].
  - apply set_eq. intros k. rewrite !elem_of_dom. unfold safe_conf.
    rewrite map_lookup_imap. destruct (db_conf !! k); simpl; split; intros [x Hx]; eauto; discriminate.
  - intros v. unfold safe_conf. rewrite map_lookup_imap.
    destruct (db_conf !! "password"); simpl; [now intros [= <-] | discriminate].
  - apply RestoreFlow.safe_conf_other.
Qed.

End CliFacts.

(** ** Configuration of the logging facility *)

Module LoggingFacts.
Import PyStr PyTime PyOs Run LoggingConfig.

(** X22. [init_logging] configures the root logger once.  A call that returns
    on a root logger without handlers leaves it with a file handler and a
    console handler, at the level asked for; every later call, whatever its
    arguments, changes nothing, reads no clock, touches no file, and
    returns the path the file handler keeps: the absolute form of the path
    that the first call returned. *)
Theorem init_logging_idempotent
    E makedirs open_log abspath level log_dir filename fmt root w path root1 w1 :
  handlers root = [] ->
  init_logging E makedirs open_log abspath level log_dir filename fmt root w
  = ((Return path, root1), w1) ->
  root1 = mkRoot [mkHandler (Some (abspath path)) (Some fmt);
                  mkHandler None (Some fmt)] level /\
  forall level' log_dir' filename' fmt' w',
    init_logging E makedirs open_log abspath level' log_dir' filename' fmt' root1 w'
    = ((Return (abspath path), root1), w').
Proof.
  intros Hnone Hrun. unfold init_logging in Hrun. rewrite Hnone in Hrun.
  destruct (makedirs log_dir w) as [[[]|e] w0]; [|discriminate Hrun].
  destruct (if_truthy filename _ _) as [name w2].
  cbn [handlers logger_level] in Hrun.
  destruct (open_log _ w2) as [[[]|e] w3]; [|discriminate Hrun].
  injection Hrun as <- <- <-. split; [reflexivity|].
  intros. reflexivity.
Qed.

(** The first call of a day, then a call with other arguments. *)
Lemma init_logging_idempotent_witness :
  init_logging Samples.all_succeed MoreSamples.quiet MoreSamples.quiet
    (fun p => "/srv/" +:+ p) 10 "elsewhere" (Some "other.log") "%(message)s"
    (mkRoot [mkHandler (Some "/srv/logs/2025-08-07.log") (Some "%(levelname)s");
             mkHandler None (Some "%(levelname)s")] 20)
    []
  = ((Return "/srv/logs/2025-08-07.log",
      mkRoot [mkHandler (Some "/srv/logs/2025-08-07.log") (Some "%(levelname)s");
              mkHandler None (Some "%(levelname)s")] 20),
     []).
Proof.
  destruct (init_logging_idempotent Samples.all_succeed MoreSamples.quiet
              MoreSamples.quiet (fun p => "/srv/" +:+ p) 20 "logs" None
              "%(levelname)s" (mkRoot [] 30) []
              "logs/2025-08-07.log"
              (mkRoot [mkHandler (Some "/srv/logs/2025-08-07.log")
                                 (Some "%(levelname)s");
                       mkHandler None (Some "%(levelname)s")] 20)
              [EvNow Samples.evening]
              eq_refl ltac:(vm_compute; reflexivity)) as [_ Hlater].
  exact (Hlater 10%Z "elsewhere" (Some "other.log") "%(message)s" []).
Defined.

End LoggingFacts.

(** ** Digest and copy of a file *)

Module CheckFacts.
Import PyStr Run Check.

Lemma chunk_rest {A} (n : nat) (r : list A) :
  take n r ++ drop (length (take n r)) r = r.
Proof.
  revert n. induction r as [|x r IH]; intros [|n]; simpl; try reflexivity.
  f_equal. apply IH.
Qed.

(** A read that is served, of a size other than 0: the chunk and what
    follows it make up what followed, and the chunk is empty only at the
    end of the file. *)
Lemma read_spec read_refused fs file c pos size chunk :
  fs !! file = Some c -> size <> 0%Z ->
  read read_refused fs file pos size = Return chunk ->
  chunk ++ drop (pos + length chunk) c = drop pos c /\
  (chunk = [] -> drop pos c = []).
Proof.
  intros Hc Hsize. unfold read. rewrite Hc.
  change (default [] (Some c)) with c.
  rewrite <- drop_drop.
  destruct (size <? -1)%Z eqn:Hlow; [discriminate|].
  destruct (size =? -1)%Z eqn:Hall.
  - intros [= <-]. split; [|auto]. now rewrite drop_all, app_nil_r.
  - destruct (read_refused size); [discriminate|]. intros [= <-].
    apply Z.ltb_ge in Hlow. apply Z.eqb_neq in Hall.
    split; [apply chunk_rest|].
    destruct (Z.to_nat size) as [|n] eqn:Hn; [lia|].
    destruct (drop pos c); [reflexivity | intros H; discriminate H].
Qed.

Lemma read_served read_refused fs file pos size :
  (-1 <= size)%Z -> size = (-1)%Z \/ read_refused size = None ->
  exists chunk, read read_refused fs file pos size = Return chunk.
Proof.
  intros Hlow Hok. unfold read.
  destruct (Z.ltb_spec size (-1)) as [|_]; [lia|].
  destruct (Z.eqb_spec size (-1)) as [|Hne]; [eauto|].
  destruct Hok as [Heq | Href]; [contradiction | rewrite Href; eauto].
Qed.

Lemma sha256_loop_feeds read_refused fs file c size :
  fs !! file = Some c -> size <> 0%Z ->
  (-1 <= size)%Z -> size = (-1)%Z \/ read_refused size = None ->
  forall fuel pos fed,
    fed ++ drop pos c = c -> length (drop pos c) < fuel ->
    sha256_loop read_refused fuel fs file pos size fed = Some (Return c).
Proof.
  intros Hc Hsize Hlow Hok.
  induction fuel as [|k IH]; intros pos fed Hfed Hfuel; [lia|].
  cbn [sha256_loop].
  destruct (read_served read_refused fs file pos size Hlow Hok) as [chunk Hread].
  rewrite Hread.
  destruct (read_spec read_refused fs file c pos size chunk Hc Hsize Hread)
    as [Hsplit Hend].
  destruct chunk as [|b chunk].
  - rewrite (Hend eq_refl), app_nil_r in Hfed. now subst.
  - apply IH.
    + rewrite <- Hfed at 2. rewrite <- Hsplit. now rewrite <- app_assoc.
    + rewrite <- Hsplit in Hfuel. rewrite length_app in Hfuel.
      cbn [length] in Hfuel |- *. lia.
Qed.

(** X23. For a file that is there and can be read, given enough reads,
    [file_sha256sum] raises [ValueError] for a chunk size below -1 and what
    the platform refuses the size with, if it does; otherwise it returns
    the digest of the bytes of the file, the same for every chunk size but
    0: the chunks fed to the hash object make up the file, whether they are
    cut at a positive size or, with -1, are the whole file at once.  With
    chunk size 0 the first read is empty, and the digest is that of no
    bytes, whatever the file holds.  [verify_file_integrity] compares the
    digest of the bytes of the file with the expected one, as strings. *)
Theorem file_sha256sum_chunking
    file_of readable strerror read_refused sha256_hex
    fuel fs filepath chunk_size expected c :
  readable filepath = true ->
  fs !! file_of filepath = Some c ->
  length c < fuel ->
  file_sha256sum file_of readable strerror read_refused sha256_hex
    fuel fs filepath chunk_size
  = Some (if (chunk_size <? -1)%Z then
            Raise (ValueError "read length must be non-negative or -1")
          else if (chunk_size =? -1)%Z then Return (sha256_hex c)
          else
            match read_refused chunk_size with
            | Some e => Raise e
            | None =>
                Return (sha256_hex (if (chunk_size =? 0)%Z then [] else c))
            end) /\
  verify_file_integrity file_of readable strerror read_refused sha256_hex
    fuel fs filepath expected
  = Some (match read_refused 8192%Z with
          | Some e => Raise e
          | None => Return (String.eqb (sha256_hex c) expected)
          end).
Proof.
  intros Hr Hc Hfuel.
  assert (Hsum : forall size,
            file_sha256sum file_of readable strerror read_refused sha256_hex
              fuel fs filepath size
            = Some (if (size <? -1)%Z then
                      Raise (ValueError "read length must be non-negative or -1")
                    else if (size =? -1)%Z then Return (sha256_hex c)
                    else
                      match read_refused size with
                      | Some e => Raise e
                      | None =>
                          Return (sha256_hex (if (size =? 0)%Z then [] else c))
                      end)).
  { intros size. unfold file_sha256sum, open_rb. rewrite Hc, Hr.
    destruct (Z.ltb_spec size (-1)) as [Hlow|Hlow].
    { destruct fuel as [|k]; [lia|]. cbn [sha256_loop]. unfold read.
      destruct (Z.ltb_spec size (-1)) as [_|]; [reflexivity | lia]. }
    destruct (Z.eqb_spec size (-1)) as [->|Hne].
    { rewrite (sha256_loop_feeds read_refused fs (file_of filepath) c (-1) Hc
                 ltac:(discriminate) ltac:(lia) (or_introl eq_refl) fuel 0 []
                 ltac:(now rewrite drop_0) ltac:(now rewrite drop_0)).
      reflexivity. }
    destruct (read_refused size) as [e|] eqn:Href.
    { destruct fuel as [|k]; [lia|]. cbn [sha256_loop]. unfold read.
      destruct (Z.ltb_spec size (-1)) as [|_]; [lia|].
      destruct (Z.eqb_spec size (-1)) as [|_]; [lia|].
      now rewrite Href. }
    destruct (Z.eqb_spec size 0) as [->|Hsize].
    { destruct fuel as [|k]; [lia|]. cbn [sha256_loop]. unfold read.
      rewrite Href. reflexivity. }
    rewrite (sha256_loop_feeds read_refused fs (file_of filepath) c size Hc Hsize
               ltac:(lia) (or_intror Href) fuel 0 []
               ltac:(now rewrite drop_0) ltac:(now rewrite drop_0)).
    reflexivity. }
  split; [apply Hsum|].
  unfold verify_file_integrity. rewrite Hsum.
  change (8192 <? -1)%Z with false. change (8192 =? -1)%Z with false.
  change (8192 =? 0)%Z with false. cbv iota.
  destruct (read_refused 8192%Z); reflexivity.
Qed.

(** A file of three bytes read two at a time, with the bytes fed as their
    own digest. *)
Lemma file_sha256sum_chunking_witness :
  file_sha256sum (fun _ => 1) (fun _ => true) (fun _ => "No such file or directory")
    (fun _ => None) string_of_list_byte 4
    {[ 1 := [Byte.x61; Byte.x62; Byte.x63] ]} "a.bin" 2
  = Some (Return "abc").
Proof.
  refine (proj1 (file_sha256sum_chunking _ _ _ _ _ _ _ _ _ "abc"
                   [Byte.x61; Byte.x62; Byte.x63] _ _ _)).
  - reflexivity.
  - vm_compute. reflexivity.
  - cbn [length]. lia.
Defined.

Lemma copy_loop_copies read_refused fsrc fdst c :
  fsrc <> fdst -> read_refused 8192%Z = None ->
  forall fuel pos fs d,
    fs !! fsrc = Some c -> fs !! fdst = Some d ->
    d ++ drop pos c = c -> length (drop pos c) < fuel ->
    copy_loop read_refused fuel fsrc fdst pos fs
    = Some (Return tt, <[ fdst := c ]> fs).
Proof.
  intros Hne Href.
  induction fuel as [|k IH]; intros pos fs d Hsrc Hdst Hd Hfuel; [lia|].
  cbn [copy_loop].
  destruct (read_served read_refused fs fsrc pos 8192 ltac:(lia) (or_intror Href))
    as [chunk Hread].
  rewrite Hread.
  destruct (read_spec read_refused fs fsrc c pos 8192 chunk Hsrc ltac:(discriminate)
              Hread) as [Hsplit Hend].
  destruct chunk as [|b chunk].
  - rewrite (Hend eq_refl), app_nil_r in Hd. subst d.
    now rewrite insert_id.
  - unfold write. rewrite Hdst. change (default [] (Some d)) with d.
    rewrite (IH _ _ (d ++ b :: chunk)).
    + now rewrite insert_insert_eq.
    + now rewrite lookup_insert_ne.
    + now rewrite lookup_insert_eq.
    + rewrite <- Hd at 2. rewrite <- Hsplit. now rewrite <- app_assoc.
    + rewrite <- Hsplit in Hfuel. rewrite length_app in Hfuel.
      cbn [length] in Hfuel |- *. lia.
Qed.

(** X24. [copy_file] of a source that is there and can be read, given
    enough reads (each of them served): when the destination can be opened,
    it ends up with the bytes of the source if it is another file, and no
    other file changes; when both paths denote one file, whatever their
    spelling, that file ends up empty.  When the destination cannot be
    opened, it raises and the files are as they were. *)
Theorem copy_file_outcome
    file_of readable writable strerror read_refused fuel src dst fs c :
  readable src = true ->
  fs !! file_of src = Some c ->
  read_refused 8192%Z = None ->
  length c < fuel ->
  copy_file file_of readable writable strerror read_refused fuel src dst fs
  = Some (if writable dst
          then (Return tt,
                <[ file_of dst :=
                     if bool_decide (file_of src = file_of dst) then [] else c ]> fs)
          else (Raise (OSError (strerror dst)), fs)).
Proof.
  intros Hr Hc Href Hfuel. unfold copy_file, open_rb. rewrite Hc, Hr.
  destruct (writable dst); [|reflexivity].
  case_bool_decide as Heq.
  - rewrite Heq. destruct fuel as [|k]; [lia|]. cbn [copy_loop]. unfold read.
    rewrite lookup_insert_eq, Href. reflexivity.
  - rewrite (copy_loop_copies read_refused (file_of src) (file_of dst) c Heq Href
               fuel 0 _ []).
    + now rewrite insert_insert_eq.
    + now rewrite lookup_insert_ne.
    + now rewrite lookup_insert_eq.
    + now rewrite drop_0.
    + now rewrite drop_0.
Qed.

(** A file of three bytes copied onto itself under another spelling of its
    path. *)
Lemma copy_file_outcome_witness :
  copy_file (fun p => if String.eqb p "b.bin" then 2 else 1)
    (fun _ => true) (fun _ => true) (fun _ => "No such file or directory")
    (fun _ => None) 4 "a.bin" "./a.bin"
    {[ 1 := [Byte.x61; Byte.x62; Byte.x63] ]}
  = Some (Return tt, <[ 1 := [] ]> {[ 1 := [Byte.x61; Byte.x62; Byte.x63] ]}).
Proof.
  rewrite (copy_file_outcome _ _ _ _ _ _ _ _ _ [Byte.x61; Byte.x62; Byte.x63]).
  - reflexivity.
  - reflexivity.
  - vm_compute. reflexivity.
  - reflexivity.
  - cbn [length]. lia.
Defined.

End CheckFacts.
